(* ===== verification/_CoqProject ===== *)
-Q . S2P
Prelude.v
PyStr.v
PyFloat.v
DateTime.v
Strptime.v
Csv.v
FileSys.v
FsTree.v
Exif.v
SunPath.v
HdrRaw.v
Numeric.v
FindFiles.v
RunCmd.v
FsOps.v
Copy.v
AsdFile.v
