(* ===== verification/Prelude.v ===== *)
(** * SpectralSkyViewer helper modules: a verification development

    The repository holds two Python modules of helper functions for a sky
    imagery pipeline: [src/utility.py] (numeric helpers, date checking, EXIF
    access, directory listing, cleaning and copying, running a command under a
    kill timer) and [src/utility_data.py] (EXIF access again, the sun-path CSV
    loader [loadSunPath], the raw-photo check [isHDRRawAvailable], the ASD
    loader).  The functions are thin layers over library calls
    ([datetime.strptime], [csv.reader], [float], [os.path]), so what they
    compute is decided by the semantics of those calls.  The development
    therefore models each library call the code makes as an executable
    function that follows CPython, and each function of the repository as a
    definition that composes them the way the source does.

    ** Files, in dependency order

    The first five files and [Csv], [FileSys], [FsTree] model what the code
    calls; the last nine model the code.

    - [Prelude] (this file): Python exceptions as values ([exn], [result],
      with stdpp's [x ← e; k] bind), [try_except] for [try/except E],
      list indexing that raises [IndexError], the ASCII character classes,
      the tactics [result_simpl] / [result_inv] and the hint database [py].
    - [PyStr]: the [str] and [os.path] operations the code calls: [lower],
      [strip], [int], [rfind], [splitext], [path_join], and the lines of a
      file opened in text mode ([text_lines]).
    - [PyFloat]: Python floats as IEEE binary64 ([spec_float] of the
      Standard Library, precision 53, emax 1024): [float(str)] with correct
      rounding, subtraction, division, comparison.
    - [DateTime]: the [datetime] value, its constructor's range checks,
      [datetime.min], the ordering.
    - [Strptime]: [datetime.strptime]: a format string compiled to a
      sequence of regular-expression items, the backtracking first-match
      semantics of [re.match], the conversion of the groups; and
      [verifyDateTime] of [utility.py], lines 59-64.
    - [Csv]: the reader of [csv.reader(f, delimiter=',')] as the state
      machine of CPython's [_csv] module, fed line by line; [reader_rows]
      is the list of the rows the iteration yields and the error that ends
      it.
    - [FileSys]: what the code asks of the file system, the class
      [FileSys] ([path_exists], [isfile], [isdir], [listdir], [read_file],
      [walk]) with the laws the clients rely on.
    - [FsTree]: the instance: a tree of directories and files, POSIX path
      resolution, [os.walk] top down; the laws are proved for every
      well-formed tree.
    - [Exif]: [imageEXIFTag], [imageEXIF], [imageEXIFDateTime], in
      [Module Utility] as [utility.py] has them (lines 78-105) and in
      [Module UtilityData] as [utility_data.py] has them (lines 41-68);
      [exifread.process_file] is the operation of the class [ExifReader].
    - [SunPath]: [loadSunPath] ([utility_data.py], lines 72-101):
      [sun_file] is the [isDir] branch, [sun_row] the body of the loop
      ([row_dt] the [try] block, [row_point] the point, [visible] the test
      on the altitude), [sun_rows] the loop; [sun_path_spec] is the
      sequence the specification describes.
    - [HdrRaw]: [HDRRawExts] and [isHDRRawAvailable] ([utility_data.py],
      lines 35 and 108-117), [raw_loop] its loop; [raw_available_spec] is
      the answer the specification describes.
    - [Numeric]: [clamp] and [normalize] ([utility.py], lines 45-52).
    - [FindFiles]: [findFiles] ([utility.py], lines 113-150):
      [normalize_ext] prepares the filter, [entry_found] is the body of
      the loop over [os.listdir], [walk_found] that of the loop over
      [os.walk].
    - [RunCmd]: [killProcess] and [runCMD] ([utility.py], lines 187-201)
      as the steps of three parties, the main thread, the timer thread and
      the process, on a state that holds the place of each and the shared
      flag; [apply_event] is one step, [reachable] the states of the
      interleavings from [init], the state after [timer.start()].
    - [FsOps]: locations in a tree ([locate], [get], [modify]), the
      operations that remove ([unlink], [rmtree]), the state and error
      monad [io], and [cleanFolder] ([utility.py], lines 155-164),
      [clean_entry] the body of its loop.
    - [Copy]: [open(p, 'wb')], [shutil.copy] and [shutil.copytree]
      ([write_file], [copyfile], [shutil_copy], [make_at], [copytree]) and
      [copy] ([utility.py], lines 169-182), [copy_entry] the body of its
      loop.
    - [AsdFile]: [loadASDFile] ([utility_data.py], lines 121-125), with
      [numpy.loadtxt] as the operation of the class [Loadtxt].

    ** Conventions of the model

    - The code is read as Python 3 on ASCII data.  A [str] is a list of
      8-bit characters.  [str.isspace], [str.strip] and [\s] take the
      characters 9 to 13, 28 to 31 and 32 for blanks; [int] and [float]
      only 9 to 13 and 32.  [\d] is [0-9].
    - A function that can raise returns [result A]; [Raise e] names the
      exception class ([IOError] stands for [OSError] and its subclasses).
      An exception the source does not catch propagates through [≫=].
    - A function that reads the file system takes its state as an argument
      of a type of the class [FileSys]; its theorems hold for every
      instance and are run on trees of [FsTree].  A function that changes
      the file system is a function from a tree to an outcome and the tree
      it leaves ([io] of [FsOps]).
    - The rows a lazy iterator yields are a list, with the error that ends
      the iteration: the rows before the error are processed first, as the
      loop of the source does.
    - Paths are POSIX paths ([/] separates, names are case-sensitive).
    - Nothing has fuel: every loop of the source runs over a finite list
      (lines, rows, characters, extensions, directory entries) and is a
      structural [Fixpoint]; [os.walk] is structural on the tree.  The
      executions of [runCMD] are bounded by a measure, seven steps from
      the start.
    - In an [except] clause the code reads [ex.message], which no
      exception of Python 3 has: the handler raises [AttributeError]
      ([log_error_message]).
    - The library functions follow CPython 3.11; each was compared with the
      interpreter on a set of inputs while the model was written.

    ** What is proved

    - [SunPath]: [loadSunPath] returns the sequence of the specification
      whenever it returns, and does return on every file of the expected
      shape (refinement); every record has its altitude in [0, 90] and a
      valid timestamp; a missing file gives the empty sequence; the first
      row never counts; a row without date is skipped; a short row raises
      [IndexError] and a non-numeric angle [ValueError]; no other error
      than these, [IOError] and [csv.Error]; the azimuth is not checked.
    - [Exif]: the two copies agree; the sentinel on a missing or empty
      tag; the datetime of a well-formed value; validity of what is
      returned; [ValueError] on a malformed value; [IOError] on a missing
      file.
    - [HdrRaw]: the loop computes the two-phase answer of the
      specification; the cases of the answer; what lower-casing the whole
      path does on a case-sensitive file system.
    - [Strptime]: fixed-width data in the two formats of the code parse to
      the datetime of their fields, and to nothing else; round trips with
      the printers [format_exif] and [format_spa]; [verifyDateTime] is
      [True] exactly when [strptime] returns.
    - [Csv]: a file of plain rows is read back as these rows; a blank line
      is the empty row; at most a row per line; only [csv.Error] is raised.
    - [FsTree]: the laws of [FileSys].
    - [PyStr], [DateTime], [PyFloat]: the lemmas the above need
      ([splitext] and [rfind], stripping, [int] of padded digits, the order
      of datetimes, comparisons of floats).
    - [Numeric], [FindFiles]: bounds of [clamp], [normalize] within [0, 1]
      for spans up to 255 (by enumeration, which is why the bound),
      [ZeroDivisionError]; the kind and the extension of the paths
      [findFiles] returns, its errors; the non-recursive listing is exact.
    - [RunCmd]: an invariant of the reachable states (the flag is set
      exactly when the timer thread has passed the first line of
      [killProcess]; only that thread kills; what is returned is what the
      process left); a killed process is reported with return code -9 and
      the flag; no flag means the process ended by itself; every execution
      is finite and ends with [runCMD] returned; the race in which the flag
      is reported for a process that ended by itself.
    - [FsOps]: [cleanFolder] of a directory returns and leaves it empty,
      keeps every file outside it, and raises on what is no directory.
    - [Copy]: [copy] of a file leaves its data at the destination and
      every other file as it was; [copy] of a directory into a directory
      beside it leaves every entry of the source in the destination and
      the source as it was; a missing source, or any error, ends in the
      [AttributeError] of the handler; the destination is not created, so
      that a copy into a missing destination depends on the order of the
      listing; a copy cannot be repeated once a subdirectory is there.
    - [AsdFile]: the cases of [loadASDFile]: a missing file, two columns,
      another number of columns.

    The theorems on [cleanFolder] and [copy] are about directories named
    without a component [..] (the location of such a path is the list of
    its names), and state what is kept by locations in the tree.

    ** Not modelled

    [fileModDateTime] (depends on the local time zone), the parsing of
    [numpy.loadtxt], the decoding of image files by [exifread], the
    command [runCMD] starts and the splitting of its command line,
    symbolic links, permissions and file times, text decoding of non-ASCII
    bytes, logging.  [shutil.rmtree] of a path with a component [..] and
    [shutil.copytree] to a destination below its source or named with
    [..] return [Raise Unmodelled]: what Python does there depends on the
    order of its system calls. *)

From Stdlib Require Import ZArith String Ascii List Bool Lia ZifyBool.
From stdpp Require Import base tactics option list.

#[global] Open Scope Z_scope.

(** ** Exceptions and results *)

(** The exception classes the modelled code can raise.  [ReError] is
    [re.error]; [Unmodelled] is no Python exception: it marks a call whose
    arguments are outside what the model covers (each function that can
    return it says when). *)
Inductive exn : Type :=
| ValueError
| IndexError
| IOError
| CsvError
| ZeroDivisionError
| OverflowError
| AttributeError
| ReError
| Unmodelled.

(** The outcome of a call: a value, or a raised exception. *)
Inductive result (A : Type) : Type :=
| Ok (a : A)
| Raise (e : exn).

Arguments Ok {A} a.
Arguments Raise {A} e.

#[global] Instance exn_eq_dec : EqDecision exn.
Proof. solve_decision. Defined.

#[global] Instance result_eq_dec `{EqDecision A} : EqDecision (result A).
Proof. solve_decision. Defined.

#[global] Instance result_ret : MRet result := @Ok.

#[global] Instance result_bind : MBind result := λ A B f r,
  match r with
  | Ok a => f a
  | Raise e => Raise e
  end.

#[global] Instance result_fmap : FMap result := λ A B f r,
  match r with
  | Ok a => Ok (f a)
  | Raise e => Raise e
  end.

Definition is_ok {A} (r : result A) : bool :=
  match r with
  | Ok _ => true
  | Raise _ => false
  end.

Definition raises {A} (e : exn) (r : result A) : Prop := r = Raise e.

(** [try: body except E: handler]: only the exception class [E] is caught. *)
Definition try_except {A} (body : result A) (E : exn) (handler : result A)
  : result A :=
  match body with
  | Ok a => Ok a
  | Raise e => if decide (e = E) then handler else Raise e
  end.

(** [l[i]] for a non-negative index. *)
Definition py_index {A} (l : list A) (i : nat) : result A :=
  match l !! i with
  | Some x => Ok x
  | None => Raise IndexError
  end.

(** [x if x is not None else d], as used on optional values. *)
Definition result_of_option {A} (e : exn) (o : option A) : result A :=
  match o with
  | Some x => Ok x
  | None => Raise e
  end.

(** ** ASCII character classes *)

Definition is_digit (c : ascii) : bool :=
  ((48 <=? nat_of_ascii c) && (nat_of_ascii c <=? 57))%nat.

(** The value of a decimal digit. *)
Definition digit_val (c : ascii) : Z := Z.of_nat (nat_of_ascii c) - 48.

(** The character of a digit value below ten. *)
Definition digit_char (d : Z) : ascii := ascii_of_nat (Z.to_nat (d + 48)).

(** [c] is between [lo] and [hi], both included. *)
Definition in_range (lo hi c : ascii) : bool :=
  ((nat_of_ascii lo <=? nat_of_ascii c) && (nat_of_ascii c <=? nat_of_ascii hi))%nat.

(** [c.isspace()], which is also [\s] of [re] on [str] and what
    [str.strip()] removes: space, the characters 9 to 13 (tab, newline,
    vertical tab, form feed, carriage return) and the separators 28 to
    31. *)
Definition is_space (c : ascii) : bool :=
  let n := nat_of_ascii c in
  ((n =? 32) || ((9 <=? n) && (n <=? 13)) || ((28 <=? n) && (n <=? 31)))%nat.

(** The blanks [int(s)] and [float(s)] skip around a number: space and
    the characters 9 to 13. *)
Definition is_c_space (c : ascii) : bool :=
  let n := nat_of_ascii c in
  ((n =? 32) || ((9 <=? n) && (n <=? 13)))%nat.

Definition is_upper (c : ascii) : bool := in_range "A" "Z" c.
Definition is_lower (c : ascii) : bool := in_range "a" "z" c.

(** [c.lower()] on one ASCII character. *)
Definition lower_char (c : ascii) : ascii :=
  if is_upper c then ascii_of_nat (nat_of_ascii c + 32) else c.

(** ** Lemmas on lists *)

Lemma not_elem_of_concat {A} (x : A) (ls : list (list A)) :
  Forall (λ l, x ∉ l) ls → x ∉ concat ls.
Proof.
  induction 1; cbn [concat]; [apply not_elem_of_nil | rewrite elem_of_app; tauto].
Qed.

(** ** Lemmas on results *)

Lemma bind_Ok {A B} (f : A → result B) a : Ok a ≫= f = f a.
Proof. reflexivity. Qed.

Lemma bind_Raise {A B} (f : A → result B) e : Raise e ≫= f = Raise e.
Proof. reflexivity. Qed.

Lemma bind_Ok_inv {A B} (f : A → result B) r b :
  r ≫= f = Ok b → ∃ a, r = Ok a ∧ f a = Ok b.
Proof. destruct r; [eauto | discriminate]. Qed.

Lemma bind_Raise_inv {A B} (f : A → result B) r e :
  r ≫= f = Raise e → r = Raise e ∨ ∃ a, r = Ok a ∧ f a = Raise e.
Proof. destruct r; [eauto | intros [= ->]; auto]. Qed.

Lemma fmap_Ok_inv {A B} (f : A → B) (r : result A) b :
  f <$> r = Ok b → ∃ a, r = Ok a ∧ b = f a.
Proof. destruct r; [intros [= <-]; eauto | discriminate]. Qed.

Lemma is_ok_true {A} (r : result A) : is_ok r = true ↔ ∃ a, r = Ok a.
Proof. destruct r; split; [eauto | done | done | intros [? [=]]]. Qed.

Lemma is_ok_false {A} (r : result A) : is_ok r = false ↔ ∃ e, r = Raise e.
Proof. destruct r; split; [done | intros [? [=]] | eauto | done]. Qed.

Lemma try_except_Ok {A} (a : A) E h : try_except (Ok a) E h = Ok a.
Proof. reflexivity. Qed.

Lemma try_except_caught {A} E (h : result A) : try_except (Raise E) E h = h.
Proof. unfold try_except. by rewrite decide_True. Qed.

Lemma try_except_other {A} e E (h : result A) :
  e ≠ E → try_except (Raise e) E h = Raise e.
Proof. intros. unfold try_except. by rewrite decide_False. Qed.

Lemma py_index_Ok {A} (l : list A) i x : py_index l i = Ok x ↔ l !! i = Some x.
Proof. unfold py_index. destruct (l !! i); split; congruence. Qed.

Lemma py_index_Raise {A} (l : list A) i e :
  py_index l i = Raise e ↔ e = IndexError ∧ (length l ≤ i)%nat.
Proof.
  unfold py_index. destruct (l !! i) eqn:E.
  - apply lookup_lt_Some in E. split; [done | intros [_ ?]; lia].
  - apply lookup_ge_None in E. split; [by intros [= <-] | by intros [-> _]].
Qed.

Lemma py_index_lt {A} (l : list A) i :
  (i < length l)%nat → ∃ x, py_index l i = Ok x.
Proof.
  intros H. destruct (lookup_lt_is_Some_2 l i H) as [x Hx].
  exists x. by apply py_index_Ok.
Qed.

(** ** Lemmas on character classes *)

Lemma is_digit_range c : is_digit c = in_range "0" "9" c.
Proof. reflexivity. Qed.

Lemma digit_val_bounds c : is_digit c = true → 0 ≤ digit_val c ≤ 9.
Proof. unfold is_digit, digit_val. lia. Qed.

Lemma digit_char_val c : is_digit c = true → digit_char (digit_val c) = c.
Proof.
  unfold is_digit, digit_char, digit_val. intros H.
  replace (Z.to_nat _) with (nat_of_ascii c) by lia.
  apply ascii_nat_embedding.
Qed.

Lemma digit_val_char d : 0 ≤ d ≤ 9 → digit_val (digit_char d) = d.
Proof.
  unfold digit_char, digit_val. intros H.
  rewrite nat_ascii_embedding; lia.
Qed.

Lemma digit_char_is_digit d : 0 ≤ d ≤ 9 → is_digit (digit_char d) = true.
Proof.
  unfold digit_char, is_digit. intros H.
  rewrite nat_ascii_embedding; lia.
Qed.

Lemma is_digit_not_space c : is_digit c = true → is_space c = false.
Proof. unfold is_digit, is_space. lia. Qed.

Lemma is_digit_not_c_space c : is_digit c = true → is_c_space c = false.
Proof. unfold is_digit, is_c_space. lia. Qed.

Lemma is_c_space_is_space c : is_c_space c = true → is_space c = true.
Proof. unfold is_c_space, is_space. lia. Qed.

(** Case analysis on the eight bits of a character. *)
Ltac ascii_cases c := destruct c as [[] [] [] [] [] [] [] []].

Lemma lower_char_idem c : lower_char (lower_char c) = lower_char c.
Proof. ascii_cases c; reflexivity. Qed.

Lemma lower_char_not_upper c : is_upper (lower_char c) = false.
Proof. ascii_cases c; reflexivity. Qed.

Lemma lower_char_digit c : is_digit c = true → lower_char c = c.
Proof. ascii_cases c; (reflexivity || discriminate). Qed.

(** The ten digits, for case analysis on a character known to be one. *)
Lemma is_digit_cases c :
  is_digit c = true → c ∈ list_ascii_of_string "0123456789".
Proof. ascii_cases c; intros H; try discriminate H; repeat constructor. Qed.

Lemma lower_char_digit_inv c : is_digit (lower_char c) = true → is_digit c = true.
Proof. ascii_cases c; (reflexivity || discriminate). Qed.

(** ** Automation *)

Create HintDb py discriminated.
Create Rewrite HintDb py.

#[export] Hint Rewrite @bind_Ok @bind_Raise @try_except_Ok @try_except_caught : py.
#[export] Hint Resolve digit_char_is_digit is_digit_not_space
  is_digit_not_c_space : py.

(** Reduce the monadic layer on concrete constructors. *)
Ltac result_simpl :=
  repeat first
    [ progress autorewrite with py in *
    | progress simplify_eq/= ].

(** Invert an equation [r ≫= f = Ok b] or [f <$> r = Ok b] of the context. *)
Ltac result_inv :=
  repeat match goal with
  | H : Ok _ = Ok _ |- _ => injection H as H
  | H : Raise _ = Raise _ |- _ => injection H as H
  | H : Ok _ = Raise _ |- _ => discriminate H
  | H : Raise _ = Ok _ |- _ => discriminate H
  | H : _ ≫= _ = Ok _ |- _ =>
      let a := fresh "a" in
      let Ha := fresh "Ha" in
      apply bind_Ok_inv in H as (a & Ha & H)
  | H : _ <$> _ = Ok _ |- _ =>
      let a := fresh "a" in
      let Ha := fresh "Ha" in
      apply fmap_Ok_inv in H as (a & Ha & H)
  end.
