(* ===== verification/PyStr.v ===== *)
(** * PyStr: the string and path operations the code calls

    A Python [str] is modelled as a list of 8-bit characters ([str]); a
    Rocq string literal is read as such a list through a coercion.  This
    file models [str.lower], [str.strip], [len], [str.rfind], [int(s)] on
    decimal strings, the iteration of a text file by lines, and the two
    [os.path] functions of the POSIX flavour the code uses:
    [os.path.splitext] (CPython's [genericpath._splitext]) and
    [os.path.join] with two arguments. *)

From Stdlib Require Import ZArith String Ascii List Bool Lia ZifyBool.
From stdpp Require Import base tactics option list strings.
From S2P Require Import Prelude.

Abbreviation str := (list ascii).
Coercion list_ascii_of_string : string >-> list.

(** A list of string literals. *)
Definition strs (l : list string) : list str := list_ascii_of_string <$> l.

(** ** Operations on strings *)

(** [s.lower()]. *)
Definition lower (s : str) : str := lower_char <$> s.

(** Drop the leading characters of class [p]. *)
Fixpoint lstrip_with (p : ascii → bool) (s : str) : str :=
  match s with
  | c :: s' => if p c then lstrip_with p s' else s
  | [] => []
  end.

Definition rstrip_with (p : ascii → bool) (s : str) : str :=
  reverse (lstrip_with p (reverse s)).

Definition strip_with (p : ascii → bool) (s : str) : str :=
  rstrip_with p (lstrip_with p s).

(** [s.lstrip()], [s.rstrip()], [s.strip()]. *)
Definition lstrip : str → str := lstrip_with is_space.
Definition rstrip : str → str := rstrip_with is_space.
Definition strip : str → str := strip_with is_space.

(** What [int] and [float] do to the blanks around a number. *)
Definition c_strip : str → str := strip_with is_c_space.

(** [s.rfind(c)] for a one-character [c]: the highest index of [c] in [s],
    or [-1]. *)
Definition rfind (c : ascii) (s : str) : Z :=
  match list_find (λ x, x = c) (reverse s) with
  | Some (i, _) => Z.of_nat (length s) - 1 - Z.of_nat i
  | None => -1
  end.

(** [s.startswith(c)] and [s.endswith(c)] for a one-character [c]. *)
Definition startswith (c : ascii) (s : str) : bool :=
  match s with
  | x :: _ => bool_decide (x = c)
  | [] => false
  end.

Definition endswith (c : ascii) (s : str) : bool :=
  match last s with
  | Some x => bool_decide (x = c)
  | None => false
  end.

(** The value of a string of decimal digits, most significant first. *)
Definition digits_val (ds : str) : Z :=
  foldl (λ acc c, acc * 10 + digit_val c) 0 ds.

(** [all(c.isdigit() for c in s)]. *)
Definition all_digits (s : str) : bool := forallb is_digit s.

(** The decimal value of a non-empty string of digits; [ValueError]
    otherwise. *)
Definition int_of_digits (ds : str) : result Z :=
  if all_digits ds && negb (bool_decide (ds = [])) then Ok (digits_val ds)
  else Raise ValueError.

(** [int(s)] in base ten: blanks around the number are ignored, one sign
    is allowed, at least one digit is required. *)
Definition py_int (s : str) : result Z :=
  match c_strip s with
  | c :: ds =>
      if bool_decide (c = "-"%char) then Z.opp <$> int_of_digits ds
      else if bool_decide (c = "+"%char) then int_of_digits ds
      else int_of_digits (c :: ds)
  | [] => Raise ValueError
  end.

(** [n] written with exactly [w] decimal digits, zero padded (["%0wd" % n]
    for [0 <= n < 10^w]). *)
Fixpoint pad_digits (w : nat) (n : Z) : str :=
  match w with
  | O => []
  | S w' => pad_digits w' (n / 10) ++ [digit_char (n mod 10)]
  end.

(** The lines of a text file as iteration yields them: each line keeps its
    newline; the last one may lack it. *)
Fixpoint splitlines_from (cur : str) (s : str) : list str :=
  match s with
  | [] => if bool_decide (cur = []) then [] else [reverse cur]
  | c :: s' =>
      if bool_decide (c = "010"%char) then reverse (c :: cur) :: splitlines_from [] s'
      else splitlines_from (c :: cur) s'
  end.

Definition splitlines (s : str) : list str := splitlines_from [] s.

(** The translation of newlines when a file is opened in text mode:
    a carriage return, with the line feed after it if there is one, is
    read as one line feed. *)
Fixpoint universal_newlines (s : str) : str :=
  match s with
  | [] => []
  | c :: s' =>
      if bool_decide (c = "013"%char) then
        "010"%char ::
        match s' with
        | c' :: s'' =>
            if bool_decide (c' = "010"%char) then universal_newlines s''
            else universal_newlines s'
        | [] => []
        end
      else c :: universal_newlines s'
  end.

(** The lines the iteration over a file opened in text mode yields. *)
Definition text_lines (content : str) : list str :=
  splitlines (universal_newlines content).

(** ** Paths *)

(** The loop of [_splitext] that skips the leading dots of the file name:
    [true] when a character other than a dot stands before the last dot. *)
Fixpoint has_non_dot (name : str) : bool :=
  match name with
  | [] => false
  | c :: name' => if bool_decide (c ≠ "."%char) then true else has_non_dot name'
  end.

(** [os.path.splitext(p)] (posixpath). *)
Definition splitext (p : str) : str * str :=
  let sepIndex := rfind "/" p in
  let dotIndex := rfind "." p in
  if (sepIndex <? dotIndex)
     && has_non_dot (take (Z.to_nat (dotIndex - (sepIndex + 1)))
                          (drop (Z.to_nat (sepIndex + 1)) p))
  then (take (Z.to_nat dotIndex) p, drop (Z.to_nat dotIndex) p)
  else (p, []).

(** [os.path.join(a, b)] (posixpath). *)
Definition path_join (a b : str) : str :=
  if startswith "/" b then b
  else if bool_decide (a = []) || endswith "/" a then a ++ b
  else a ++ "/" ++ b.

(** ** Lemmas: case and blanks *)

Lemma lower_length s : length (lower s) = length s.
Proof. apply length_fmap. Qed.

Lemma lower_app s t : lower (s ++ t) = lower s ++ lower t.
Proof. apply fmap_app. Qed.

Lemma lower_idem s : lower (lower s) = lower s.
Proof.
  unfold lower. rewrite <- list_fmap_compose.
  apply list_fmap_ext. intros _ c _. apply lower_char_idem.
Qed.

Lemma lower_digits s : all_digits s = true → lower s = s.
Proof.
  unfold all_digits, lower. induction s as [|c s IH]; [done |].
  cbn [forallb]. intros [Hc Hs]%andb_true_iff.
  by rewrite fmap_cons, lower_char_digit, IH.
Qed.

Section strip.
Context (p : ascii → bool).

Lemma lstrip_with_head_false s :
  match s with c :: _ => p c = false | [] => True end → lstrip_with p s = s.
Proof. destruct s as [|c s]; simpl; [done | by intros ->]. Qed.

Lemma lstrip_with_head s c s' : lstrip_with p s = c :: s' → p c = false.
Proof.
  induction s as [|x s IH]; simpl; [done |].
  destruct (p x) eqn:E; [done | by intros [= <- _]].
Qed.

Lemma lstrip_with_idem s : lstrip_with p (lstrip_with p s) = lstrip_with p s.
Proof.
  destruct (lstrip_with p s) as [|c s'] eqn:E; [done |].
  apply lstrip_with_head_false. by apply lstrip_with_head in E.
Qed.

Lemma lstrip_with_suffix s : lstrip_with p s `suffix_of` s.
Proof.
  induction s as [|c s IH]; simpl; [done |].
  case_match; [by apply suffix_cons_r | done].
Qed.

(** Stripping leaves alone a string none of whose characters is in the
    class. *)
Lemma strip_with_none s : Forall (λ c, p c = false) s → strip_with p s = s.
Proof.
  intros Hs. unfold strip_with, rstrip_with.
  assert (∀ t, Forall (λ c, p c = false) t → lstrip_with p t = t) as Hl.
  { intros t Ht. apply lstrip_with_head_false. by destruct Ht. }
  rewrite (Hl s Hs), Hl by (by apply Forall_reverse).
  apply reverse_involutive.
Qed.

(** Stripping a string all of whose characters are in the class leaves
    nothing. *)
Lemma lstrip_with_all s : Forall (λ c, p c = true) s → lstrip_with p s = [].
Proof. induction 1 as [|c s Hc _ IH]; [done|]. cbn [lstrip_with]. by rewrite Hc. Qed.

Lemma strip_with_all s : Forall (λ c, p c = true) s → strip_with p s = [].
Proof. intros Hs. unfold strip_with, rstrip_with. by rewrite (lstrip_with_all s Hs). Qed.

End strip.

Lemma all_digits_Forall s :
  all_digits s = true ↔ Forall (λ c, is_digit c = true) s.
Proof.
  unfold all_digits. induction s as [|c s IH]; simpl; [done |].
  rewrite andb_true_iff, Forall_cons, IH. done.
Qed.

(** ** Lemmas: digits *)

Lemma digits_val_app ds c : digits_val (ds ++ [c]) = digits_val ds * 10 + digit_val c.
Proof. unfold digits_val. by rewrite foldl_app. Qed.

Lemma pad_digits_length w n : length (pad_digits w n) = w.
Proof.
  revert n. induction w as [|w IH]; intros n; simpl; [done |].
  rewrite length_app, IH. simpl. lia.
Qed.

Lemma pad_digits_all_digits w n : all_digits (pad_digits w n) = true.
Proof.
  unfold all_digits. revert n. induction w as [|w IH]; intros n; simpl; [done |].
  rewrite forallb_app, IH. simpl.
  rewrite digit_char_is_digit; [done |].
  pose proof (Z.mod_pos_bound n 10). lia.
Qed.

Lemma pad_digits_val w n :
  0 ≤ n < 10 ^ Z.of_nat w → digits_val (pad_digits w n) = n.
Proof.
  revert n. induction w as [|w IH]; intros n Hn.
  - simpl in *. unfold digits_val. simpl. lia.
  - cbn [pad_digits]. rewrite digits_val_app, IH.
    + pose proof (Z.mod_pos_bound n 10).
      rewrite digit_val_char by lia.
      pose proof (Z.div_mod n 10). lia.
    + rewrite Nat2Z.inj_succ, Z.pow_succ_r in Hn by lia.
      split; [apply Z.div_pos; lia | apply Z.div_lt_upper_bound; lia].
Qed.

Lemma all_digits_reverse s : all_digits (reverse s) = all_digits s.
Proof.
  unfold all_digits. induction s as [|c s IH]; [done |].
  rewrite reverse_cons, forallb_app, IH. simpl. by rewrite andb_true_r, andb_comm.
Qed.

Lemma c_strip_digits s : all_digits s = true → c_strip s = s.
Proof.
  intros Hd%all_digits_Forall. apply strip_with_none.
  eapply Forall_impl; [done | auto with py].
Qed.

Lemma strip_digits s : all_digits s = true → strip s = s.
Proof.
  intros Hd%all_digits_Forall. apply strip_with_none.
  eapply Forall_impl; [done | auto with py].
Qed.

Lemma py_int_digits ds :
  all_digits ds = true → ds ≠ [] → py_int ds = Ok (digits_val ds).
Proof.
  intros Hd Hne. unfold py_int. rewrite c_strip_digits by done.
  destruct ds as [|c ds]; [done |].
  assert (c ≠ "-"%char ∧ c ≠ "+"%char) as [??].
  { simpl in Hd. apply andb_true_iff in Hd as [Hc _].
    split; intros ->; discriminate. }
  rewrite !bool_decide_false by done. unfold int_of_digits.
  by rewrite Hd, bool_decide_false.
Qed.

Lemma py_int_pad w n :
  (0 < w)%nat → 0 ≤ n < 10 ^ Z.of_nat w → py_int (pad_digits w n) = Ok n.
Proof.
  intros Hw Hn. rewrite py_int_digits.
  - by rewrite pad_digits_val.
  - apply pad_digits_all_digits.
  - intros E. apply (f_equal length) in E. rewrite pad_digits_length in E.
    simpl in E. lia.
Qed.

(** ** Lemmas: lines *)

Lemma splitlines_from_concat cur s :
  concat (splitlines_from cur s) = reverse cur ++ s.
Proof.
  revert cur. induction s as [|c s IH]; intros cur; simpl.
  - case_bool_decide; subst; simpl; by rewrite ?app_nil_r.
  - case_bool_decide; simpl; rewrite IH; rewrite reverse_cons, <- ?app_assoc; done.
Qed.

Lemma splitlines_concat s : concat (splitlines s) = s.
Proof. unfold splitlines. by rewrite splitlines_from_concat. Qed.

(** ** Lemmas: [rfind] *)

(** Text without carriage returns is read as it is. *)
Lemma universal_newlines_id s : "013"%char ∉ s → universal_newlines s = s.
Proof.
  induction s as [|c s IH]; [done|]. intros [Hc Hs]%not_elem_of_cons.
  cbn [universal_newlines]. rewrite bool_decide_eq_false_2 by done.
  by rewrite IH.
Qed.

(** Lines that end in their only line feed are the lines of their
    concatenation. *)
Lemma splitlines_from_line cur l rest :
  "010"%char ∉ l →
  splitlines_from cur (l ++ "010"%char :: rest)
  = (reverse cur ++ l ++ ["010"%char]) :: splitlines rest.
Proof.
  revert cur. induction l as [|c l IH]; intros cur Hl; cbn [app splitlines_from].
  - rewrite bool_decide_eq_true_2 by done. by rewrite reverse_cons.
  - apply not_elem_of_cons in Hl as [Hc Hl].
    rewrite bool_decide_eq_false_2 by done.
    rewrite IH, reverse_cons, <- (assoc_L (++)); done.
Qed.

Lemma splitlines_lines ls :
  Forall (λ l, "010"%char ∉ l) ls →
  splitlines (concat ((λ l, l ++ ["010"%char]) <$> ls)) = (λ l, l ++ ["010"%char]) <$> ls.
Proof.
  induction 1 as [|l ls Hl _ IH]; [done|].
  cbn [fmap list_fmap concat]. unfold splitlines at 1.
  rewrite <- (assoc_L (++)). cbn [app].
  rewrite splitlines_from_line by done. by f_equal.
Qed.

Lemma rfind_bounds c s : -1 ≤ rfind c s < Z.of_nat (length s).
Proof.
  unfold rfind. destruct (list_find _ _) as [[i x]|] eqn:E; [| lia].
  apply list_find_Some in E as (Hi & _ & _).
  apply lookup_lt_Some in Hi. rewrite length_reverse in Hi. lia.
Qed.

Lemma rfind_none c s : rfind c s = -1 ↔ c ∉ s.
Proof.
  unfold rfind. destruct (list_find _ _) as [[i x]|] eqn:E.
  - apply list_find_Some in E as (Hi & -> & _).
    pose proof (lookup_lt_Some _ _ _ Hi) as Hlt. rewrite length_reverse in Hlt.
    split; [lia |]. intros Hn. exfalso. apply Hn.
    apply elem_of_reverse. by eapply list_elem_of_lookup_2.
  - split; [| done]. intros _ Hin.
    apply list_find_None in E. rewrite Forall_forall in E.
    apply (E c); [by apply elem_of_reverse | done].
Qed.

(** The index [rfind] returns holds [c], and no later one does. *)
Lemma rfind_some c s i :
  rfind c s = i → 0 ≤ i →
  s !! Z.to_nat i = Some c ∧ c ∉ drop (S (Z.to_nat i)) s.
Proof.
  unfold rfind. destruct (list_find _ _) as [[j x]|] eqn:E; [| lia].
  apply list_find_Some in E as (Hj & -> & Hleast).
  pose proof (lookup_lt_Some _ _ _ Hj) as Hlt. rewrite length_reverse in Hlt.
  intros <- _. rewrite reverse_lookup in Hj by done.
  replace (Z.to_nat _) with (length s - S j)%nat by lia.
  split; [done |].
  intros (k & Hk)%list_elem_of_lookup_1. rewrite lookup_drop in Hk.
  pose proof (lookup_lt_Some _ _ _ Hk) as Hk'.
  apply (Hleast (length s - S (S (length s - S j) + k))%nat c); [| lia | done].
  rewrite reverse_lookup by lia.
  rewrite <- Hk. f_equal. lia.
Qed.

(** A string [a ++ c :: b] whose tail [b] has no [c] has its last [c] at
    [length a]. *)
Lemma rfind_app c a b : c ∉ b → rfind c (a ++ c :: b) = Z.of_nat (length a).
Proof.
  intros Hb.
  destruct (decide (rfind c (a ++ c :: b) = -1)) as [E|E].
  { apply rfind_none in E. exfalso. apply E, elem_of_app. right. left. }
  pose proof (rfind_bounds c (a ++ c :: b)) as Hbd.
  destruct (rfind_some c (a ++ c :: b) _ eq_refl) as [Hi Hafter]; [lia |].
  set (i := Z.to_nat (rfind c (a ++ c :: b))) in *.
  assert (rfind c (a ++ c :: b) = Z.of_nat i) as -> by lia.
  f_equal. destruct (Nat.lt_trichotomy i (length a)) as [Hlt | [-> | Hgt]]; [| done |].
  - exfalso. apply Hafter. apply list_elem_of_lookup.
    exists (length a - S i)%nat. rewrite lookup_drop.
    replace (S i + (length a - S i))%nat with (length a + 0)%nat by lia.
    by rewrite lookup_app_r, Nat.add_comm, Nat.add_sub by lia.
  - exfalso. apply Hb. apply list_elem_of_lookup.
    exists (i - S (length a))%nat.
    rewrite lookup_app_r in Hi by lia.
    destruct (i - length a)%nat as [|k] eqn:Ek; [lia |].
    simpl in Hi. rewrite <- Hi. f_equal. lia.
Qed.

(** The index of a [c] that no [c] follows is what [rfind] returns. *)
Lemma rfind_unique c s i :
  s !! i = Some c → c ∉ drop (S i) s → rfind c s = Z.of_nat i.
Proof.
  intros Hi Hafter. rewrite <- (take_drop_middle s i c Hi).
  rewrite rfind_app by done. rewrite length_take.
  apply lookup_lt_Some in Hi. lia.
Qed.

(** Every occurrence of [c] is at or before the index [rfind] returns. *)
Lemma rfind_ge c s j : s !! j = Some c → Z.of_nat j ≤ rfind c s.
Proof.
  intros Hj. pose proof (rfind_bounds c s) as Hbd.
  destruct (decide (rfind c s = -1)) as [E|E].
  { apply rfind_none in E. exfalso. apply E. by eapply list_elem_of_lookup_2. }
  destruct (rfind_some c s _ eq_refl) as [_ Hafter]; [lia |].
  destruct (Z_le_gt_dec (Z.of_nat j) (rfind c s)) as [|Hgt]; [done |].
  exfalso. apply Hafter, list_elem_of_lookup.
  exists (j - S (Z.to_nat (rfind c s)))%nat. rewrite lookup_drop.
  rewrite <- Hj. f_equal. lia.
Qed.

Lemma rfind_app_notin c a b : c ∉ b → rfind c (a ++ b) = rfind c a.
Proof.
  intros Hb. pose proof (rfind_bounds c a) as Hbd.
  destruct (decide (rfind c a = -1)) as [E|E].
  { rewrite E. apply rfind_none. apply rfind_none in E.
    by intros [?|?]%elem_of_app. }
  destruct (rfind_some c a _ eq_refl) as [Hi Hafter]; [lia |].
  rewrite <- (Z2Nat.id (rfind c a)) at 1 by lia.
  apply rfind_unique.
  - by apply lookup_app_l_Some.
  - rewrite drop_app_le by lia. by intros [?|?]%elem_of_app.
Qed.

(** ** Lemmas: [splitext] *)

Lemma has_non_dot_app a b : has_non_dot (a ++ b) = has_non_dot a || has_non_dot b.
Proof.
  induction a as [|c a IH]; simpl; [done |]. by case_bool_decide.
Qed.

Lemma has_non_dot_true name :
  has_non_dot name = true ↔ ∃ c, c ∈ name ∧ c ≠ "."%char.
Proof.
  induction name as [|x name IH]; simpl.
  - split; [done | intros (c & Hc & _); by apply elem_of_nil in Hc].
  - case_bool_decide as Hx.
    + split; [intros _; exists x; split; [left | done] | done].
    + subst x. rewrite IH. split.
      * intros (c & Hc & Hne). exists c. split; [by right | done].
      * intros (c & [->|Hc]%elem_of_cons & Hne); [done | eauto].
Qed.

(** The two parts [os.path.splitext] returns concatenate to the path. *)
Theorem splitext_concat p : (splitext p).1 ++ (splitext p).2 = p.
Proof.
  unfold splitext. case_match; simpl; [apply take_drop | apply app_nil_r].
Qed.

(** The extension [os.path.splitext] returns is empty, or it is a dot
    followed by characters that are neither dots nor separators. *)
Theorem splitext_ext_shape p :
  (splitext p).2 = [] ∨
  ∃ e, (splitext p).2 = ("."%char :: e) ∧ ("."%char ∉ e) ∧ ("/"%char ∉ e).
Proof.
  unfold splitext. case_match eqn:E; simpl; [right | by left].
  apply andb_true_iff in E as [Hlt _]. apply Z.ltb_lt in Hlt.
  pose proof (rfind_bounds "/" p). pose proof (rfind_bounds "." p).
  destruct (rfind_some "." p _ eq_refl) as [Hdot Hafter]; [lia |].
  exists (drop (S (Z.to_nat (rfind "." p))) p). split; [| split; [done |]].
  - by rewrite <- (drop_S _ _ _ Hdot).
  - intros (k & Hk)%list_elem_of_lookup_1. rewrite lookup_drop in Hk.
    apply rfind_ge in Hk. lia.
Qed.

(** On a path [d ++ b ++ "." ++ e] whose name part [b] holds a
    character other than a dot and no separator, and whose suffix [e] holds
    neither a dot nor a separator, [splitext] splits before the last dot. *)
Theorem splitext_name d b e :
  has_non_dot b = true → "/"%char ∉ b → "/"%char ∉ e → "."%char ∉ e →
  splitext (d ++ b ++ "."%char :: e) = (d ++ b, "."%char :: e).
Proof.
  intros Hb Hsb Hse Hde. unfold splitext.
  rewrite (app_assoc d b). rewrite (rfind_app "." (d ++ b) e Hde).
  rewrite <- (app_assoc d b), rfind_app_notin.
  2: { intros [?|[?|?]%elem_of_cons]%elem_of_app; done. }
  pose proof (rfind_bounds "/" d) as Hbd. rewrite length_app.
  set (k := Z.to_nat (rfind "/" d + 1)).
  assert (k ≤ length d)%nat as Hk by lia.
  replace (Z.to_nat (_ - (rfind "/" d + 1))) with (length d - k + length b)%nat by lia.
  rewrite drop_app_le by done.
  rewrite (app_assoc (drop k d)), take_app_length'
    by (rewrite length_app, length_drop; lia).
  rewrite has_non_dot_app, Hb, orb_true_r, andb_true_r.
  replace (_ <? _) with true by lia.
  rewrite Nat2Z.id, <- length_app, (app_assoc d b).
  by rewrite take_app_length, drop_app_length.
Qed.

Lemma splitext_name_witness :
  splitext "/data/hdr/img_0001.jpg" = ("/data/hdr/img_0001" : str, ".jpg" : str).
Proof.
  apply (splitext_name "/data/hdr/" "img_0001" "jpg");
    [reflexivity | | | ]; intros H; repeat (apply elem_of_cons in H as [[=]|H]);
    by apply elem_of_nil in H.
Defined.

(** [splitext] does not split a name made of leading dots only. *)
Lemma splitext_hidden : splitext "/data/.cr2" = ("/data/.cr2" : str, []).
Proof. reflexivity. Qed.

(** ** Lemmas: [path_join] *)

Lemma path_join_absolute a b : startswith "/" b = true → path_join a b = b.
Proof. unfold path_join. by intros ->. Qed.

Lemma path_join_relative a b :
  startswith "/" b = false → a ≠ [] → endswith "/" a = false →
  path_join a b = a ++ "/" ++ b.
Proof.
  intros Hb Ha He. unfold path_join. by rewrite Hb, He, bool_decide_false.
Qed.

Lemma path_join_suffix a b : b `suffix_of` path_join a b.
Proof.
  unfold path_join. repeat case_match.
  - done.
  - by apply suffix_app_r.
  - apply suffix_app_r. by apply (suffix_app_r _ _ ["/"%char]).
Qed.
