(* ===== verification/PyFloat.v ===== *)
(** * PyFloat: Python floats

    A Python [float] is an IEEE 754 binary64 number.  It is modelled by
    [spec_float] of the Standard Library (the executable specification the
    kernel's primitive floats are checked against) at precision 53 and
    exponent bound 1024: zeros, infinities, NaN and finite numbers
    [(-1)^s * m * 2^e], with round-to-nearest-even operations.

    The file holds what the code does with floats: [float(s)] on a string
    (CPython's [float_from_string]: blanks stripped, underscores between
    digits removed, [inf]/[infinity]/[nan] in any case, a decimal literal
    rounded correctly), [float(n)] on an integer, subtraction, division, and
    the comparisons of a float with an integer. *)

From Stdlib Require Import ZArith String Ascii List Bool Lia ZifyBool SpecFloat.
From stdpp Require Import base tactics option list strings.
From S2P Require Import Prelude PyStr.

Abbreviation pyfloat := spec_float.

Definition f_prec : Z := 53.
Definition f_emax : Z := 1024.

#[global] Instance pyfloat_eq_dec : EqDecision pyfloat.
Proof. solve_decision. Defined.

(** ** Operations *)

(** [float(n)] for an integer [n]. *)
Definition float_of_Z (n : Z) : pyfloat := binary_normalize f_prec f_emax n 0 false.

(** [a - b], [a / b]. *)
Definition float_sub (a b : pyfloat) : pyfloat := SFsub f_prec f_emax a b.

Definition float_is_zero (a : pyfloat) : bool :=
  match a with
  | S754_zero _ => true
  | _ => false
  end.

Definition float_div (a b : pyfloat) : result pyfloat :=
  if float_is_zero b then Raise ZeroDivisionError
  else Ok (SFdiv f_prec f_emax a b).

(** [a <= b] and [a >= b]; both are false when an operand is NaN. *)
Definition float_le (a b : pyfloat) : bool := SFleb a b.
Definition float_ge (a b : pyfloat) : bool := SFleb b a.

Definition float_is_nan (a : pyfloat) : bool :=
  match a with
  | S754_nan => true
  | _ => false
  end.

Definition float_is_finite (a : pyfloat) : bool :=
  match a with
  | S754_zero _ | S754_finite _ _ _ => true
  | _ => false
  end.

(** The nearest binary64 number to [(-1)^neg * m * 10^e]. *)
Definition float_of_decimal (neg : bool) (m : Z) (e : Z) : pyfloat :=
  match m with
  | Zpos p =>
      if 0 <=? e then binary_round f_prec f_emax neg (p * Z.to_pos (10 ^ e)) 0
      else
        let '(q, e', l) :=
          SFdiv_core_binary f_prec f_emax (Zpos p) 0 (10 ^ (- e)) 0 in
        binary_round_aux f_prec f_emax neg q e' l
  | _ => S754_zero neg
  end.

(** ** [float(s)] *)

(** The underscores of a numeric literal: each stands between two digits.
    [prev] is the character before [s]. *)
Fixpoint remove_underscores (prev : option ascii) (s : str) : option str :=
  match s with
  | [] => Some []
  | c :: s' =>
      if bool_decide (c = "_"%char) then
        match prev, s' with
        | Some p, n :: _ =>
            if is_digit p && is_digit n then remove_underscores (Some c) s'
            else None
        | _, _ => None
        end
      else r ← remove_underscores (Some c) s'; Some (c :: r)
  end.

(** The longest prefix of digits and what follows it. *)
Fixpoint span_digits (s : str) : str * str :=
  match s with
  | c :: s' =>
      if is_digit c then let '(ds, r) := span_digits s' in (c :: ds, r)
      else ([], s)
  | [] => ([], [])
  end.

(** An optional sign: the sign read and what follows it. *)
Definition take_sign (s : str) : bool * str :=
  match s with
  | c :: s' =>
      if bool_decide (c = "-"%char) then (true, s')
      else if bool_decide (c = "+"%char) then (false, s')
      else (false, s)
  | [] => (false, [])
  end.

(** The exponent part [e[+-]ddd] of a literal; the whole rest of the
    string must be an exponent, or be empty. *)
Definition parse_exponent (s : str) : option Z :=
  match s with
  | [] => Some 0
  | c :: s' =>
      if bool_decide (lower_char c = "e"%char) then
        let '(neg, s'') := take_sign s' in
        let '(ds, r) := span_digits s'' in
        if bool_decide (ds = []) || negb (bool_decide (r = [])) then None
        else Some (if neg then - digits_val ds else digits_val ds)
      else None
  end.

(** An unsigned decimal literal: mantissa digits and decimal exponent. *)
Definition parse_decimal (s : str) : option (Z * Z) :=
  let '(d1, r1) := span_digits s in
  let '(d2, r2) :=
    match r1 with
    | c :: r1' => if bool_decide (c = "."%char) then span_digits r1' else ([], r1)
    | [] => ([], [])
    end in
  if bool_decide (d1 ++ d2 = []) then None
  else e ← parse_exponent r2; Some (digits_val (d1 ++ d2), e - Z.of_nat (length d2)).

(** [float(s)]. *)
Definition float_of_string (s : str) : result pyfloat :=
  match remove_underscores None (c_strip s) with
  | None => Raise ValueError
  | Some s1 =>
      let '(neg, s2) := take_sign s1 in
      let l := lower s2 in
      if bool_decide (l = "inf") || bool_decide (l = "infinity")
      then Ok (S754_infinity neg)
      else if bool_decide (l = "nan") then Ok S754_nan
      else
        match parse_decimal s2 with
        | Some (m, e) => Ok (float_of_decimal neg m e)
        | None => Raise ValueError
        end
  end.

(** ** Lemmas *)

Lemma float_of_string_Raise s e : float_of_string s = Raise e → e = ValueError.
Proof. unfold float_of_string. repeat case_match; congruence. Qed.

(** Comparisons with NaN are false. *)
Lemma float_le_nan_l a : float_le S754_nan a = false.
Proof. reflexivity. Qed.

Lemma float_le_nan_r a : float_le a S754_nan = false.
Proof. by destruct a. Qed.

(** A float between two finite floats is finite. *)
Lemma float_between_finite lo hi a :
  float_is_finite lo = true → float_is_finite hi = true →
  float_le lo a = true → float_le a hi = true → float_is_finite a = true.
Proof.
  unfold float_le, SFleb.
  destruct lo as [| | |[] ? ?], hi as [| | |[] ? ?], a as [|[]| |[] ? ?];
    simpl; try done.
Qed.

(** [float(n)] of a small integer is the integer itself: the table of the
    values the sun-path code subtracts from. *)
Lemma float_of_Z_0 : float_of_Z 0 = S754_zero false.
Proof. reflexivity. Qed.

Lemma float_of_Z_90 : float_of_Z 90 = S754_finite false 6333186975989760 (-46).
Proof. reflexivity. Qed.
