(* ===== verification/DateTime.v ===== *)
(** * DateTime: the [datetime] values the code builds

    [utility.py] builds [datetime(1,1,1)], [utility_data.py] uses
    [datetime.min], and both obtain datetimes from [datetime.strptime].
    This file holds the value (a record of seven integer fields), the range
    checks of the constructor (CPython's [_check_date_fields] and
    [_check_time_fields], which raise [ValueError]), the sentinel
    [datetime.min] and the ordering of datetimes (the lexicographic order on
    the fields, as [datetime.__lt__] compares them). *)

From Stdlib Require Import ZArith List Bool Lia ZifyBool.
From stdpp Require Import base tactics option list.
From S2P Require Import Prelude.

(** ** Data *)

Record datetime : Type := DateTime {
  year : Z;
  month : Z;
  day : Z;
  hour : Z;
  minute : Z;
  second : Z;
  microsecond : Z
}.

#[global] Instance datetime_eq_dec : EqDecision datetime.
Proof. solve_decision. Defined.

Definition MINYEAR : Z := 1.
Definition MAXYEAR : Z := 9999.

(** [calendar.isleap] / [datetime._is_leap]. *)
Definition is_leap (y : Z) : bool :=
  (y mod 4 =? 0) && (negb (y mod 100 =? 0) || (y mod 400 =? 0)).

(** [datetime._days_in_month], for a month between 1 and 12. *)
Definition days_in_month (y m : Z) : Z :=
  if m =? 2 then (if is_leap y then 29 else 28)
  else if (m =? 4) || (m =? 6) || (m =? 9) || (m =? 11) then 30
  else 31.

(** The date part passes [_check_date_fields]. *)
Definition valid_date (y m d : Z) : bool :=
  (MINYEAR <=? y) && (y <=? MAXYEAR) &&
  (1 <=? m) && (m <=? 12) &&
  (1 <=? d) && (d <=? days_in_month y m).

(** The time part passes [_check_time_fields]. *)
Definition valid_time (H M S us : Z) : bool :=
  (0 <=? H) && (H <=? 23) &&
  (0 <=? M) && (M <=? 59) &&
  (0 <=? S) && (S <=? 59) &&
  (0 <=? us) && (us <=? 999999).

(** The invariant of every [datetime] object Python can hold. *)
Definition valid_datetime (d : datetime) : bool :=
  valid_date (year d) (month d) (day d) &&
  valid_time (hour d) (minute d) (second d) (microsecond d).

(** ** Operations *)

(** The constructor [datetime(y, m, d, H, M, S, us)]. *)
Definition datetime_new (y m d H M S us : Z) : result datetime :=
  if negb (valid_date y m d) then Raise ValueError
  else if negb (valid_time H M S us) then Raise ValueError
  else Ok (DateTime y m d H M S us).

(** [datetime(y, m, d)]: the time fields default to zero. *)
Definition datetime_ymd (y m d : Z) : result datetime :=
  datetime_new y m d 0 0 0 0.

(** [datetime.min], which is [datetime(1, 1, 1, 0, 0)]. *)
Definition datetime_min : datetime := DateTime 1 1 1 0 0 0 0.

(** [datetime.max]. *)
Definition datetime_max : datetime := DateTime 9999 12 31 23 59 59 999999.

(** The fields in the order [datetime._cmp] compares them. *)
Definition datetime_fields (d : datetime) : list Z :=
  [year d; month d; day d; hour d; minute d; second d; microsecond d].

(** Lexicographic comparison of two lists of integers (tuple comparison). *)
Fixpoint lex_compare (a b : list Z) : comparison :=
  match a, b with
  | [], [] => Eq
  | [], _ :: _ => Lt
  | _ :: _, [] => Gt
  | x :: a', y :: b' =>
      match x ?= y with
      | Eq => lex_compare a' b'
      | c => c
      end
  end.

Definition datetime_compare (a b : datetime) : comparison :=
  lex_compare (datetime_fields a) (datetime_fields b).

(** [a <= b] on datetimes. *)
Definition datetime_le (a b : datetime) : bool :=
  match datetime_compare a b with
  | Gt => false
  | _ => true
  end.

(** [a < b] on datetimes. *)
Definition datetime_lt (a b : datetime) : bool :=
  match datetime_compare a b with
  | Lt => true
  | _ => false
  end.

(** ** Calendar lemmas *)

Lemma days_in_month_bounds y m : 28 ≤ days_in_month y m ≤ 31.
Proof. unfold days_in_month. repeat case_match; lia. Qed.

Lemma days_in_month_february y :
  days_in_month y 2 = if is_leap y then 29 else 28.
Proof. reflexivity. Qed.

Lemma is_leap_spec y :
  is_leap y = true ↔ (y mod 4 = 0 ∧ (y mod 100 ≠ 0 ∨ y mod 400 = 0)).
Proof. unfold is_leap. lia. Qed.

Lemma valid_date_spec y m d :
  valid_date y m d = true ↔
  1 ≤ y ≤ 9999 ∧ 1 ≤ m ≤ 12 ∧ 1 ≤ d ≤ days_in_month y m.
Proof. unfold valid_date, MINYEAR, MAXYEAR. lia. Qed.

Lemma valid_time_spec H M S us :
  valid_time H M S us = true ↔
  0 ≤ H ≤ 23 ∧ 0 ≤ M ≤ 59 ∧ 0 ≤ S ≤ 59 ∧ 0 ≤ us ≤ 999999.
Proof. unfold valid_time. lia. Qed.

Lemma valid_datetime_spec d :
  valid_datetime d = true ↔
  valid_date (year d) (month d) (day d) = true ∧
  valid_time (hour d) (minute d) (second d) (microsecond d) = true.
Proof. unfold valid_datetime. apply andb_true_iff. Qed.

(** ** The constructor *)

Lemma datetime_new_Ok y m d H M S us dt :
  datetime_new y m d H M S us = Ok dt ↔
  dt = DateTime y m d H M S us ∧
  valid_date y m d = true ∧ valid_time H M S us = true.
Proof.
  unfold datetime_new.
  destruct (valid_date y m d), (valid_time H M S us); simpl;
    split; intros; destruct_and?; simplify_eq; done.
Qed.

Lemma datetime_new_Raise y m d H M S us e :
  datetime_new y m d H M S us = Raise e ↔
  e = ValueError ∧ (valid_date y m d = false ∨ valid_time H M S us = false).
Proof.
  unfold datetime_new.
  destruct (valid_date y m d), (valid_time H M S us); simpl;
    split; intros; destruct_and?; destruct_or?; simplify_eq; auto.
Qed.

(** The constructor only returns datetimes that satisfy the range
    invariant; every other argument tuple raises [ValueError]. *)
Theorem datetime_new_valid y m d H M S us dt :
  datetime_new y m d H M S us = Ok dt → valid_datetime dt = true.
Proof.
  intros (-> & Hd & Ht)%datetime_new_Ok.
  apply valid_datetime_spec. simpl. done.
Qed.

Lemma datetime_new_of_valid dt :
  valid_datetime dt = true →
  datetime_new (year dt) (month dt) (day dt)
               (hour dt) (minute dt) (second dt) (microsecond dt) = Ok dt.
Proof.
  intros [Hd Ht]%valid_datetime_spec. apply datetime_new_Ok.
  by destruct dt.
Qed.

Lemma datetime_new_invalid y m d H M S us :
  valid_date y m d && valid_time H M S us = false →
  datetime_new y m d H M S us = Raise ValueError.
Proof.
  intros Hv. apply datetime_new_Raise. split; [done |].
  by apply andb_false_iff.
Qed.

(** A month, day, hour, minute or second outside the widest range its
    field can have makes the constructor raise. *)
Lemma datetime_new_out_of_range y m d H M S us :
  ¬ (1 ≤ m ≤ 12) ∨ ¬ (1 ≤ d ≤ 31) ∨
  ¬ (0 ≤ H ≤ 23) ∨ ¬ (0 ≤ M ≤ 59) ∨ ¬ (0 ≤ S ≤ 59) →
  datetime_new y m d H M S us = Raise ValueError.
Proof.
  intros Hbad. apply datetime_new_invalid, not_true_is_false.
  intros [Hd Ht]%andb_true_iff.
  apply valid_date_spec in Hd. apply valid_time_spec in Ht.
  pose proof (days_in_month_bounds y m). lia.
Qed.

Lemma datetime_ymd_min : datetime_ymd 1 1 1 = Ok datetime_min.
Proof. reflexivity. Qed.

Lemma datetime_min_valid : valid_datetime datetime_min = true.
Proof. reflexivity. Qed.

(** ** The ordering *)

Lemma lex_compare_refl a : lex_compare a a = Eq.
Proof. induction a as [|x a IH]; simpl; [done |]. by rewrite Z.compare_refl. Qed.

Lemma lex_compare_eq a b : lex_compare a b = Eq → a = b.
Proof.
  revert b. induction a as [|x a IH]; intros [|y b]; simpl; try done.
  destruct (x ?= y) eqn:E; try done.
  apply Z.compare_eq in E as ->. by intros ->%IH.
Qed.

Lemma lex_compare_antisym a b : lex_compare b a = CompOpp (lex_compare a b).
Proof.
  revert b. induction a as [|x a IH]; intros [|y b]; simpl; try done.
  rewrite (Z.compare_antisym x y). destruct (x ?= y); simpl; auto.
Qed.

Lemma lex_compare_trans c a b d :
  lex_compare a b = c → lex_compare b d = c → lex_compare a d = c.
Proof.
  revert b d. induction a as [|x a IH]; intros [|y b] [|z d]; simpl;
    try congruence.
  destruct (Z.compare_spec x y), (Z.compare_spec y z); subst;
    intros H1 H2; try congruence;
    match goal with
    | |- context [?u ?= ?v] => destruct (Z.compare_spec u v); try lia; eauto
    end.
Qed.

Lemma datetime_fields_inj a b : datetime_fields a = datetime_fields b → a = b.
Proof. destruct a, b. unfold datetime_fields. simpl. by intros [= -> -> -> -> -> -> ->]. Qed.

Lemma datetime_le_refl a : datetime_le a a = true.
Proof. unfold datetime_le, datetime_compare. by rewrite lex_compare_refl. Qed.

Lemma datetime_le_antisym a b :
  datetime_le a b = true → datetime_le b a = true → a = b.
Proof.
  unfold datetime_le, datetime_compare.
  rewrite (lex_compare_antisym (datetime_fields a)).
  destruct (lex_compare _ _) eqn:E; simpl; try done.
  intros _ _. by apply datetime_fields_inj, lex_compare_eq.
Qed.

Lemma datetime_le_trans a b c :
  datetime_le a b = true → datetime_le b c = true → datetime_le a c = true.
Proof.
  unfold datetime_le, datetime_compare.
  destruct (lex_compare (datetime_fields a) _) eqn:Eab; try done;
    destruct (lex_compare (datetime_fields b) _) eqn:Ebc; try done; intros _ _.
  - apply lex_compare_eq in Eab. by rewrite Eab, Ebc.
  - apply lex_compare_eq in Eab. by rewrite Eab, Ebc.
  - apply lex_compare_eq in Ebc. by rewrite <- Ebc, Eab.
  - by rewrite (lex_compare_trans Lt _ _ _ Eab Ebc).
Qed.

Lemma datetime_le_total a b : datetime_le a b = true ∨ datetime_le b a = true.
Proof.
  unfold datetime_le, datetime_compare.
  rewrite (lex_compare_antisym (datetime_fields a)).
  destruct (lex_compare _ _); simpl; auto.
Qed.

(** A tuple that is pointwise below another is not above it in the
    lexicographic order. *)
Lemma lex_compare_pointwise a b :
  Forall2 Z.le a b → lex_compare a b ≠ Gt.
Proof.
  induction 1 as [|x y a b Hxy _ IH]; cbn [lex_compare]; [done |].
  destruct (Z.compare_spec x y); [done | done | lia].
Qed.

(** [datetime.min] is below every valid datetime, so a photo whose
    capture time is unknown sorts before every dated one. *)
Theorem datetime_min_least d :
  valid_datetime d = true → datetime_le datetime_min d = true.
Proof.
  intros [Hd Ht]%valid_datetime_spec.
  apply valid_date_spec in Hd. apply valid_time_spec in Ht.
  unfold datetime_le, datetime_compare.
  pose proof (lex_compare_pointwise (datetime_fields datetime_min)
                (datetime_fields d)) as Hle.
  destruct (lex_compare _ _); [done | done |].
  exfalso. apply Hle; [| done].
  unfold datetime_fields; cbn [year month day hour minute second microsecond datetime_min].
  repeat constructor; lia.
Qed.

Lemma datetime_min_least_witness :
  valid_datetime (DateTime 2016 10 25 14 30 0 0) = true ∧
  datetime_le datetime_min (DateTime 2016 10 25 14 30 0 0) = true.
Proof.
  split; [reflexivity |].
  apply (datetime_min_least (DateTime 2016 10 25 14 30 0 0)). reflexivity.
Defined.

Lemma datetime_new_valid_witness :
  datetime_new 2016 2 29 12 0 0 0 = Ok (DateTime 2016 2 29 12 0 0 0) ∧
  valid_datetime (DateTime 2016 2 29 12 0 0 0) = true.
Proof.
  split; [reflexivity |].
  apply (datetime_new_valid 2016 2 29 12 0 0 0). reflexivity.
Defined.
