(* ===== verification/Strptime.v ===== *)
(** * Strptime: [datetime.strptime] and [verifyDateTime]

    [datetime.strptime(data, format)] is CPython's [_strptime]: the format
    is turned into a regular expression ([TimeRE.pattern]: a run of blanks
    becomes [\s+], a directive [%x] becomes a named group, every other
    character stands for itself), the expression is matched at the start of
    [data] by [re.match] with [IGNORECASE], the match must end where [data]
    ends, the groups are converted with [int], and [datetime(...)] builds
    the value, which checks the ranges.  [ValueError] is raised when the
    format has a bad directive, when nothing matches, when data remains and
    when a field is out of range.

    The model keeps this structure.  [compile_format] produces the items of
    the expression; [match_items] is the backtracking matcher: it returns
    what the first successful path of the expression captures, alternatives
    tried in the order the expression lists them, [\s+] greedy.  The
    directives covered are [%Y %m %d %H %M %S %y %f] and [%%]; a format with
    another directive of Python's table is [Unmodelled], and one that names
    a directive twice raises [ReError] as [re.compile] does. *)

From Stdlib Require Import ZArith String Ascii List Bool Lia ZifyBool.
From stdpp Require Import base tactics option list strings.
From S2P Require Import Prelude PyStr DateTime.

(** ** The expression a format compiles to *)

Inductive directive : Type := DY | Dm | Dd | DH | DM | DS | Dy | Df.

#[global] Instance directive_eq_dec : EqDecision directive.
Proof. solve_decision. Defined.

(** One character class of a directive's expression. *)
Inductive cls : Type :=
| CDigit                      (* \d *)
| CRange (lo hi : ascii)      (* [lo-hi] *)
| CChar (c : ascii).          (* a literal character *)

(** One item of the compiled expression. *)
Inductive item : Type :=
| Lit (c : ascii)             (* the character itself, case ignored *)
| Spaces                      (* \s+ *)
| Dir (d : directive).        (* (?P<d>...) *)

Abbreviation fmt := (list item).

Definition cls_match (k : cls) (c : ascii) : bool :=
  match k with
  | CDigit => is_digit c
  | CRange lo hi => in_range lo hi c
  | CChar x => bool_decide (c = x)
  end.

Definition six_digits : list (list cls) :=
  [ [CDigit; CDigit; CDigit; CDigit; CDigit; CDigit];
    [CDigit; CDigit; CDigit; CDigit; CDigit];
    [CDigit; CDigit; CDigit; CDigit];
    [CDigit; CDigit; CDigit];
    [CDigit; CDigit];
    [CDigit] ].

(** The alternatives of each directive, in the order of [TimeRE]'s table. *)
Definition dir_alts (d : directive) : list (list cls) :=
  match d with
  | DY => [[CDigit; CDigit; CDigit; CDigit]]
  | Dm => [[CChar "1"; CRange "0" "2"]; [CChar "0"; CRange "1" "9"]; [CRange "1" "9"]]
  | Dd => [[CChar "3"; CRange "0" "1"]; [CRange "1" "2"; CDigit];
           [CChar "0"; CRange "1" "9"]; [CRange "1" "9"];
           [CChar " "; CRange "1" "9"]]
  | DH => [[CChar "2"; CRange "0" "3"]; [CRange "0" "1"; CDigit]; [CDigit]]
  | DM => [[CRange "0" "5"; CDigit]; [CDigit]]
  | DS => [[CChar "6"; CRange "0" "1"]; [CRange "0" "5"; CDigit]; [CDigit]]
  | Dy => [[CDigit; CDigit]]
  | Df => six_digits
  end.

(** The directive a format character names; [None] for a character that is
    no key of [TimeRE] (a bad directive). *)
Definition directive_of_char (c : ascii) : option (result directive) :=
  if bool_decide (c = "Y"%char) then Some (Ok DY)
  else if bool_decide (c = "m"%char) then Some (Ok Dm)
  else if bool_decide (c = "d"%char) then Some (Ok Dd)
  else if bool_decide (c = "H"%char) then Some (Ok DH)
  else if bool_decide (c = "M"%char) then Some (Ok DM)
  else if bool_decide (c = "S"%char) then Some (Ok DS)
  else if bool_decide (c = "y"%char) then Some (Ok Dy)
  else if bool_decide (c = "f"%char) then Some (Ok Df)
  else if existsb (λ k, bool_decide (c = k))
            (list_ascii_of_string "IGjUwuVzAaBbpZWcxX")
       then Some (Raise Unmodelled)
  else None.

(** The characters [TimeRE.pattern] escapes with a backslash. *)
Definition is_regex_char (c : ascii) : bool :=
  existsb (λ k, bool_decide (c = k)) (list_ascii_of_string "\.^$*+?(){}[]|").

(** [TimeRE.pattern]: the items of the expression for a format. *)
Fixpoint compile_format (f : str) : result fmt :=
  match f with
  | [] => Ok []
  | c :: f' =>
      if is_space c then
        (* a run of blanks is one [\s+] *)
        rest ← compile_format f';
        Ok (match f' with
            | c' :: _ => if is_space c' then rest else Spaces :: rest
            | [] => Spaces :: rest
            end)
      else if bool_decide (c = "%"%char) then
        match f' with
        | [] => Raise ValueError                       (* stray % *)
        | k :: f'' =>
            if bool_decide (k = "%"%char) then
              rest ← compile_format f''; Ok (Lit "%" :: rest)
            else if is_space k || is_regex_char k then Raise ValueError
            else
              match directive_of_char k with
              | None => Raise ValueError               (* bad directive *)
              | Some rd => d ← rd; rest ← compile_format f''; Ok (Dir d :: rest)
              end
        end
      else rest ← compile_format f'; Ok (Lit c :: rest)
  end.

(** The directives of an expression, in order. *)
Definition fmt_directives (f : fmt) : list directive :=
  omap (λ i, match i with Dir d => Some d | _ => None end) f.

(** [re.compile] refuses a group name used twice. *)
Definition check_groups (f : fmt) : result fmt :=
  if bool_decide (NoDup (fmt_directives f)) then Ok f else Raise ReError.

(** ** Matching *)

(** Match a sequence of classes at the start of [s]: the matched text and
    the rest. *)
Fixpoint match_seq (ks : list cls) (s : str) : option (str * str) :=
  match ks with
  | [] => Some ([], s)
  | k :: ks' =>
      match s with
      | c :: s' =>
          if cls_match k c then
            '(m, rest) ← match_seq ks' s'; Some (c :: m, rest)
          else None
      | [] => None
      end
  end.

Section matcher.
Context {R : Type}.

(** The alternatives of a group, in order: the first whose text lets the
    continuation [k] succeed gives the result. *)
Fixpoint match_alts (alts : list (list cls)) (k : str → str → option R)
    (s : str) : option R :=
  match alts with
  | [] => None
  | a :: alts' =>
      match match_seq a s with
      | Some (m, rest) =>
          match k m rest with
          | Some r => Some r
          | None => match_alts alts' k s
          end
      | None => match_alts alts' k s
      end
  end.

(** [\s+]: one blank, then as many more as the continuation allows,
    longest first. *)
Fixpoint match_spaces (k : str → option R) (s : str) : option R :=
  match s with
  | c :: s' =>
      if is_space c then
        match match_spaces k s' with
        | Some r => Some r
        | None => k s'
        end
      else None
  | [] => None
  end.

End matcher.

(** What the groups captured, in the order of the expression. *)
Abbreviation groups := (list (directive * str)).

(** [re.match]: the captures of the first successful path and the text
    after the match. *)
Fixpoint match_items (f : fmt) (s : str) : option (groups * str) :=
  match f with
  | [] => Some ([], s)
  | Lit c :: f' =>
      match s with
      | x :: s' =>
          if bool_decide (lower_char x = lower_char c) then match_items f' s'
          else None
      | [] => None
      end
  | Spaces :: f' => match_spaces (match_items f') s
  | Dir d :: f' =>
      match_alts (dir_alts d)
        (λ m rest, '(g, r) ← match_items f' rest; Some ((d, m) :: g, r)) s
  end.

(** ** Conversion of the groups *)

(** The variables [_strptime] fills from the groups, with their defaults. *)
Record fields : Type := Fields {
  f_year : option Z;
  f_month : Z;
  f_day : Z;
  f_hour : Z;
  f_minute : Z;
  f_second : Z;
  f_fraction : Z
}.

Definition fields_default : fields := Fields None 1 1 0 0 0 0.

(** One iteration of the loop over [found_dict]. *)
Definition set_field (a : fields) (g : directive * str) : result fields :=
  let '(d, m) := g in
  match d with
  | DY => v ← py_int m;
      Ok (Fields (Some v) (f_month a) (f_day a) (f_hour a) (f_minute a) (f_second a) (f_fraction a))
  | Dy => v ← py_int m;
      Ok (Fields (Some (if v <=? 68 then v + 2000 else v + 1900))
            (f_month a) (f_day a) (f_hour a) (f_minute a) (f_second a) (f_fraction a))
  | Dm => v ← py_int m;
      Ok (Fields (f_year a) v (f_day a) (f_hour a) (f_minute a) (f_second a) (f_fraction a))
  | Dd => v ← py_int m;
      Ok (Fields (f_year a) (f_month a) v (f_hour a) (f_minute a) (f_second a) (f_fraction a))
  | DH => v ← py_int m;
      Ok (Fields (f_year a) (f_month a) (f_day a) v (f_minute a) (f_second a) (f_fraction a))
  | DM => v ← py_int m;
      Ok (Fields (f_year a) (f_month a) (f_day a) (f_hour a) v (f_second a) (f_fraction a))
  | DS => v ← py_int m;
      Ok (Fields (f_year a) (f_month a) (f_day a) (f_hour a) (f_minute a) v (f_fraction a))
  | Df => v ← py_int (m ++ replicate (6 - length m) "0"%char);
      Ok (Fields (f_year a) (f_month a) (f_day a) (f_hour a) (f_minute a) (f_second a) v)
  end.

Fixpoint set_fields (a : fields) (gs : groups) : result fields :=
  match gs with
  | [] => Ok a
  | g :: gs' => a' ← set_field a g; set_fields a' gs'
  end.

(** The year when no directive gave one is 1900, and the datetime
    constructor checks every range. *)
Definition datetime_of_fields (a : fields) : result datetime :=
  datetime_new (default 1900 (f_year a)) (f_month a) (f_day a)
               (f_hour a) (f_minute a) (f_second a) (f_fraction a).

(** [strptime] with the expression already compiled. *)
Definition strptime_fmt (data : str) (f : fmt) : result datetime :=
  match match_items f data with
  | None => Raise ValueError                      (* does not match format *)
  | Some (gs, rest) =>
      if negb (bool_decide (rest = [])) then Raise ValueError   (* unconverted data remains *)
      else a ← set_fields fields_default gs; datetime_of_fields a
  end.

(** [datetime.strptime(data, format)]. *)
Definition strptime (data format : str) : result datetime :=
  f ← compile_format format;
  f ← check_groups f;
  strptime_fmt data f.

(** [verifyDateTime(datestr, datefmtstr)] of [utility.py]. *)
Definition verifyDateTime (datestr datefmtstr : str) : result bool :=
  try_except (_ ← strptime datestr datefmtstr; Ok true) ValueError (Ok false).

(** The two formats the code passes to [strptime]. *)
Definition exif_format : str := "%Y:%m:%d %H:%M:%S".
Definition spa_format : str := "%m/%d/%Y %H:%M:%S".

(** ** Exceptions of the parser *)

Lemma int_of_digits_Raise ds e : int_of_digits ds = Raise e → e = ValueError.
Proof. unfold int_of_digits. case_match; congruence. Qed.

Lemma py_int_Raise s e : py_int s = Raise e → e = ValueError.
Proof.
  unfold py_int. repeat case_match; try congruence;
    try apply int_of_digits_Raise.
  destruct (int_of_digits _) eqn:E; simpl; [done |].
  intros [= <-]. by eapply int_of_digits_Raise.
Qed.

Lemma set_field_Raise a g e : set_field a g = Raise e → e = ValueError.
Proof.
  destruct g as [d m]. unfold set_field.
  destruct d; intros [H | (? & _ & ?)]%bind_Raise_inv; try done;
    by eapply py_int_Raise.
Qed.

Lemma set_fields_Raise gs a e : set_fields a gs = Raise e → e = ValueError.
Proof.
  revert a. induction gs as [|g gs IH]; intros a; simpl; [done |].
  intros [H | (a' & _ & H)]%bind_Raise_inv; [by eapply set_field_Raise | eauto].
Qed.

Lemma datetime_of_fields_Raise a e : datetime_of_fields a = Raise e → e = ValueError.
Proof. unfold datetime_of_fields. by intros [-> _]%datetime_new_Raise. Qed.

Lemma strptime_fmt_Raise data f e : strptime_fmt data f = Raise e → e = ValueError.
Proof.
  unfold strptime_fmt. destruct (match_items f data) as [[gs rest]|]; [| congruence].
  case_match; [congruence |].
  intros [Hr | (a & _ & Hr)]%bind_Raise_inv;
    [by eapply set_fields_Raise | by eapply datetime_of_fields_Raise].
Qed.

Lemma strptime_fmt_valid data f dt :
  strptime_fmt data f = Ok dt → valid_datetime dt = true.
Proof.
  unfold strptime_fmt. destruct (match_items f data) as [[gs rest]|]; [| done].
  case_match; [done |]. intros (a & _ & Hr)%bind_Ok_inv.
  by eapply datetime_new_valid.
Qed.

(** Whatever the data and the format, a datetime that [strptime]
    returns satisfies the range invariant of [datetime]. *)
Theorem strptime_valid data format dt :
  strptime data format = Ok dt → valid_datetime dt = true.
Proof.
  unfold strptime. intros (f & _ & (f' & _ & H)%bind_Ok_inv)%bind_Ok_inv.
  by eapply strptime_fmt_valid.
Qed.

Lemma compile_exif_format :
  compile_format exif_format ≫= check_groups =
  Ok [Dir DY; Lit ":"; Dir Dm; Lit ":"; Dir Dd; Spaces;
      Dir DH; Lit ":"; Dir DM; Lit ":"; Dir DS].
Proof. reflexivity. Qed.

Lemma compile_spa_format :
  compile_format spa_format ≫= check_groups =
  Ok [Dir Dm; Lit "/"; Dir Dd; Lit "/"; Dir DY; Spaces;
      Dir DH; Lit ":"; Dir DM; Lit ":"; Dir DS].
Proof. reflexivity. Qed.

Lemma strptime_compiled data format f :
  compile_format format ≫= check_groups = Ok f →
  strptime data format = strptime_fmt data f.
Proof.
  unfold strptime. intros (f0 & -> & Hc)%bind_Ok_inv. simpl.
  by rewrite Hc.
Qed.

(** With the two formats of the code, [strptime] raises nothing but
    [ValueError], the exception [loadSunPath] catches. *)
Theorem strptime_only_ValueError data format e :
  format = exif_format ∨ format = spa_format →
  strptime data format = Raise e → e = ValueError.
Proof.
  intros [-> | ->].
  - rewrite (strptime_compiled _ _ _ compile_exif_format). apply strptime_fmt_Raise.
  - rewrite (strptime_compiled _ _ _ compile_spa_format). apply strptime_fmt_Raise.
Qed.

Lemma strptime_only_ValueError_witness :
  strptime "badrow x" spa_format = Raise ValueError.
Proof.
  assert (∃ e, strptime "badrow x" spa_format = Raise e) as [e He]
    by (eexists; reflexivity).
  rewrite He. f_equal.
  apply (strptime_only_ValueError "badrow x" spa_format e); [by right | exact He].
Defined.

Lemma strptime_valid_witness :
  valid_datetime (DateTime 2016 10 25 14 30 0 0) = true.
Proof.
  apply (strptime_valid "2016:10:25 14:30:00" exif_format). reflexivity.
Defined.

(** ** Matching fixed-width fields

    The lemmas of this section compute [match_items] on data whose fields
    are written with all their digits, one item of the expression at a time.
    They are what the theorems on the two formats of the code are made of. *)

(** The continuation [match_items] gives to a group. *)
Definition group_k (d : directive) (f' : fmt) (m rest : str)
  : option (groups * str) :=
  '(g, r) ← match_items f' rest; Some ((d, m) :: g, r).

(** The directives written with one or two digits. *)
Definition two_digit (d : directive) : bool :=
  match d with
  | Dm | Dd | DH | DM | DS => true
  | _ => false
  end.

(** The values the expression of a two-digit directive accepts. *)
Definition two_digit_ok (d : directive) (v : Z) : bool :=
  match d with
  | Dm => (1 <=? v) && (v <=? 12)
  | Dd => (1 <=? v) && (v <=? 31)
  | DH => v <=? 23
  | DM => v <=? 59
  | DS => v <=? 61
  | _ => false
  end.

Definition alt12 (alt : list cls) : bool :=
  match alt with
  | [_] | [_; _] => true
  | _ => false
  end.

Definition match2 (a b : ascii) (alt : list cls) : bool :=
  match alt with
  | [k1; k2] => cls_match k1 a && cls_match k2 b
  | _ => false
  end.

Lemma match_items_Dir d f' s :
  match_items (Dir d :: f') s = match_alts (dir_alts d) (group_k d f') s.
Proof. reflexivity. Qed.

Lemma match_lit_eq c f' s : match_items (Lit c :: f') (c :: s) = match_items f' s.
Proof. simpl. by rewrite bool_decide_true. Qed.

Lemma match_lit_digit c f' b tl :
  is_digit b = true → is_digit c = false →
  match_items (Lit c :: f') (b :: tl) = None.
Proof.
  intros Hb Hc. simpl. rewrite bool_decide_false; [done |].
  rewrite (lower_char_digit b Hb). intros E.
  rewrite (lower_char_digit_inv c) in Hc; [done | by rewrite <- E].
Qed.

Lemma match_spaces_digit f' b tl :
  is_digit b = true → match_items (Spaces :: f') (b :: tl) = None.
Proof. intros Hb. simpl. by rewrite is_digit_not_space. Qed.

Lemma match_spaces_one f' x y tl :
  is_space x = true → is_digit y = true →
  match_items (Spaces :: f') (x :: y :: tl) = match_items f' (y :: tl).
Proof. intros Hx Hy. simpl. by rewrite Hx, (is_digit_not_space y Hy). Qed.

(** A group whose alternatives have one or two characters, on two digits
    that the rest of the expression cannot split: the two-character
    alternatives decide. *)
Lemma match_alts_two alts d f' a b tl :
  forallb alt12 alts = true →
  match_items f' (b :: tl) = None →
  match_alts alts (group_k d f') (a :: b :: tl) =
  if existsb (match2 a b) alts then group_k d f' [a; b] tl else None.
Proof.
  intros Halts Hsplit. induction alts as [|alt alts IH]; [done |].
  cbn [forallb] in Halts. apply andb_true_iff in Halts as [Halt Halts].
  specialize (IH Halts).
  destruct alt as [|k1 [|k2 [|? ?]]]; try discriminate Halt; cbn [existsb match2].
  - simpl. destruct (cls_match k1 a); simpl; [| done].
    unfold group_k at 1. by rewrite Hsplit.
  - simpl. destruct (cls_match k1 a), (cls_match k2 b); simpl; try done.
    destruct (group_k d f' [a; b] tl) eqn:E; [done |].
    rewrite IH. by case_match.
Qed.

Lemma forallb_alt12 d : two_digit d = true → forallb alt12 (dir_alts d) = true.
Proof. by destruct d. Qed.

(** The two-character alternatives of a directive accept exactly the
    values of its range. *)
Lemma match2_range d a b :
  two_digit d = true → is_digit a = true → is_digit b = true →
  existsb (match2 a b) (dir_alts d) = two_digit_ok d (digits_val [a; b]).
Proof.
  intros Hd Ha%is_digit_cases Hb%is_digit_cases.
  destruct d; try discriminate Hd;
    repeat (apply elem_of_cons in Ha as [-> | Ha]);
    try (by apply elem_of_nil in Ha);
    repeat (apply elem_of_cons in Hb as [-> | Hb]);
    try (by apply elem_of_nil in Hb); reflexivity.
Qed.

(** A two-digit field before an item that no digit can start. *)
Lemma match_two_digit d f' a b tl :
  two_digit d = true → is_digit a = true → is_digit b = true →
  match_items f' (b :: tl) = None →
  match_items (Dir d :: f') (a :: b :: tl) =
  if two_digit_ok d (digits_val [a; b]) then group_k d f' [a; b] tl else None.
Proof.
  intros Hd Ha Hb Hsplit.
  rewrite match_items_Dir, match_alts_two, match2_range;
    auto using forallb_alt12.
Qed.

(** A two-digit field at the end of the expression: either both digits
    are taken, or the second one is left over. *)
Lemma match_two_digit_last d a b tl :
  two_digit d = true → is_digit a = true → is_digit b = true →
  if two_digit_ok d (digits_val [a; b])
  then match_items [Dir d] (a :: b :: tl) = Some ([(d, [a; b])], tl)
  else ∀ g r, match_items [Dir d] (a :: b :: tl) = Some (g, r) → r = b :: tl.
Proof.
  intros Hd Ha%is_digit_cases Hb%is_digit_cases.
  destruct d; try discriminate Hd;
    repeat (apply elem_of_cons in Ha as [-> | Ha]);
    try (by apply elem_of_nil in Ha);
    repeat (apply elem_of_cons in Hb as [-> | Hb]);
    try (by apply elem_of_nil in Hb);
    first [ reflexivity | by intros g r [= <- <-] | by intros g r [=] ].
Qed.

(** The four digits of a year. *)
Lemma match_year f' y1 y2 y3 y4 tl :
  all_digits [y1; y2; y3; y4] = true →
  match_items (Dir DY :: f') (y1 :: y2 :: y3 :: y4 :: tl) =
  group_k DY f' [y1; y2; y3; y4] tl.
Proof.
  intros H. simpl in H. rewrite match_items_Dir. simpl.
  repeat match type of H with
  | _ && _ = true => apply andb_true_iff in H as [-> H]
  end.
  simpl. fold (group_k DY f'). by destruct (group_k DY f' _ tl).
Qed.

#[global] Arguments match_items : simpl never.
#[global] Arguments two_digit_ok : simpl never.

(** ** The two formats of the code on fixed-width data *)

(** A string of exactly [n] digits. *)
Definition digits (n : nat) (s : str) : Prop :=
  length s = n ∧ all_digits s = true.

(** The EXIF spelling of a datetime: [YYYY:MM:DD HH:MM:SS]. *)
Definition format_exif (dt : datetime) : str :=
  pad_digits 4 (year dt) ++ ":" ++ pad_digits 2 (month dt) ++ ":" ++
  pad_digits 2 (day dt) ++ " " ++ pad_digits 2 (hour dt) ++ ":" ++
  pad_digits 2 (minute dt) ++ ":" ++ pad_digits 2 (second dt).

(** The spelling of the sun-path file: [MM/DD/YYYY HH:MM:SS]. *)
Definition format_spa (dt : datetime) : str :=
  pad_digits 2 (month dt) ++ "/" ++ pad_digits 2 (day dt) ++ "/" ++
  pad_digits 4 (year dt) ++ " " ++ pad_digits 2 (hour dt) ++ ":" ++
  pad_digits 2 (minute dt) ++ ":" ++ pad_digits 2 (second dt).

Lemma digits_2 s :
  digits 2 s → ∃ a b, s = [a; b] ∧ is_digit a = true ∧ is_digit b = true.
Proof.
  intros [Hl Hd]. destruct s as [|a [|b [|? ?]]]; try discriminate Hl.
  simpl in Hd. exists a, b. split; [done |]. lia.
Qed.

Lemma digits_4 s :
  digits 4 s → ∃ a b c d, s = [a; b; c; d] ∧ all_digits s = true.
Proof.
  intros [Hl Hd]. destruct s as [|a [|b [|c [|d [|? ?]]]]]; try discriminate Hl.
  by exists a, b, c, d.
Qed.

Lemma digits_pad w n : digits w (pad_digits w n).
Proof. split; [apply pad_digits_length | apply pad_digits_all_digits]. Qed.

Lemma py_int_two a b :
  is_digit a = true → is_digit b = true → py_int [a; b] = Ok (digits_val [a; b]).
Proof. intros Ha Hb. apply py_int_digits; [simpl; lia | done]. Qed.

(** The constructor refuses the value of a field its expression refused. *)
Ltac invalid_fields :=
  apply datetime_new_out_of_range;
  match goal with
  | H : two_digit_ok _ _ = false |- _ =>
      revert H; clear; unfold two_digit_ok; lia
  end.

Ltac field_fail :=
  simpl; case_bool_decide; [symmetry; invalid_fields | done].

(** One item of the expression on fixed-width data. *)
Ltac field_step :=
  first
  [ rewrite match_lit_eq
  | rewrite match_spaces_one by done
  | rewrite match_year by done; unfold group_k at 1
  | rewrite match_two_digit by auto using match_lit_digit, match_spaces_digit;
    match goal with
    | |- context [two_digit_ok ?d ?v] => destruct (two_digit_ok d v) eqn:?
    end;
    [unfold group_k at 1 | field_fail] ].

(** The last field, [%S], and the conversion of the groups. *)
Ltac field_last S1 S2 t HS1 HS2 :=
  let Hlast := fresh "Hlast" in
  let E := fresh "E" in
  pose proof (match_two_digit_last DS S1 S2 t eq_refl HS1 HS2) as Hlast;
  destruct (two_digit_ok DS _) eqn:?;
  [ rewrite Hlast; simpl; case_bool_decide; simpl; [| done];
    rewrite !py_int_two, (py_int_digits [_; _; _; _]) by done; reflexivity
  | destruct (match_items [Dir DS] _) as [[? ?]|] eqn:E; [| field_fail];
    specialize (Hlast _ _ eq_refl) as ->; field_fail ].

(** On data written [YYYY:MM:DD HH:MM:SS] with all its digits,
    followed by any text [t], [strptime] with the EXIF format is the
    positional reading of the fields followed by the range checks of the
    [datetime] constructor, and it raises [ValueError] when [t] is not
    empty. *)
Theorem strptime_exif_fixed Y m d H M S t :
  digits 4 Y → digits 2 m → digits 2 d → digits 2 H → digits 2 M → digits 2 S →
  strptime (Y ++ ":" ++ m ++ ":" ++ d ++ " " ++ H ++ ":" ++ M ++ ":" ++ S ++ t)
           exif_format =
  if bool_decide (t = []) then
    datetime_new (digits_val Y) (digits_val m) (digits_val d)
                 (digits_val H) (digits_val M) (digits_val S) 0
  else Raise ValueError.
Proof.
  intros (y1 & y2 & y3 & y4 & -> & HY)%digits_4
    (m1 & m2 & -> & Hm1 & Hm2)%digits_2 (d1 & d2 & -> & Hd1 & Hd2)%digits_2
    (H1 & H2 & -> & HH1 & HH2)%digits_2 (M1 & M2 & -> & HM1 & HM2)%digits_2
    (S1 & S2 & -> & HS1 & HS2)%digits_2.
  rewrite (strptime_compiled _ _ _ compile_exif_format). unfold strptime_fmt.
  cbn [app list_ascii_of_string].
  repeat field_step. field_last S1 S2 t HS1 HS2.
Qed.

(** The same for the format of the sun-path file,
    [MM/DD/YYYY HH:MM:SS]. *)
Theorem strptime_spa_fixed Y m d H M S t :
  digits 4 Y → digits 2 m → digits 2 d → digits 2 H → digits 2 M → digits 2 S →
  strptime (m ++ "/" ++ d ++ "/" ++ Y ++ " " ++ H ++ ":" ++ M ++ ":" ++ S ++ t)
           spa_format =
  if bool_decide (t = []) then
    datetime_new (digits_val Y) (digits_val m) (digits_val d)
                 (digits_val H) (digits_val M) (digits_val S) 0
  else Raise ValueError.
Proof.
  intros (y1 & y2 & y3 & y4 & -> & HY)%digits_4
    (m1 & m2 & -> & Hm1 & Hm2)%digits_2 (d1 & d2 & -> & Hd1 & Hd2)%digits_2
    (H1 & H2 & -> & HH1 & HH2)%digits_2 (M1 & M2 & -> & HM1 & HM2)%digits_2
    (S1 & S2 & -> & HS1 & HS2)%digits_2.
  rewrite (strptime_compiled _ _ _ compile_spa_format). unfold strptime_fmt.
  cbn [app list_ascii_of_string].
  repeat field_step. field_last S1 S2 t HS1 HS2.
Qed.

(** The fields of a valid datetime fit their printed widths. *)
Lemma valid_datetime_widths dt :
  valid_datetime dt = true →
  0 ≤ year dt < 10 ^ 4 ∧ 0 ≤ month dt < 10 ^ 2 ∧ 0 ≤ day dt < 10 ^ 2 ∧
  0 ≤ hour dt < 10 ^ 2 ∧ 0 ≤ minute dt < 10 ^ 2 ∧ 0 ≤ second dt < 10 ^ 2.
Proof.
  intros [Hd Ht]%valid_datetime_spec.
  apply valid_date_spec in Hd. apply valid_time_spec in Ht.
  pose proof (days_in_month_bounds (year dt) (month dt)). lia.
Qed.

Lemma datetime_new_pad dt :
  valid_datetime dt = true → microsecond dt = 0 →
  datetime_new (digits_val (pad_digits 4 (year dt)))
    (digits_val (pad_digits 2 (month dt))) (digits_val (pad_digits 2 (day dt)))
    (digits_val (pad_digits 2 (hour dt))) (digits_val (pad_digits 2 (minute dt)))
    (digits_val (pad_digits 2 (second dt))) 0 = Ok dt.
Proof.
  intros Hv Hus. destruct (valid_datetime_widths dt Hv) as (?&?&?&?&?&?).
  rewrite !pad_digits_val by done. rewrite <- Hus.
  by apply datetime_new_of_valid.
Qed.

(** C32: a valid datetime with no fraction of a second, written the EXIF
    way, is read back by [strptime] with the EXIF format. *)
Theorem strptime_exif_roundtrip dt :
  valid_datetime dt = true → microsecond dt = 0 →
  strptime (format_exif dt) exif_format = Ok dt.
Proof.
  intros Hv Hus. unfold format_exif.
  rewrite <- (app_nil_r (pad_digits 2 (second dt))).
  rewrite strptime_exif_fixed by apply digits_pad.
  by apply datetime_new_pad.
Qed.

(** C33: a valid datetime with no fraction of a second, written as the
    sun-path file writes it, is read back by [strptime] with the format
    [loadSunPath] uses. *)
Theorem strptime_spa_roundtrip dt :
  valid_datetime dt = true → microsecond dt = 0 →
  strptime (format_spa dt) spa_format = Ok dt.
Proof.
  intros Hv Hus. unfold format_spa.
  rewrite <- (app_nil_r (pad_digits 2 (second dt))).
  rewrite strptime_spa_fixed by apply digits_pad.
  by apply datetime_new_pad.
Qed.

Lemma strptime_exif_fixed_witness :
  strptime "2016:10:25 14:30:00" exif_format = Ok (DateTime 2016 10 25 14 30 0 0).
Proof.
  apply (strptime_exif_fixed "2016" "10" "25" "14" "30" "00" []);
    by split.
Defined.

Lemma strptime_spa_fixed_witness :
  strptime "02/30/2016 12:00:00" spa_format = Raise ValueError.
Proof.
  apply (strptime_spa_fixed "2016" "02" "30" "12" "00" "00" []);
    by split.
Defined.

Lemma strptime_exif_roundtrip_witness :
  strptime (format_exif (DateTime 2016 2 29 23 59 59 0)) exif_format =
  Ok (DateTime 2016 2 29 23 59 59 0).
Proof. by apply (strptime_exif_roundtrip (DateTime 2016 2 29 23 59 59 0)). Defined.

Lemma strptime_spa_roundtrip_witness :
  strptime (format_spa (DateTime 2016 10 25 6 0 0 0)) spa_format =
  Ok (DateTime 2016 10 25 6 0 0 0).
Proof. by apply (strptime_spa_roundtrip (DateTime 2016 10 25 6 0 0 0)). Defined.

(** ** [verifyDateTime] *)

(** C34: [verifyDateTime] answers [True] exactly when [strptime] returns a
    datetime, and [False] exactly when it raises [ValueError]. *)
Theorem verifyDateTime_spec datestr datefmtstr b :
  verifyDateTime datestr datefmtstr = Ok b ↔
  (b = true ∧ ∃ dt, strptime datestr datefmtstr = Ok dt) ∨
  (b = false ∧ strptime datestr datefmtstr = Raise ValueError).
Proof.
  unfold verifyDateTime. destruct (strptime datestr datefmtstr) as [dt|e].
  - simpl. split; [intros [= <-]; left; eauto | intros [[-> _] | [_ [=]]]; done].
  - rewrite bind_Raise. destruct (decide (e = ValueError)) as [-> | Hne].
    + rewrite try_except_caught.
      split; [intros [= <-]; by right | intros [[_ [? [=]]] | [-> _]]; done].
    + rewrite try_except_other by done.
      split; [done | intros [[_ [? [=]]] | [_ [= ->]]]; done].
Qed.

(** With the formats of the code [verifyDateTime] always answers. *)
Lemma verifyDateTime_total datestr format :
  format = exif_format ∨ format = spa_format →
  ∃ b, verifyDateTime datestr format = Ok b.
Proof.
  intros Hf. unfold verifyDateTime.
  destruct (strptime datestr format) as [dt|e] eqn:E; [simpl; eauto |].
  apply (strptime_only_ValueError _ _ _ Hf) in E as ->.
  rewrite bind_Raise, try_except_caught. eauto.
Qed.
