(* ===== verification/Csv.v ===== *)
(** * Csv: the reader of Python's [csv] module

    [loadSunPath] reads its file through [csv.reader(f, delimiter=',')]:
    the "excel" dialect (quote character [034], doubled quotes inside
    quoted fields, no escape character, initial blanks kept, not strict).
    The reader is the state machine of CPython's [_csv.c]: [parse_process_char]
    is applied to each character of a line and then to the end-of-line mark,
    and a record is complete when the machine is back in [START_RECORD].
    The states that only an escape character reaches are left out.

    [reader_rows] is the sequence of rows the iteration yields, with the
    error that ends it, if any.  The theorems: rows written one per line with
    commas between plain fields are read back unchanged, a blank line is read
    as the empty row, and there are never more rows than lines. *)

From Stdlib Require Import ZArith String Ascii List Bool Lia ZifyBool.
From stdpp Require Import base tactics option list strings.
From S2P Require Import Prelude PyStr.

(** ** The dialect *)

Definition delimiter : ascii := ",".
Definition quotechar : ascii := "034".
Definition field_limit : Z := 131072.

Definition is_newline (c : ascii) : bool :=
  bool_decide (c = "010"%char) || bool_decide (c = "013"%char).

(** ** The parser *)

Inductive parser_state :=
  | START_RECORD
  | START_FIELD
  | IN_FIELD
  | IN_QUOTED_FIELD
  | QUOTE_IN_QUOTED_FIELD
  | EAT_CRNL.

#[global] Instance parser_state_eq_dec : EqDecision parser_state.
Proof. solve_decision. Defined.

Abbreviation row := (list str).

(** The reader object: the state, the fields of the record read so far and
    the characters of the field being read. *)
Record reader := Reader {
  rd_state : parser_state;
  rd_fields : row;
  rd_field : str
}.

Definition parse_reset : reader := Reader START_RECORD [] [].

Definition set_state (st : parser_state) (r : reader) : reader :=
  Reader st (rd_fields r) (rd_field r).

Definition parse_save_field (r : reader) : reader :=
  Reader (rd_state r) (rd_fields r ++ [rd_field r]) [].

Definition parse_add_char (r : reader) (c : ascii) : result reader :=
  if field_limit <=? Z.of_nat (length (rd_field r)) then Raise CsvError
  else Ok (Reader (rd_state r) (rd_fields r) (rd_field r ++ [c])).

(** A character where a field starts ([None] is the end of the line). *)
Definition start_field (r : reader) (c : option ascii) : result reader :=
  match c with
  | None => Ok (set_state START_RECORD (parse_save_field r))
  | Some x =>
      if is_newline x then Ok (set_state EAT_CRNL (parse_save_field r))
      else if bool_decide (x = quotechar) then Ok (set_state IN_QUOTED_FIELD r)
      else if bool_decide (x = delimiter) then Ok (parse_save_field r)
      else set_state IN_FIELD <$> parse_add_char r x
  end.

Definition parse_process_char (r : reader) (c : option ascii) : result reader :=
  match rd_state r with
  | START_RECORD =>
      match c with
      | None => Ok r
      | Some x =>
          if is_newline x then Ok (set_state EAT_CRNL r)
          else start_field (set_state START_FIELD r) c
      end
  | START_FIELD => start_field r c
  | IN_FIELD =>
      match c with
      | None => Ok (set_state START_RECORD (parse_save_field r))
      | Some x =>
          if is_newline x then Ok (set_state EAT_CRNL (parse_save_field r))
          else if bool_decide (x = delimiter)
          then Ok (set_state START_FIELD (parse_save_field r))
          else parse_add_char r x
      end
  | IN_QUOTED_FIELD =>
      match c with
      | None => Ok r
      | Some x =>
          if bool_decide (x = quotechar) then Ok (set_state QUOTE_IN_QUOTED_FIELD r)
          else parse_add_char r x
      end
  | QUOTE_IN_QUOTED_FIELD =>
      match c with
      | None => Ok (set_state START_RECORD (parse_save_field r))
      | Some x =>
          if bool_decide (x = quotechar)
          then set_state IN_QUOTED_FIELD <$> parse_add_char r x
          else if bool_decide (x = delimiter)
          then Ok (set_state START_FIELD (parse_save_field r))
          else if is_newline x then Ok (set_state EAT_CRNL (parse_save_field r))
          else set_state IN_FIELD <$> parse_add_char r x
      end
  | EAT_CRNL =>
      match c with
      | None => Ok (set_state START_RECORD r)
      | Some x => if is_newline x then Ok r else Raise CsvError
      end
  end.

(** One line of the input: its characters, then the end-of-line mark. *)
Fixpoint parse_line (r : reader) (line : str) : result reader :=
  match line with
  | [] => parse_process_char r None
  | c :: line' => r' ← parse_process_char r (Some c); parse_line r' line'
  end.

(** At the end of the input a record that was begun is still returned. *)
Definition pending (r : reader) : bool :=
  negb (bool_decide (rd_field r = [])) || bool_decide (rd_state r = IN_QUOTED_FIELD).

(** The rows the iteration over the reader yields from the lines of the
    input, and the error that ends the iteration, if one does. *)
Fixpoint reader_rows (r : reader) (lines : list str) : list row * option exn :=
  match lines with
  | [] => if pending r then ([rd_fields (parse_save_field r)], None) else ([], None)
  | l :: ls =>
      match parse_line r l with
      | Raise e => ([], Some e)
      | Ok r' =>
          if bool_decide (rd_state r' = START_RECORD)
          then let '(rows, err) := reader_rows parse_reset ls in
               (rd_fields r' :: rows, err)
          else reader_rows r' ls
      end
  end.

Definition csv_reader (lines : list str) : list row * option exn :=
  reader_rows parse_reset lines.

(** ** Writing plain rows

    The lines of a file whose fields need no quoting: the fields of a row
    separated by the delimiter, and a newline after each row. *)

Definition plain_char (c : ascii) : bool :=
  negb (is_newline c) && negb (bool_decide (c = quotechar))
  && negb (bool_decide (c = delimiter)).

Definition plain_field (f : str) : bool :=
  forallb plain_char f && (Z.of_nat (length f) <=? field_limit).

Fixpoint join_fields (fs : row) : str :=
  match fs with
  | [] => []
  | [f] => f
  | f :: fs' => f ++ delimiter :: join_fields fs'
  end.

Definition format_row (fs : row) : str := join_fields fs ++ ["010"%char].

(** A row that [format_row] writes so that it is read back: plain fields,
    and not the row of one empty field, whose line is blank. *)
Definition plain_row (fs : row) : bool :=
  forallb plain_field fs && negb (bool_decide (fs = [[]])).

(** ** Lemmas *)

Lemma parse_add_char_Ok r c :
  Z.of_nat (length (rd_field r)) < field_limit →
  parse_add_char r c = Ok (Reader (rd_state r) (rd_fields r) (rd_field r ++ [c])).
Proof. unfold parse_add_char. intros. case_match; [lia | done]. Qed.

Lemma plain_char_spec c :
  plain_char c = true →
  is_newline c = false ∧ bool_decide (c = quotechar) = false
  ∧ bool_decide (c = delimiter) = false.
Proof. unfold plain_char. destruct (is_newline c), (bool_decide _), (bool_decide _); done. Qed.

(** The characters of a plain field, read inside a field, are added to it. *)
Lemma parse_line_in_field fs f g rest :
  forallb plain_char g = true →
  Z.of_nat (length (f ++ g)) ≤ field_limit →
  parse_line (Reader IN_FIELD fs f) (g ++ rest) =
  parse_line (Reader IN_FIELD fs (f ++ g)) rest.
Proof.
  revert f. induction g as [|c g IH]; intros f Hp Hl.
  { by rewrite app_nil_r. }
  cbn [forallb] in Hp. apply andb_prop in Hp as [Hc Hp].
  apply plain_char_spec in Hc as (Hn & _ & Hd).
  rewrite length_app in Hl. cbn [length] in Hl.
  cbn [app parse_line]. unfold parse_process_char at 1. cbn [rd_state].
  rewrite Hn, Hd, parse_add_char_Ok by (cbn [rd_field]; lia).
  rewrite bind_Ok. cbn [rd_state rd_fields rd_field].
  rewrite IH, <- (assoc_L (++)); [done | done |].
  rewrite !length_app. cbn [length]. lia.
Qed.

(** A plain field read from the start of a field, up to what ends it. *)
Lemma parse_line_start_field fs g rest :
  plain_field g = true →
  (rest = [] ∨ ∃ c rest', rest = c :: rest' ∧ plain_char c = false) →
  parse_line (Reader START_FIELD fs []) (g ++ rest) =
  match g with
  | [] => parse_line (Reader START_FIELD fs []) rest
  | _ => parse_line (Reader IN_FIELD fs g) rest
  end.
Proof.
  unfold plain_field. intros [Hp Hl]%andb_prop Hrest.
  destruct g as [|c g]; [done|].
  cbn [forallb] in Hp. apply andb_prop in Hp as [Hc Hp].
  apply plain_char_spec in Hc as (Hn & Hq & Hd).
  cbn [length] in Hl.
  cbn [app parse_line]. unfold parse_process_char at 1, start_field.
  cbn [rd_state]. rewrite Hn, Hq, Hd, parse_add_char_Ok by (cbn [rd_field length]; lia).
  cbn [fmap result_fmap set_state rd_fields rd_field app]. rewrite bind_Ok.
  apply (parse_line_in_field fs [c] g rest Hp). cbn [app length]. lia.
Qed.

Lemma join_fields_cons g g' gs :
  join_fields (g :: g' :: gs) = g ++ delimiter :: join_fields (g' :: gs).
Proof. done. Qed.

(** The fields of a row, read from the start of a field. *)
Lemma parse_line_fields fs gs :
  forallb plain_field gs = true → gs ≠ [] →
  parse_line (Reader START_FIELD fs []) (format_row gs) =
  Ok (Reader START_RECORD (fs ++ gs) []).
Proof.
  revert fs. induction gs as [|g gs IH]; intros fs Hp Hne; [done|].
  cbn [forallb] in Hp. apply andb_prop in Hp as [Hg Hp].
  destruct gs as [|g' gs].
  - unfold format_row. cbn [join_fields].
    rewrite parse_line_start_field by (try done; right; by eexists _, _).
    by destruct g.
  - specialize (IH (fs ++ [g]) Hp ltac:(done)). rewrite <- (assoc_L (++)) in IH.
    unfold format_row in *. rewrite join_fields_cons, <- (assoc_L (++)).
    rewrite parse_line_start_field by (try done; right; by eexists _, _).
    rewrite <- (app_comm_cons _ _ delimiter).
    by destruct g; cbn [parse_line]; unfold parse_process_char at 1.
Qed.

(** The first character of the line of a plain row is no newline, unless
    the row is empty. *)
Lemma format_row_head gs :
  plain_row gs = true → gs ≠ [] →
  ∃ c s, format_row gs = c :: s ∧ is_newline c = false.
Proof.
  unfold plain_row, format_row. intros [Hp Hne]%andb_prop Hgs.
  destruct gs as [|[|c g] gs]; [done| |].
  - destruct gs as [|g' gs]; [done|]. by eexists _, _.
  - cbn [forallb] in Hp. apply andb_prop in Hp as [Hg _].
    unfold plain_field in Hg. cbn [forallb] in Hg.
    apply andb_prop in Hg as [[Hc _]%andb_prop _].
    apply plain_char_spec in Hc as [Hn _].
    destruct gs; cbn [join_fields app]; by eexists _, _.
Qed.

(** Reading the line of a plain row gives the row. *)
Lemma parse_line_format_row gs :
  plain_row gs = true →
  parse_line parse_reset (format_row gs) = Ok (Reader START_RECORD gs []).
Proof.
  intros Hrow. destruct (decide (gs = [])) as [->|Hne]; [done|].
  destruct (format_row_head gs Hrow Hne) as (c & s & Heq & Hn).
  pose proof (parse_line_fields [] gs) as Hf. rewrite Heq in *.
  apply andb_prop in Hrow as [Hp _]. specialize (Hf Hp Hne).
  cbn [parse_line] in *. unfold parse_process_char at 1. cbn [parse_reset rd_state].
  by rewrite Hn.
Qed.

Lemma reader_rows_length_aux r lines :
  (length (reader_rows r lines).1 ≤ length lines + if pending r then 1 else 0)%nat.
Proof.
  revert r. induction lines as [|l ls IH]; intros r; cbn [reader_rows].
  { destruct (pending r); cbn; lia. }
  destruct (parse_line r l) as [r'|e]; [|cbn; lia].
  case_bool_decide.
  - specialize (IH parse_reset). change (pending parse_reset) with false in IH.
    destruct (reader_rows parse_reset ls). cbn in *. lia.
  - specialize (IH r'). destruct (pending r'), (pending r); cbn [length] in *; lia.
Qed.

Lemma parse_add_char_Raise r c e : parse_add_char r c = Raise e → e = CsvError.
Proof. unfold parse_add_char. case_match; congruence. Qed.

Lemma parse_process_char_Raise r c e :
  parse_process_char r c = Raise e → e = CsvError.
Proof.
  unfold parse_process_char, start_field.
  repeat case_match; try done;
    try (intros [= <-]; done);
    try (by intros ?%parse_add_char_Raise);
    destruct (parse_add_char _ _) eqn:E; try done;
    apply parse_add_char_Raise in E as ->; by intros [= <-].
Qed.

Lemma parse_line_Raise r line e : parse_line r line = Raise e → e = CsvError.
Proof.
  revert r. induction line as [|c line IH]; intros r; cbn [parse_line].
  { apply parse_process_char_Raise. }
  intros [?%parse_process_char_Raise | (? & _ & ?%IH)]%bind_Raise_inv; done.
Qed.

(** The iteration ends with no other error than [csv.Error]. *)
Lemma reader_rows_err r lines e : (reader_rows r lines).2 = Some e → e = CsvError.
Proof.
  revert r. induction lines as [|l ls IH]; intros r; cbn [reader_rows].
  { by case_match. }
  destruct (parse_line r l) as [r'|e'] eqn:E.
  - case_bool_decide; [|apply IH].
    specialize (IH parse_reset). by destruct (reader_rows parse_reset ls).
  - intros [= <-]. by eapply parse_line_Raise.
Qed.

(** The lines of plain rows are read back as these rows. *)
Lemma csv_reader_format_rows rows :
  Forall (λ fs, plain_row fs = true) rows →
  csv_reader (format_row <$> rows) = (rows, None).
Proof.
  unfold csv_reader. induction 1 as [|fs rows Hfs _ IH]; [done|].
  cbn [fmap list_fmap reader_rows]. rewrite parse_line_format_row by done.
  cbn [rd_state rd_fields]. rewrite bool_decide_eq_true_2 by done.
  fold (fmap (M:=list) format_row rows). by rewrite IH.
Qed.

(** The characters of the line of a plain row are plain or delimiters. *)
Lemma join_fields_chars fs c :
  forallb plain_field fs = true → c ∈ join_fields fs →
  plain_char c = true ∨ c = delimiter.
Proof.
  induction fs as [|f fs IH]; [by intros _ ?%elem_of_nil|].
  cbn [forallb]. intros [[Hf _]%andb_prop Hfs]%andb_prop.
  rewrite forallb_forall in Hf.
  assert (c ∈ f → plain_char c = true) by (by intros ?%list_elem_of_In%Hf).
  destruct fs as [|g fs]; [by auto|].
  rewrite join_fields_cons, elem_of_app, elem_of_cons.
  intros [? | [? | ?]]; auto.
Qed.

Lemma join_fields_no_newline fs c :
  forallb plain_field fs = true → is_newline c = true → c ∉ join_fields fs.
Proof.
  intros Hfs Hc Hin. destruct (join_fields_chars fs c Hfs Hin) as [Hp | ->]; [|done].
  apply plain_char_spec in Hp as [? _]. congruence.
Qed.

(** A file of plain rows is iterated line by line, a row per line. *)
Lemma text_lines_format_rows rows :
  Forall (λ fs, plain_row fs = true) rows →
  text_lines (concat (format_row <$> rows)) = format_row <$> rows.
Proof.
  intros Hrows. unfold text_lines.
  assert (∀ c, is_newline c = true → Forall (λ l, c ∉ l) (join_fields <$> rows)) as Hn.
  { intros c Hc. apply Forall_fmap. eapply Forall_impl; [done|].
    intros fs [? _]%andb_prop. by apply join_fields_no_newline. }
  replace (format_row <$> rows)
    with ((λ l, l ++ ["010"%char]) <$> (join_fields <$> rows))
    by (by rewrite <- list_fmap_compose).
  rewrite universal_newlines_id; [by apply splitlines_lines, Hn|].
  apply not_elem_of_concat, Forall_fmap, (Forall_impl _ _ _ (Hn "013"%char eq_refl)).
  intros l Hl [? | [=]%list_elem_of_singleton]%elem_of_app. done.
Qed.

(** ** Theorems *)

(** C35: a file of plain rows, written a row per line with commas between
    the fields, is read back as these rows, without error. *)
Theorem csv_reader_text_roundtrip rows :
  Forall (λ fs, plain_row fs = true) rows →
  csv_reader (text_lines (concat (format_row <$> rows))) = (rows, None).
Proof.
  intros Hrows. by rewrite text_lines_format_rows, csv_reader_format_rows.
Qed.

Lemma csv_reader_text_roundtrip_witness :
  csv_reader (text_lines (concat
    (format_row <$> [strs ["Date"; "Time"]; []; strs ["1"; ""; "x y"]])))
  = ([strs ["Date"; "Time"]; []; strs ["1"; ""; "x y"]], None).
Proof. apply csv_reader_text_roundtrip. repeat constructor. Defined.

(** A blank line is read as the row without fields. *)
Theorem csv_reader_blank_line lines rows err :
  csv_reader lines = (rows, err) →
  csv_reader (["010"%char] :: lines) = ([] :: rows, err).
Proof. unfold csv_reader. cbn. by intros ->. Qed.

Lemma csv_reader_blank_line_witness :
  csv_reader [["010"%char]; format_row (strs ["a"; "b"])] = ([[]; strs ["a"; "b"]], None).
Proof. by apply csv_reader_blank_line. Defined.

(** The reader yields at most one row per line of the input. *)
Theorem csv_reader_length lines :
  (length (csv_reader lines).1 ≤ length lines)%nat.
Proof.
  pose proof (reader_rows_length_aux parse_reset lines) as H.
  change (pending parse_reset) with false in H. cbv iota in H.
  unfold csv_reader. lia.
Qed.
