(* ===== verification/FileSys.v ===== *)
(** * FileSys: what the code asks of the file system

    The functions of [utility.py] and [utility_data.py] reach the file
    system through [os.path.exists], [os.path.isfile], [os.path.isdir],
    [os.listdir], [os.walk] and [open].  The class [FileSys] is this
    interface: the queries on a state of the file system, and the laws the
    clients' theorems rely on.  [FsTree] gives the instance, a tree of
    directories and files with POSIX path resolution.

    Paths are compared as the file system compares them, character by
    character: names that differ in case are different names. *)

From Stdlib Require Import ZArith String Ascii List Bool Lia.
From stdpp Require Import base tactics option list strings.
From S2P Require Import Prelude PyStr.

(** ** The interface *)

(** One step of [os.walk]: a directory, the names of its subdirectories
    and the names of its other entries. *)
Abbreviation walk_entry := (str * list str * list str)%type.

Class FileSys (FS : Type) := {
  (** [os.path.exists(p)], [os.path.isfile(p)], [os.path.isdir(p)] *)
  path_exists : FS → str → bool;
  isfile : FS → str → bool;
  isdir : FS → str → bool;
  (** [os.listdir(p)] *)
  listdir : FS → str → result (list str);
  (** the content of the file [open(p)] opens *)
  read_file : FS → str → result str;
  (** [os.walk(p)], top down *)
  walk : FS → str → list walk_entry;

  isfile_exists s p : isfile s p = true → path_exists s p = true;
  isdir_exists s p : isdir s p = true → path_exists s p = true;
  isfile_not_isdir s p : isfile s p = true → isdir s p = false;
  read_file_isfile s p : is_ok (read_file s p) = isfile s p;
  read_file_Raise s p e : read_file s p = Raise e → e = IOError;
  listdir_isdir s p : is_ok (listdir s p) = isdir s p;
  listdir_Raise s p e : listdir s p = Raise e → e = IOError;
  listdir_exists s d ns n :
    listdir s d = Ok ns → n ∈ ns → path_exists s (path_join d n) = true;
  walk_not_isdir s top : isdir s top = false → walk s top = [];
  walk_dirs s top r ds fs d :
    (r, ds, fs) ∈ walk s top → d ∈ ds → isdir s (path_join r d) = true;
  walk_files s top r ds fs f :
    (r, ds, fs) ∈ walk s top → f ∈ fs → isfile s (path_join r f) = true
}.

(** ** Consequences of the laws *)

Section laws.
Context `{FileSys FS}.
Implicit Types (s : FS) (p : str).

Lemma not_exists_not_isfile s p : path_exists s p = false → isfile s p = false.
Proof. intros ?. destruct (isfile s p) eqn:E; [|done]. apply isfile_exists in E. congruence. Qed.

Lemma not_exists_not_isdir s p : path_exists s p = false → isdir s p = false.
Proof. intros ?. destruct (isdir s p) eqn:E; [|done]. apply isdir_exists in E. congruence. Qed.

Lemma read_file_Ok s p : isfile s p = true → ∃ c, read_file s p = Ok c.
Proof. rewrite <- read_file_isfile. destruct (read_file s p); [eauto | done]. Qed.

Lemma read_file_Ok_isfile s p c : read_file s p = Ok c → isfile s p = true.
Proof. intros E. by rewrite <- read_file_isfile, E. Qed.

Lemma read_file_Ok_exists s p c : read_file s p = Ok c → path_exists s p = true.
Proof. intros E. by eapply isfile_exists, read_file_Ok_isfile. Qed.

Lemma read_file_missing s p : isfile s p = false → read_file s p = Raise IOError.
Proof.
  rewrite <- read_file_isfile. destruct (read_file s p) as [|e] eqn:E; [done|].
  by rewrite (read_file_Raise _ _ _ E).
Qed.

Lemma listdir_Ok s p : isdir s p = true → ∃ ns, listdir s p = Ok ns.
Proof. rewrite <- listdir_isdir. destruct (listdir s p); [eauto | done]. Qed.

Lemma listdir_missing s p : isdir s p = false → listdir s p = Raise IOError.
Proof.
  rewrite <- listdir_isdir. destruct (listdir s p) as [|e] eqn:E; [done|].
  by rewrite (listdir_Raise _ _ _ E).
Qed.

End laws.
