(* ===== verification/FsTree.v ===== *)
(** * FsTree: a tree of directories and files

    The instance of the interface [FileSys]: the file system is a tree
    whose inner nodes are directories (lists of named entries, in directory
    order) and whose leaves are regular files with their content.  A path
    is resolved as POSIX does without symbolic links: components separated
    by slashes, empty components and [.] skipped, [..] going to the parent
    (the root is its own parent), a component looked up in a file failing.
    The working directory is the root, so a relative path and the same path
    after a slash name the same node.  Permissions and special files are
    not modelled: a file that exists can be read.

    [os.walk] is the top-down traversal of the subtree at the path.  The
    lemmas show the laws of [FileSys] for every well-formed tree. *)

From Stdlib Require Import ZArith String Ascii List Bool Lia.
From stdpp Require Import base tactics option list strings.
From S2P Require Import Prelude PyStr FileSys.

(** ** The tree *)

#[warnings="-register-all"]
Inductive node :=
  | File (data : str)
  | Dir (entries : list (str * node)).

Abbreviation entries := (list (str * node)).

(** [S_ISDIR] and [S_ISREG] of a node. *)
Definition is_dir (n : node) : bool :=
  match n with Dir _ => true | File _ => false end.

Definition is_file (n : node) : bool :=
  match n with File _ => true | Dir _ => false end.

(** The entry of a directory with a given name. *)
Fixpoint lookup_entry (name : str) (es : entries) : option node :=
  match es with
  | [] => None
  | (n, x) :: es' => if bool_decide (n = name) then Some x else lookup_entry name es'
  end.

(** One component of a path, from the directory on top of the stack of
    the directories entered so far. *)
Definition step (stack : list node) (c : str) : option (list node) :=
  match stack with
  | Dir es :: anc =>
      if bool_decide (c = []) || bool_decide (c = ".") then Some stack
      else if bool_decide (c = "..")
      then Some (match anc with [] => stack | _ => anc end)
      else x ← lookup_entry c es; Some (x :: stack)
  | _ => None
  end.

(** The resolution of the characters [p] of a path after the characters
    [cur] of the component being read. *)
Fixpoint resolve_from (stack : list node) (cur p : str) : option (list node) :=
  match p with
  | [] => step stack cur
  | c :: p' =>
      if bool_decide (c = "/"%char) then st ← step stack cur; resolve_from st [] p'
      else resolve_from stack (cur ++ [c]) p'
  end.

(** The node a path names; the empty path names none. *)
Definition resolve (root : entries) (p : str) : option node :=
  if bool_decide (p = []) then None
  else st ← resolve_from [Dir root] [] p; head st.

(** Well-formed trees: entries have names that a path component can be,
    different names in one directory. *)
Definition valid_name (n : str) : bool :=
  negb (bool_decide (n = [])) && negb (bool_decide (n = ".")) &&
  negb (bool_decide (n = "..")) && forallb (λ c, negb (bool_decide (c = "/"%char))) n.

Fixpoint wf_node (n : node) : bool :=
  match n with
  | File _ => true
  | Dir es =>
      forallb valid_name es.*1 && bool_decide (NoDup es.*1) &&
      forallb (λ e, wf_node e.2) es
  end.

(** The names of the subdirectories and of the other entries. *)
Definition dir_names (es : entries) : list str := (filter (λ e, is_dir e.2 = true) es).*1.
Definition file_names (es : entries) : list str := (filter (λ e, is_dir e.2 = false) es).*1.

(** [os.walk(top)] at a node: the directory, then the walks of its
    subdirectories in order. *)
Fixpoint walk_node (top : str) (n : node) : list walk_entry :=
  match n with
  | File _ => []
  | Dir es =>
      (top, dir_names es, file_names es)
      :: (es ≫= λ e, walk_node (path_join top e.1) e.2)
  end.

(** Induction on a tree, with the hypothesis for every entry. *)
Lemma node_nested_ind (P : node → Prop) :
  (∀ d, P (File d)) → (∀ es, Forall (λ e, P e.2) es → P (Dir es)) → ∀ n, P n.
Proof.
  intros HF HD. fix IH 1. intros [d|es]; [apply HF|]. apply HD.
  induction es as [|[n x] es IHes]; constructor; [apply IH | apply IHes].
Qed.

(** A well-formed tree as a state of the file system. *)
Record fs_tree := FsTree {
  fs_root : entries;
  fs_wf : wf_node (Dir fs_root) = true
}.

(** ** The operations of the interface *)

Definition tree_exists (s : fs_tree) (p : str) : bool :=
  bool_decide (is_Some (resolve (fs_root s) p)).
Definition tree_isfile (s : fs_tree) (p : str) : bool :=
  from_option is_file false (resolve (fs_root s) p).
Definition tree_isdir (s : fs_tree) (p : str) : bool :=
  from_option is_dir false (resolve (fs_root s) p).
Definition tree_listdir (s : fs_tree) (p : str) : result (list str) :=
  match resolve (fs_root s) p with
  | Some (Dir es) => Ok es.*1
  | _ => Raise IOError
  end.
Definition tree_read_file (s : fs_tree) (p : str) : result str :=
  match resolve (fs_root s) p with
  | Some (File d) => Ok d
  | _ => Raise IOError
  end.
Definition tree_walk (s : fs_tree) (p : str) : list walk_entry :=
  match resolve (fs_root s) p with
  | Some n => walk_node p n
  | None => []
  end.

(** ** Path resolution *)

Lemma resolve_from_sep st cur a b :
  resolve_from st cur (a ++ "/"%char :: b) =
  st' ← resolve_from st cur a; resolve_from st' [] b.
Proof.
  revert st cur. induction a as [|c a IH]; intros st cur; cbn [app resolve_from].
  - rewrite bool_decide_eq_true_2 by done. by destruct (step st cur).
  - case_bool_decide; [|apply IH].
    destruct (step st cur); cbn; [apply IH | done].
Qed.

Lemma valid_name_spec n :
  valid_name n = true →
  n ≠ [] ∧ n ≠ "."%string ∧ n ≠ ".."%string ∧ "/"%char ∉ n.
Proof.
  unfold valid_name. rewrite !andb_true_iff, !negb_true_iff, !bool_decide_eq_false.
  intros [[[? ?] ?] Hn]. repeat split; try done.
  rewrite forallb_forall in Hn. intros Hin%list_elem_of_In%Hn.
  by rewrite bool_decide_eq_true_2 in Hin.
Qed.

Lemma resolve_from_name st cur n :
  "/"%char ∉ n → resolve_from st cur n = step st (cur ++ n).
Proof.
  revert cur. induction n as [|c n IH]; intros cur Hn; cbn [resolve_from].
  - by rewrite app_nil_r.
  - apply not_elem_of_cons in Hn as [Hc Hn].
    rewrite bool_decide_eq_false_2 by done. rewrite IH by done.
    by rewrite <- (assoc_L (++)).
Qed.

Lemma step_name es anc n :
  valid_name n = true →
  step (Dir es :: anc) n = x ← lookup_entry n es; Some (x :: Dir es :: anc).
Proof.
  intros (? & ? & ? & _)%valid_name_spec. unfold step.
  by rewrite !bool_decide_eq_false_2 by done.
Qed.

Lemma step_empty st st' : step st [] = Some st' → st' = st.
Proof. destruct st as [|[] ?]; cbn; congruence. Qed.

Lemma endswith_app c s : endswith c s = true → ∃ s', s = s' ++ [c].
Proof.
  unfold endswith. destruct (last s) as [x|] eqn:E; [|done].
  intros ->%bool_decide_eq_true. by apply last_Some.
Qed.

Lemma startswith_valid_name n : valid_name n = true → startswith "/" n = false.
Proof.
  intros (? & _ & _ & Hn)%valid_name_spec. destruct n as [|c n]; [done|].
  apply not_elem_of_cons in Hn as [? _]. cbn. by rewrite bool_decide_eq_false_2.
Qed.

(** The path of an entry of a directory resolves to the entry. *)
Lemma resolve_from_join st d es anc n :
  d ≠ [] → valid_name n = true →
  resolve_from st [] d = Some (Dir es :: anc) →
  resolve_from st [] (path_join d n) = x ← lookup_entry n es; Some (x :: Dir es :: anc).
Proof.
  intros Hd Hn Hr. pose proof (valid_name_spec n Hn) as (_ & _ & _ & Hs).
  unfold path_join. rewrite startswith_valid_name by done.
  rewrite bool_decide_eq_false_2 by done. cbn [orb].
  destruct (endswith "/" d) eqn:E.
  - apply endswith_app in E as [d' ->]. rewrite <- (assoc_L (++)). cbn [app].
    rewrite resolve_from_sep in *.
    destruct (resolve_from st [] d') as [st'|]; [|done]. cbn in *.
    apply step_empty in Hr as <-.
    by rewrite resolve_from_name, step_name.
  - cbn [app list_ascii_of_string]. rewrite resolve_from_sep, Hr. cbn.
    by rewrite resolve_from_name, step_name.
Qed.

(** ** Entries *)

Lemma wf_node_Dir es :
  wf_node (Dir es) = true →
  Forall (λ n, valid_name n = true) es.*1 ∧ NoDup es.*1
  ∧ Forall (λ e, wf_node e.2 = true) es.
Proof.
  cbn [wf_node]. rewrite !andb_true_iff, bool_decide_eq_true, !forallb_forall.
  intros [[Hv Hd] Hw]. repeat split; [|done|].
  - apply Forall_forall. intros n Hn. by apply Hv, list_elem_of_In.
  - apply Forall_forall. intros e He. by apply Hw, list_elem_of_In.
Qed.

Lemma lookup_entry_Some n es x : lookup_entry n es = Some x → (n, x) ∈ es.
Proof.
  induction es as [|[m y] es IH]; [done|]. cbn [lookup_entry].
  case_bool_decide; [intros [= ->]; subst; left | right; auto].
Qed.

Lemma lookup_entry_NoDup n es x :
  NoDup es.*1 → (n, x) ∈ es → lookup_entry n es = Some x.
Proof.
  induction es as [|[m y] es IH]; [by intros _ ?%elem_of_nil|].
  rewrite fmap_cons, NoDup_cons. intros [Hm Hd] [[= -> ->]|Hin]%elem_of_cons;
    cbn [lookup_entry].
  - by rewrite bool_decide_eq_true_2.
  - rewrite bool_decide_eq_false_2; [auto|].
    intros ->. apply Hm. apply list_elem_of_fmap. by exists (n, x).
Qed.

Lemma lookup_entry_is_Some n es : n ∈ es.*1 → is_Some (lookup_entry n es).
Proof.
  induction es as [|[m y] es IH]; [by intros ?%elem_of_nil|].
  rewrite fmap_cons. cbn [lookup_entry fst]. case_bool_decide; [eauto|].
  intros [?|?]%elem_of_cons; [done | auto].
Qed.

Lemma dir_names_spec es n :
  n ∈ dir_names es ↔ ∃ x, (n, x) ∈ es ∧ is_dir x = true.
Proof.
  unfold dir_names. rewrite list_elem_of_fmap. split.
  - intros ([m x] & -> & [? ?]%list_elem_of_filter). eauto.
  - intros (x & ? & ?). exists (n, x). by rewrite list_elem_of_filter.
Qed.

Lemma file_names_spec es n :
  n ∈ file_names es ↔ ∃ x, (n, x) ∈ es ∧ is_dir x = false.
Proof.
  unfold file_names. rewrite list_elem_of_fmap. split.
  - intros ([m x] & -> & [? ?]%list_elem_of_filter). eauto.
  - intros (x & ? & ?). exists (n, x). by rewrite list_elem_of_filter.
Qed.

(** Resolution stays among well-formed nodes. *)
Definition wf_stack (st : list node) : Prop := Forall (λ n, wf_node n = true) st.

Lemma step_wf st c st' : wf_stack st → step st c = Some st' → wf_stack st'.
Proof.
  unfold wf_stack, step. intros Hst. destruct st as [|[d|es] anc]; [done..|].
  repeat case_match; intros Hs; simplify_option_eq; try done.
  - by apply Forall_cons in Hst as [_ ?].
  - constructor; [|done]. apply Forall_cons in Hst as [Hes _].
    apply wf_node_Dir in Hes as (_ & _ & Hes). rewrite Forall_forall in Hes.
    match goal with H : lookup_entry _ _ = Some _ |- _ =>
      apply lookup_entry_Some in H; by apply Hes in H end.
Qed.

Lemma resolve_from_wf st cur p st' :
  wf_stack st → resolve_from st cur p = Some st' → wf_stack st'.
Proof.
  revert st cur. induction p as [|c p IH]; intros st cur Hst; cbn [resolve_from].
  { by apply step_wf. }
  case_bool_decide; [|by apply IH].
  destruct (step st cur) as [st1|] eqn:E; [|done]. cbn.
  apply IH. by eapply step_wf.
Qed.

Lemma path_join_nonempty d n : n ≠ [] → path_join d n ≠ [].
Proof.
  unfold path_join. intros Hn. repeat case_match; try done;
    by intros [? ?]%app_eq_nil.
Qed.

(** An entry of a resolved directory, by its path. *)
Lemma resolve_from_entry st d es anc n x :
  wf_node (Dir es) = true → d ≠ [] →
  resolve_from st [] d = Some (Dir es :: anc) → (n, x) ∈ es →
  path_join d n ≠ [] ∧
  resolve_from st [] (path_join d n) = Some (x :: Dir es :: anc).
Proof.
  intros (Hv & Hd & _)%wf_node_Dir Hne Hr Hin.
  assert (valid_name n = true) as Hn.
  { rewrite Forall_forall in Hv. apply Hv, list_elem_of_fmap. by exists (n, x). }
  split.
  - apply path_join_nonempty. by apply valid_name_spec in Hn as [? _].
  - rewrite (resolve_from_join _ _ _ _ _ Hne Hn Hr).
    by rewrite (lookup_entry_NoDup _ _ _ Hd Hin).
Qed.

(** Every step of the walk names a directory by a path that resolves to
    it, with its subdirectories and its other entries. *)
Lemma walk_node_spec st n : ∀ top anc r ds fs,
  wf_node n = true → top ≠ [] →
  resolve_from st [] top = Some (n :: anc) →
  (r, ds, fs) ∈ walk_node top n →
  ∃ es anc', r ≠ [] ∧ resolve_from st [] r = Some (Dir es :: anc')
    ∧ wf_node (Dir es) = true ∧ ds = dir_names es ∧ fs = file_names es.
Proof.
  induction n as [d|es IH] using node_nested_ind; intros top anc r ds fs Hwf Hne Hr.
  { by intros ?%elem_of_nil. }
  cbn [walk_node]. intros [[= -> -> ->]|Hin]%elem_of_cons; [by eauto 10|].
  apply list_elem_of_bind in Hin as ([m x] & Hin & He).
  rewrite Forall_forall in IH.
  destruct (resolve_from_entry _ _ _ _ _ _ Hwf Hne Hr He) as [Hne' Hr'].
  eapply (IH _ He); [|done..].
  apply wf_node_Dir in Hwf as (_ & _ & Hes). rewrite Forall_forall in Hes.
  by apply Hes in He.
Qed.

(** ** The laws of the interface *)

Lemma resolve_Some root p n :
  resolve root p = Some n ↔
  p ≠ [] ∧ ∃ anc, resolve_from [Dir root] [] p = Some (n :: anc).
Proof.
  unfold resolve. case_bool_decide as Hp; [by split; [|intros [? _]]|].
  destruct (resolve_from _ _ _) as [[|m anc]|]; cbn; split;
    try done; try (by intros (_ & ? & ?)).
  - intros [= ->]. eauto.
  - by intros (_ & ? & [= -> _]).
Qed.

Section laws.
Implicit Types (s : fs_tree) (p d n : str).

Lemma wf_stack_root s : wf_stack [Dir (fs_root s)].
Proof. constructor; [apply fs_wf | constructor]. Qed.

Lemma resolve_wf s p x : resolve (fs_root s) p = Some x → wf_node x = true.
Proof.
  intros (_ & anc & Hr)%resolve_Some.
  apply resolve_from_wf in Hr; [|apply wf_stack_root].
  by apply Forall_cons in Hr as [? _].
Qed.

Lemma resolve_entry s d es n x :
  resolve (fs_root s) d = Some (Dir es) → (n, x) ∈ es →
  resolve (fs_root s) (path_join d n) = Some x.
Proof.
  intros Hd Hin. pose proof (resolve_wf _ _ _ Hd) as Hwf.
  apply resolve_Some in Hd as (Hne & anc & Hr).
  destruct (resolve_from_entry _ _ _ _ _ _ Hwf Hne Hr Hin) as [? ?].
  apply resolve_Some. eauto.
Qed.

Lemma tree_isfile_exists s p : tree_isfile s p = true → tree_exists s p = true.
Proof.
  unfold tree_isfile, tree_exists. destruct (resolve _ _); [|done].
  intros _. by apply bool_decide_eq_true_2.
Qed.

Lemma tree_isdir_exists s p : tree_isdir s p = true → tree_exists s p = true.
Proof.
  unfold tree_isdir, tree_exists. destruct (resolve _ _); [|done].
  intros _. by apply bool_decide_eq_true_2.
Qed.

Lemma tree_isfile_not_isdir s p : tree_isfile s p = true → tree_isdir s p = false.
Proof. unfold tree_isfile, tree_isdir. by destruct (resolve _ _) as [[]|]. Qed.

Lemma tree_read_file_isfile s p : is_ok (tree_read_file s p) = tree_isfile s p.
Proof. unfold tree_read_file, tree_isfile. by destruct (resolve _ _) as [[]|]. Qed.

Lemma tree_read_file_Raise s p e : tree_read_file s p = Raise e → e = IOError.
Proof. unfold tree_read_file. destruct (resolve _ _) as [[]|]; congruence. Qed.

Lemma tree_listdir_isdir s p : is_ok (tree_listdir s p) = tree_isdir s p.
Proof. unfold tree_listdir, tree_isdir. by destruct (resolve _ _) as [[]|]. Qed.

Lemma tree_listdir_Raise s p e : tree_listdir s p = Raise e → e = IOError.
Proof. unfold tree_listdir. destruct (resolve _ _) as [[]|]; congruence. Qed.

Lemma tree_listdir_exists s d ns n :
  tree_listdir s d = Ok ns → n ∈ ns → tree_exists s (path_join d n) = true.
Proof.
  unfold tree_listdir, tree_exists.
  destruct (resolve _ d) as [[|es]|] eqn:Hd; try done.
  intros [= <-] ([m x] & -> & Hin)%list_elem_of_fmap. cbn [fst].
  rewrite (resolve_entry _ _ _ _ _ Hd Hin). by apply bool_decide_eq_true_2.
Qed.

Lemma tree_walk_not_isdir s top : tree_isdir s top = false → tree_walk s top = [].
Proof. unfold tree_isdir, tree_walk. by destruct (resolve _ _) as [[]|]. Qed.

(** A step of the walk is a directory of the tree. *)
Lemma tree_walk_spec s top r ds fs :
  (r, ds, fs) ∈ tree_walk s top →
  ∃ es, resolve (fs_root s) r = Some (Dir es)
    ∧ ds = dir_names es ∧ fs = file_names es.
Proof.
  unfold tree_walk. destruct (resolve _ top) as [x|] eqn:Hx; [|by intros ?%elem_of_nil].
  pose proof (resolve_wf _ _ _ Hx) as Hwf.
  apply resolve_Some in Hx as (Hne & anc & Hr). intros Hin.
  destruct (walk_node_spec _ _ _ _ _ _ _ Hwf Hne Hr Hin)
    as (es & anc' & ? & ? & _ & ? & ?).
  exists es. rewrite resolve_Some. eauto.
Qed.

Lemma tree_walk_dirs s top r ds fs d :
  (r, ds, fs) ∈ tree_walk s top → d ∈ ds → tree_isdir s (path_join r d) = true.
Proof.
  intros (es & Hr & -> & _)%tree_walk_spec (x & Hin & Hx)%dir_names_spec.
  unfold tree_isdir. by rewrite (resolve_entry _ _ _ _ _ Hr Hin).
Qed.

Lemma tree_walk_files s top r ds fs f :
  (r, ds, fs) ∈ tree_walk s top → f ∈ fs → tree_isfile s (path_join r f) = true.
Proof.
  intros (es & Hr & _ & ->)%tree_walk_spec (x & Hin & Hx)%file_names_spec.
  unfold tree_isfile. rewrite (resolve_entry _ _ _ _ _ Hr Hin). by destruct x.
Qed.

End laws.

#[global] Instance tree_FileSys : FileSys fs_tree := {|
  path_exists := tree_exists;
  isfile := tree_isfile;
  isdir := tree_isdir;
  listdir := tree_listdir;
  read_file := tree_read_file;
  walk := tree_walk;
  isfile_exists := tree_isfile_exists;
  isdir_exists := tree_isdir_exists;
  isfile_not_isdir := tree_isfile_not_isdir;
  read_file_isfile := tree_read_file_isfile;
  read_file_Raise := tree_read_file_Raise;
  listdir_isdir := tree_listdir_isdir;
  listdir_Raise := tree_listdir_Raise;
  listdir_exists := tree_listdir_exists;
  walk_not_isdir := tree_walk_not_isdir;
  walk_dirs := tree_walk_dirs;
  walk_files := tree_walk_files
|}.


(** ** A sample tree *)

Definition sample_root : entries :=
  [("data" : str,
    Dir [("hdr" : str,
          Dir [("img_0001.jpg" : str, File "JPEG");
               ("img_0001.cr2" : str, File "RAW");
               ("IMG_0002.JPG" : str, File "JPEG");
               ("IMG_0002.CR2" : str, File "RAW");
               ("img_0003.jpg" : str, File "JPEG")]);
         ("spa.csv" : str,
          File "Date,Time,Zenith,Azimuth
10/25/2016,06:00:00,100,90
10/25/2016,12:00:00,30,180
badrow,x,0,0
")]);
   ("empty" : str, Dir [])].

Definition sample_tree : fs_tree := FsTree sample_root eq_refl.

Lemma sample_tree_walk :
  walk sample_tree "data" =
  [("data" : str, strs ["hdr"], strs ["spa.csv"]);
   ("data/hdr" : str, [],
    strs ["img_0001.jpg"; "img_0001.cr2"; "IMG_0002.JPG"; "IMG_0002.CR2";
          "img_0003.jpg"])].
Proof. reflexivity. Qed.

Lemma sample_tree_dotdot : isfile sample_tree "/data/hdr/../spa.csv" = true.
Proof. reflexivity. Qed.

Lemma sample_tree_case : path_exists sample_tree "data/hdr/img_0002.cr2" = false.
Proof. reflexivity. Qed.
