(* ===== verification/Exif.v ===== *)
(** * Exif: the EXIF extractor

    [imageEXIFTag], [imageEXIF] and [imageEXIFDateTime] are written twice,
    in [utility.py] and in [utility_data.py]; the modules [Utility] and
    [UtilityData] hold the two versions, which differ in the sentinel
    [imageEXIFDateTime] returns when the image has no capture time
    ([datetime(1,1,1)] in one, [datetime.min] in the other).

    The decoding of the image is the work of [exifread.process_file], which
    is outside the code: it is a parameter of the model, the operation of
    the class [ExifReader], from the bytes of the file to the tags found,
    each with its printable value.

    The theorems: the sentinel on a missing or empty tag, the two versions
    agree, a well-formed value gives its datetime, every datetime returned
    is valid and not before the sentinel, a malformed value and a missing
    file raise. *)

From Stdlib Require Import ZArith String Ascii List Bool Lia.
From stdpp Require Import base tactics option list strings gmap.
From S2P Require Import Prelude PyStr DateTime Strptime FileSys FsTree.

(** The dictionary [process_file] returns: tag names to printable values. *)
Abbreviation tags := (gmap str str).

(** [exifread.process_file(f, details, stop_tag)] on the content of [f]. *)
Class ExifReader := process_file : str → bool → option str → result tags.

Definition DateTimeOriginal : str := "EXIF DateTimeOriginal".

Module Utility.
Section exif.
Context `{FileSys F} `{ExifReader}.

Definition imageEXIFTag (s : F) (filepath tag : str) : result (option str) :=
  data ← read_file s filepath;
  ts ← process_file data false (Some tag);
  Ok (ts !! tag).

Definition imageEXIF (s : F) (filepath : str) : result tags :=
  data ← read_file s filepath;
  process_file data false None.

Definition imageEXIFDateTime (s : F) (filepath : str) : result datetime :=
  strDateTime ← imageEXIFTag s filepath DateTimeOriginal;
  match strDateTime with
  | None => datetime_ymd 1 1 1
  | Some v =>
      if Z.of_nat (length v) <=? 0 then datetime_ymd 1 1 1
      else strptime v exif_format
  end.

End exif.
End Utility.

Module UtilityData.
Section exif.
Context `{FileSys F} `{ExifReader}.

Definition imageEXIFTag (s : F) (filepath tag : str) : result (option str) :=
  data ← read_file s filepath;
  ts ← process_file data false (Some tag);
  Ok (ts !! tag).

Definition imageEXIF (s : F) (filepath : str) : result tags :=
  data ← read_file s filepath;
  process_file data false None.

Definition imageEXIFDateTime (s : F) (filepath : str) : result datetime :=
  strDateTime ← imageEXIFTag s filepath DateTimeOriginal;
  match strDateTime with
  | None => Ok datetime_min
  | Some v =>
      if Z.of_nat (length v) <=? 0 then Ok datetime_min
      else strptime v exif_format
  end.

End exif.
End UtilityData.

(** ** A reader and a tree to run the extractor on

    The sample reader finds no tag in a file that begins with [!], and the
    capture time the rest of the file spells in any other. *)

Definition sample_process_file : ExifReader := λ data _ _,
  match data with
  | c :: _ => if bool_decide (c = "!"%char) then Ok ∅ else Ok {[ DateTimeOriginal := data ]}
  | [] => Ok {[ DateTimeOriginal := [] ]}
  end.

Definition exif_tree : fs_tree :=
  FsTree [("a.jpg" : str, File "2016:10:25 14:30:00");
          ("b.jpg" : str, File "!no metadata");
          ("c.jpg" : str, File "");
          ("d.jpg" : str, File "25/10/2016 14:30");
          ("dir" : str, Dir [])] eq_refl.

(** ** Lemmas *)

Section lemmas.
Context `{FileSys F} `{ExifReader}.
Implicit Types (s : F) (filepath tag : str).

Lemma imageEXIFTag_same s filepath tag :
  Utility.imageEXIFTag s filepath tag = UtilityData.imageEXIFTag s filepath tag.
Proof. reflexivity. Qed.

(** The outcomes of [imageEXIFTag]: the file cannot be opened, the reader
    fails, or the reader's dictionary is looked up. *)
Lemma imageEXIFTag_cases s filepath tag :
  (isfile s filepath = false
   ∧ UtilityData.imageEXIFTag s filepath tag = Raise IOError)
  ∨ ∃ data, read_file s filepath = Ok data ∧
      match process_file data false (Some tag) with
      | Ok ts => UtilityData.imageEXIFTag s filepath tag = Ok (ts !! tag)
      | Raise e => UtilityData.imageEXIFTag s filepath tag = Raise e
      end.
Proof.
  unfold UtilityData.imageEXIFTag. destruct (isfile s filepath) eqn:E.
  - right. destruct (read_file_Ok s filepath E) as [data ->]. exists data.
    split; [done|]. rewrite bind_Ok. by destruct (process_file _ _ _).
  - left. by rewrite (read_file_missing s filepath E).
Qed.

(** [imageEXIFDateTime] in terms of the tag value. *)
Lemma imageEXIFDateTime_tag s filepath v :
  UtilityData.imageEXIFTag s filepath DateTimeOriginal = Ok v →
  UtilityData.imageEXIFDateTime s filepath =
  match v with
  | Some (c :: w) => strptime (c :: w) exif_format
  | _ => Ok datetime_min
  end.
Proof.
  unfold UtilityData.imageEXIFDateTime. intros ->. rewrite bind_Ok.
  by destruct v as [[|c w]|].
Qed.

Lemma imageEXIFDateTime_same s filepath :
  Utility.imageEXIFDateTime s filepath = UtilityData.imageEXIFDateTime s filepath.
Proof.
  unfold Utility.imageEXIFDateTime, UtilityData.imageEXIFDateTime.
  by rewrite datetime_ymd_min.
Qed.

End lemmas.

(** ** Theorems *)

Section theorems.
Context `{FileSys F} `{ExifReader}.
Implicit Types (s : F) (filepath tag : str).

(** C11: the functions of [utility.py] and those of [utility_data.py]
    compute the same: [datetime(1,1,1)] is [datetime.min]. *)
Theorem exif_versions_agree s filepath tag :
  Utility.imageEXIFTag s filepath tag = UtilityData.imageEXIFTag s filepath tag
  ∧ Utility.imageEXIF s filepath = UtilityData.imageEXIF s filepath
  ∧ Utility.imageEXIFDateTime s filepath = UtilityData.imageEXIFDateTime s filepath.
Proof. split; [done | split; [done | apply imageEXIFDateTime_same]]. Qed.

(** When the file opens and the reader returns its dictionary,
    [imageEXIFTag] returns the value of the tag, and no value when the tag
    is absent: an absent tag is not an error. *)
Theorem imageEXIFTag_lookup s filepath tag data ts :
  read_file s filepath = Ok data →
  process_file data false (Some tag) = Ok ts →
  UtilityData.imageEXIFTag s filepath tag = Ok (ts !! tag).
Proof.
  intros Hd Hts. unfold UtilityData.imageEXIFTag. by rewrite Hd, bind_Ok, Hts.
Qed.

(** C9: an image without the tag [EXIF DateTimeOriginal], or with an
    empty value for it, has the sentinel [datetime.min] as capture time, in
    both versions. *)
Theorem imageEXIFDateTime_sentinel s filepath v :
  UtilityData.imageEXIFTag s filepath DateTimeOriginal = Ok v →
  v = None ∨ v = Some [] →
  Utility.imageEXIFDateTime s filepath = Ok datetime_min
  ∧ UtilityData.imageEXIFDateTime s filepath = Ok datetime_min.
Proof.
  intros Hv Hcase. rewrite imageEXIFDateTime_same.
  rewrite (imageEXIFDateTime_tag _ _ _ Hv). by destruct Hcase as [-> | ->].
Qed.

(** C8: a value [YYYY:MM:DD HH:MM:SS] of the tag gives the datetime of
    these six numbers, or [ValueError] when they are no date and time. *)
Theorem imageEXIFDateTime_wellformed s filepath Y m d H' M S :
  digits 4 Y → digits 2 m → digits 2 d → digits 2 H' → digits 2 M → digits 2 S →
  UtilityData.imageEXIFTag s filepath DateTimeOriginal
  = Ok (Some (Y ++ ":" ++ m ++ ":" ++ d ++ " " ++ H' ++ ":" ++ M ++ ":" ++ S)) →
  UtilityData.imageEXIFDateTime s filepath =
  datetime_new (digits_val Y) (digits_val m) (digits_val d)
               (digits_val H') (digits_val M) (digits_val S) 0.
Proof.
  intros HY Hm Hd HH HM HS Hv. rewrite (imageEXIFDateTime_tag _ _ _ Hv).
  pose proof (strptime_exif_fixed Y m d H' M S [] HY Hm Hd HH HM HS) as Hp.
  rewrite app_nil_r in Hp. rewrite bool_decide_eq_true_2 in Hp by done.
  destruct HY as [HY _]. by destruct Y.
Qed.

(** A datetime that [imageEXIFDateTime] returns is a valid datetime,
    and the sentinel is not after it. *)
Theorem imageEXIFDateTime_valid s filepath dt :
  UtilityData.imageEXIFDateTime s filepath = Ok dt →
  valid_datetime dt = true ∧ datetime_le datetime_min dt = true.
Proof.
  intros Hdt. assert (valid_datetime dt = true) as Hv; [|by auto using datetime_min_least].
  unfold UtilityData.imageEXIFDateTime in Hdt.
  apply bind_Ok_inv in Hdt as (v & _ & Hdt).
  destruct v as [v|]; [destruct (_ <=? _)|]; simplify_eq; try done.
  by eapply strptime_valid.
Qed.

(** C10: a value of the tag that is not empty and that [strptime] refuses
    makes [imageEXIFDateTime] raise [ValueError]: no sentinel then. *)
Theorem imageEXIFDateTime_malformed s filepath v e :
  UtilityData.imageEXIFTag s filepath DateTimeOriginal = Ok (Some v) →
  v ≠ [] → strptime v exif_format = Raise e →
  UtilityData.imageEXIFDateTime s filepath = Raise ValueError.
Proof.
  intros Hv Hne He. rewrite (imageEXIFDateTime_tag _ _ _ Hv).
  destruct v; [done|]. rewrite He. f_equal.
  eapply strptime_only_ValueError; [by left | done].
Qed.

(** On a path that is no file the three functions raise [IOError]. *)
Theorem exif_missing_file s filepath tag :
  isfile s filepath = false →
  UtilityData.imageEXIFTag s filepath tag = Raise IOError
  ∧ UtilityData.imageEXIF s filepath = Raise IOError
  ∧ UtilityData.imageEXIFDateTime s filepath = Raise IOError.
Proof.
  intros Hf%read_file_missing.
  unfold UtilityData.imageEXIFDateTime, UtilityData.imageEXIFTag, UtilityData.imageEXIF.
  by rewrite Hf.
Qed.

(** [imageEXIFDateTime] raises nothing but [IOError] for a file that
    does not open, [ValueError] for a malformed value, and what the reader
    raises. *)
Theorem imageEXIFDateTime_errors s filepath e :
  UtilityData.imageEXIFDateTime s filepath = Raise e →
  e = IOError ∨ e = ValueError
  ∨ ∃ data, process_file data false (Some DateTimeOriginal) = Raise e.
Proof.
  unfold UtilityData.imageEXIFDateTime.
  intros [Ht | (v & Ht & Hv)]%bind_Raise_inv.
  - destruct (imageEXIFTag_cases s filepath DateTimeOriginal)
      as [[_ Hr] | (data & _ & Hr)]; [left; congruence|].
    destruct (process_file data false _) eqn:E; [congruence|].
    right; right. exists data. congruence.
  - right; left. destruct v as [v|]; [destruct (_ <=? _)|]; try done.
    eapply strptime_only_ValueError; [by left | done].
Qed.

End theorems.

#[local] Existing Instance sample_process_file.

Lemma imageEXIFTag_lookup_witness :
  UtilityData.imageEXIFTag exif_tree "b.jpg" DateTimeOriginal = Ok None.
Proof.
  change (@None str) with ((∅ : tags) !! DateTimeOriginal).
  by apply (imageEXIFTag_lookup exif_tree "b.jpg" DateTimeOriginal "!no metadata" ∅).
Defined.

Lemma imageEXIFDateTime_sentinel_witness :
  Utility.imageEXIFDateTime exif_tree "c.jpg" = Ok datetime_min
  ∧ UtilityData.imageEXIFDateTime exif_tree "c.jpg" = Ok datetime_min.
Proof.
  apply (imageEXIFDateTime_sentinel exif_tree "c.jpg" (Some [])); [done | by right].
Defined.

Lemma imageEXIFDateTime_wellformed_witness :
  UtilityData.imageEXIFDateTime exif_tree "a.jpg" = Ok (DateTime 2016 10 25 14 30 0 0).
Proof.
  by apply (imageEXIFDateTime_wellformed exif_tree "a.jpg" "2016" "10" "25" "14" "30" "00").
Defined.

Lemma imageEXIFDateTime_valid_witness :
  valid_datetime (DateTime 2016 10 25 14 30 0 0) = true
  ∧ datetime_le datetime_min (DateTime 2016 10 25 14 30 0 0) = true.
Proof. by apply (imageEXIFDateTime_valid exif_tree "a.jpg"). Defined.

Lemma imageEXIFDateTime_malformed_witness :
  UtilityData.imageEXIFDateTime exif_tree "d.jpg" = Raise ValueError.
Proof.
  by apply (imageEXIFDateTime_malformed exif_tree "d.jpg" "25/10/2016 14:30" ValueError).
Defined.

Lemma exif_missing_file_witness :
  UtilityData.imageEXIFTag exif_tree "dir" DateTimeOriginal = Raise IOError
  ∧ UtilityData.imageEXIF exif_tree "dir" = Raise IOError
  ∧ UtilityData.imageEXIFDateTime exif_tree "dir" = Raise IOError.
Proof. by apply (exif_missing_file exif_tree "dir"). Defined.

Lemma imageEXIFDateTime_errors_witness :
  ValueError = IOError ∨ ValueError = ValueError
  ∨ ∃ data, process_file data false (Some DateTimeOriginal) = Raise ValueError.
Proof. by apply (imageEXIFDateTime_errors exif_tree "d.jpg"). Defined.
