(* ===== verification/SunPath.v ===== *)
(** * SunPath: the sun-path loader

    [loadSunPath] of [utility_data.py]: the file [spa.csv] of a directory,
    or the file given, is read as comma-separated rows; the first row is
    dropped; a row whose first two columns are no date and time is skipped;
    of the others the point (azimuth, altitude, timestamp) is kept when the
    altitude, 90 minus the zenith, is between 0 and 90.

    [sun_row] is the body of the loop and [sun_rows] the loop.  The
    specification [sun_path_spec] says which records a file describes; the
    theorems show that the loader returns them whenever it returns, that
    it returns on every file of the expected shape, and how it fails on the
    others. *)

From Stdlib Require Import ZArith String Ascii List Bool Lia SpecFloat.
From stdpp Require Import base tactics option list strings.
From S2P Require Import Prelude PyStr PyFloat DateTime Strptime Csv FileSys FsTree.

(** ** The loader *)

(** A sun-path record [[theta, phi, dt]]: azimuth, altitude, timestamp. *)
Record point := Point {
  pt_theta : pyfloat;
  pt_phi : pyfloat;
  pt_dt : datetime
}.

#[global] Instance point_eq_dec : EqDecision point.
Proof. solve_decision. Defined.

(** The timestamp of a row: [strptime(row[0] + " " + row[1], ...)]. *)
Definition row_dt (row : row) : result datetime :=
  r0 ← py_index row 0;
  r1 ← py_index row 1;
  strptime (r0 ++ " " ++ r1) spa_format.

(** [[float(row[3]), 90-float(row[2]), dt]]. *)
Definition row_point (row : row) (dt : datetime) : result point :=
  r3 ← py_index row 3;
  theta ← float_of_string r3;
  r2 ← py_index row 2;
  zenith ← float_of_string r2;
  Ok (Point theta (float_sub (float_of_Z 90) zenith) dt).

(** [point[1] >= 0 and point[1] <= 90]. *)
Definition visible (pt : point) : bool :=
  float_ge (pt_phi pt) (float_of_Z 0) && float_le (pt_phi pt) (float_of_Z 90).

(** The body of the loop: the list [sunpath] after the row. *)
Definition sun_row (sunpath : list point) (row : row) : result (list point) :=
  r ← try_except (Some <$> row_dt row) ValueError (Ok None);
  match r with
  | None => Ok sunpath
  | Some dt =>
      pt ← row_point row dt;
      if visible pt then Ok (sunpath ++ [pt]) else Ok sunpath
  end.

(** The loop over the rows. *)
Fixpoint sun_rows (sunpath : list point) (rows : list row) : result (list point) :=
  match rows with
  | [] => Ok sunpath
  | row :: rows' => sp ← sun_row sunpath row; sun_rows sp rows'
  end.

(** The file read: [spa.csv] in the directory, or the path itself. *)
Definition sun_file (filepath : str) (isDir : bool) : str :=
  if isDir then path_join filepath "spa.csv" else filepath.

Section loader.
Context `{FileSys F}.

Definition loadSunPath (s : F) (filepath : str) (isDir : bool) : result (list point) :=
  let filepath := sun_file filepath isDir in
  if negb (path_exists s filepath) then Ok []
  else
    content ← read_file s filepath;
    let '(rows, err) := csv_reader (text_lines content) in
    sunpath ← sun_rows [] (tail rows);
    match err with
    | Some e => Raise e
    | None => Ok sunpath
    end.

End loader.

(** ** The specification *)

(** The record a row describes, if it describes one that is kept. *)
Definition spec_record (row : row) : option point :=
  match row with
  | date :: time :: zenith :: azimuth :: _ =>
      match strptime (date ++ " " ++ time) spa_format,
            float_of_string azimuth, float_of_string zenith with
      | Ok dt, Ok theta, Ok z =>
          let pt := Point theta (float_sub (float_of_Z 90) z) dt in
          if visible pt then Some pt else None
      | _, _, _ => None
      end
  | _ => None
  end.

(** The sun-path sequence of a file, given as its rows: the records of the
    rows after the header, in the order of the rows. *)
Definition sun_path_spec (rows : list row) : list point :=
  omap spec_record (tail rows).

(** The rows the loader accepts: at least two columns; when the first two
    are a date and a time, at least four, the third and the fourth
    numbers. *)
Definition shaped (row : row) : bool :=
  match row with
  | date :: time :: rest =>
      negb (is_ok (strptime (date ++ " " ++ time) spa_format)) ||
      match rest with
      | zenith :: azimuth :: _ =>
          is_ok (float_of_string zenith) && is_ok (float_of_string azimuth)
      | _ => false
      end
  | _ => false
  end.

(** ** Lemmas *)

Lemma row_dt_Raise row e :
  row_dt row = Raise e → e = ValueError ∨ (e = IndexError ∧ (length row < 2)%nat).
Proof.
  unfold row_dt.
  intros [Hr | (r0 & _ & [Hr | (r1 & _ & Hr)]%bind_Raise_inv)]%bind_Raise_inv.
  - apply py_index_Raise in Hr as [-> ?]. right. split; [done | lia].
  - apply py_index_Raise in Hr as [-> ?]. right. split; [done | lia].
  - left. eapply strptime_only_ValueError; [by right | done].
Qed.

Lemma row_point_Raise row dt e :
  row_point row dt = Raise e → e = ValueError ∨ (e = IndexError ∧ (length row < 4)%nat).
Proof.
  unfold row_point. intros Hr.
  repeat match type of Hr with
  | _ ≫= _ = Raise _ => apply bind_Raise_inv in Hr as [Hr | (? & _ & Hr)]
  end; try done;
  first [ apply py_index_Raise in Hr as [-> ?]; right; split; [done | lia]
        | apply float_of_string_Raise in Hr as ->; by left ].
Qed.

(** What a row does to the list: nothing, or one visible point with a
    valid timestamp is added. *)
Lemma sun_row_Ok sp row sp' :
  sun_row sp row = Ok sp' →
  sp' = sp ++ option_list (spec_record row).
Proof.
  unfold sun_row, row_dt, row_point, spec_record.
  destruct row as [|date [|time [|zenith [|azimuth rest]]]]; try done;
    cbn [py_index lookup list_lookup mbind result_bind];
    destruct (strptime _ _) as [dt|e];
    cbn [fmap result_fmap try_except mbind result_bind option_list]; try done;
    try (case_decide; [|done]);
    try (intros [= <-]; by rewrite app_nil_r).
  destruct (float_of_string azimuth); [|done].
  destruct (float_of_string zenith); [|done].
  cbn [mbind result_bind]. case_match; intros [= <-]; [done | by rewrite app_nil_r].
Qed.

Lemma sun_row_shaped sp row :
  shaped row = true → sun_row sp row = Ok (sp ++ option_list (spec_record row)).
Proof.
  intros Hs. destruct (sun_row sp row) as [sp'|e] eqn:E.
  { by rewrite (sun_row_Ok _ _ _ E). }
  exfalso. revert Hs E. unfold shaped, sun_row, row_dt, row_point.
  destruct row as [|date [|time rest]]; try done.
  cbn [py_index lookup list_lookup mbind result_bind].
  destruct (strptime _ _) as [dt|e'] eqn:Hdt;
    cbn [fmap result_fmap try_except mbind result_bind is_ok negb orb].
  - destruct rest as [|zenith [|azimuth rest]]; try done.
    cbn [py_index lookup list_lookup mbind result_bind].
    destruct (float_of_string azimuth), (float_of_string zenith); try done.
    cbn [mbind result_bind]. by case_match.
  - apply strptime_only_ValueError in Hdt as ->; [|by right].
    by rewrite decide_True.
Qed.

(** A row that is not of the accepted shape stops the load: with
    [IndexError] when a column is missing, with [ValueError] when an angle
    is no number. *)
Lemma sun_row_Raise sp row e :
  sun_row sp row = Raise e →
  shaped row = false ∧
  ((e = IndexError ∧ (length row < 4)%nat) ∨ (e = ValueError ∧ (2 ≤ length row)%nat)).
Proof.
  intros Hr. split.
  { destruct (shaped row) eqn:E; [|done]. by rewrite sun_row_shaped in Hr. }
  revert Hr. unfold sun_row.
  destruct (row_dt row) as [dt|e'] eqn:Hdt; cbn [fmap result_fmap try_except mbind result_bind].
  - assert (2 ≤ length row)%nat.
    { apply bind_Ok_inv in Hdt as (? & _ & (? & ?%py_index_Ok%lookup_lt_Some & _)%bind_Ok_inv).
      lia. }
    destruct (row_point row dt) as [pt|e''] eqn:Hpt; cbn [mbind result_bind].
    { by case_match. }
    intros [= ->]. apply row_point_Raise in Hpt as [-> | [-> ?]]; auto.
  - apply row_dt_Raise in Hdt as [-> | [-> ?]].
    + by rewrite decide_True.
    + rewrite decide_False by done. intros [= <-]. left. split; [done | lia].
Qed.

Lemma sun_rows_app sp rows1 rows2 :
  sun_rows sp (rows1 ++ rows2) = sp' ← sun_rows sp rows1; sun_rows sp' rows2.
Proof.
  revert sp. induction rows1 as [|row rows1 IH]; intros sp; [done|].
  cbn [app sun_rows]. destruct (sun_row sp row); [apply IH | done].
Qed.

Lemma sun_rows_Ok sp rows sp' :
  sun_rows sp rows = Ok sp' → sp' = sp ++ omap spec_record rows.
Proof.
  revert sp. induction rows as [|row rows IH]; intros sp; cbn [sun_rows omap list_omap].
  { intros [= <-]. by rewrite app_nil_r. }
  intros (sp1 & ->%sun_row_Ok & ->%IH)%bind_Ok_inv.
  rewrite <- (assoc_L (++)). by destruct (spec_record row).
Qed.

Lemma sun_rows_shaped sp rows :
  Forall (λ row, shaped row = true) rows →
  sun_rows sp rows = Ok (sp ++ omap spec_record rows).
Proof.
  intros Hrows. revert sp. induction Hrows as [|row rows Hrow _ IH]; intros sp;
    cbn [sun_rows omap list_omap].
  { by rewrite app_nil_r. }
  rewrite sun_row_shaped, bind_Ok, IH, <- (assoc_L (++)) by done.
  by destruct (spec_record row).
Qed.

(** The rows are processed up to the first that is not of the accepted
    shape. *)
Lemma sun_rows_Raise rows1 row rows2 e :
  Forall (λ row, shaped row = true) rows1 →
  sun_row (omap spec_record rows1) row = Raise e →
  sun_rows [] (rows1 ++ row :: rows2) = Raise e.
Proof.
  intros H1 Hr. rewrite sun_rows_app, sun_rows_shaped by done.
  by rewrite bind_Ok, app_nil_l; cbn [sun_rows]; rewrite Hr.
Qed.

(** A record of the specification: visible, with the timestamp and the
    angles of its row. *)
Lemma spec_record_Some row pt :
  spec_record row = Some pt →
  visible pt = true ∧ valid_datetime (pt_dt pt) = true ∧ (4 ≤ length row)%nat.
Proof.
  unfold spec_record.
  destruct row as [|date [|time [|zenith [|azimuth rest]]]]; try done.
  destruct (strptime _ _) as [dt|] eqn:Hdt; [|done].
  destruct (float_of_string azimuth), (float_of_string zenith); try done.
  case_match eqn:Hv; intros [= <-].
  split; [done | split; [by eapply strptime_valid | cbn [length]; lia]].
Qed.

Lemma visible_finite pt : visible pt = true → float_is_finite (pt_phi pt) = true.
Proof.
  unfold visible, float_ge. intros [? ?]%andb_prop.
  by eapply (float_between_finite (float_of_Z 0) (float_of_Z 90)).
Qed.

Lemma length_omap_le {A B} (f : A → option B) l : (length (omap f l) ≤ length l)%nat.
Proof. induction l; cbn; [done | case_match; cbn; lia]. Qed.

(** A row is processed without error exactly when it is of the accepted
    shape. *)
Lemma sun_row_not_shaped sp row : shaped row = false → ∃ e, sun_row sp row = Raise e.
Proof.
  intros Hs. destruct (sun_row sp row) as [sp'|e] eqn:E; [|by eauto].
  exfalso. revert Hs E. unfold shaped, sun_row, row_dt, row_point.
  destruct row as [|date [|time rest]]; try done.
  cbn [py_index lookup list_lookup mbind result_bind].
  destruct (strptime _ _) as [dt|e']; [|done].
  cbn [fmap result_fmap try_except mbind result_bind is_ok negb orb].
  destruct rest as [|zenith [|azimuth rest]]; try done.
  cbn [py_index lookup list_lookup mbind result_bind].
  by destruct (float_of_string azimuth), (float_of_string zenith).
Qed.

Section load.
Context `{FileSys F}.
Implicit Types (s : F) (filepath : str) (isDir : bool).

Lemma loadSunPath_read s filepath isDir content :
  read_file s (sun_file filepath isDir) = Ok content →
  loadSunPath s filepath isDir =
  sunpath ← sun_rows [] (tail (csv_reader (text_lines content)).1);
  match (csv_reader (text_lines content)).2 with
  | Some e => Raise e
  | None => Ok sunpath
  end.
Proof.
  intros Hr. unfold loadSunPath.
  rewrite (read_file_Ok_exists _ _ _ Hr), Hr. cbn [negb mbind result_bind].
  by destruct (csv_reader _).
Qed.

(** On a file of plain rows the loader is the loop over the rows after
    the first. *)
Lemma loadSunPath_plain s filepath isDir rows :
  read_file s (sun_file filepath isDir) = Ok (concat (format_row <$> rows)) →
  Forall (λ fs, plain_row fs = true) rows →
  loadSunPath s filepath isDir = sun_rows [] (tail rows).
Proof.
  intros Hr Hrows. rewrite (loadSunPath_read _ _ _ _ Hr).
  rewrite text_lines_format_rows, csv_reader_format_rows by done.
  by destruct (sun_rows _ _).
Qed.

(** What the loader returns is the empty list of a missing file, or the
    records of the rows read. *)
Lemma loadSunPath_Ok s filepath isDir pts :
  loadSunPath s filepath isDir = Ok pts →
  (path_exists s (sun_file filepath isDir) = false ∧ pts = [])
  ∨ ∃ content, read_file s (sun_file filepath isDir) = Ok content
      ∧ (csv_reader (text_lines content)).2 = None
      ∧ pts = sun_path_spec (csv_reader (text_lines content)).1.
Proof.
  unfold loadSunPath. destruct (path_exists _ _); cbn [negb]; [|by intros [= <-]; left].
  intros (content & Hc & Hl)%bind_Ok_inv. right. exists content.
  destruct (csv_reader _) as [rows err]. apply bind_Ok_inv in Hl as (sp & Hsp & Herr).
  apply sun_rows_Ok in Hsp as ->. by destruct err; simplify_eq.
Qed.

End load.

(** ** Files to run the loader on *)

Definition spa_header : row := strs ["Date"; "Time"; "Zenith"; "Azimuth"].
Definition spa_night : row := strs ["10/25/2016"; "06:00:00"; "100"; "90"].
Definition spa_noon : row := strs ["10/25/2016"; "12:00:00"; "30"; "180"].
Definition spa_bad : row := strs ["badrow"; "x"; "0"; "0"].

Definition spa_file (rows : list row) : node := File (concat (format_row <$> rows)).

Definition sun_tree : fs_tree :=
  FsTree
    [("data" : str, Dir [("spa.csv" : str,
        spa_file [spa_header; spa_night; spa_noon; spa_bad])]);
     ("clean.csv" : str, spa_file [spa_header; spa_night; spa_noon]);
     ("other.csv" : str, spa_file [[]; spa_night; spa_noon; spa_bad]);
     ("blank.csv" : str, spa_file [spa_header; spa_noon; []; spa_noon]);
     ("angle.csv" : str,
        spa_file [spa_header; spa_noon;
                  strs ["10/25/2016"; "13:00:00"; "n/a"; "190"]]);
     ("nan.csv" : str,
        spa_file [spa_header; strs ["10/25/2016"; "12:00:00"; "30"; "nan"]])]
    eq_refl.

Definition noon_point : point :=
  Point (float_of_Z 180) (float_of_Z 60) (DateTime 2016 10 25 12 0 0 0).

(** ** Theorems *)

Section theorems.
Context `{FileSys F}.
Implicit Types (s : F) (filepath : str) (isDir : bool).

(** C2: whenever [loadSunPath] returns, it returns the sun-path sequence
    of the rows read from the file: the records of the specification, in
    the order of the rows, the first row left out. *)
Theorem loadSunPath_returns_spec s filepath isDir content pts :
  read_file s (sun_file filepath isDir) = Ok content →
  loadSunPath s filepath isDir = Ok pts →
  pts = sun_path_spec (csv_reader (text_lines content)).1.
Proof.
  intros Hr [[He _] | (content' & Hr' & _ & ->)]%loadSunPath_Ok.
  - by rewrite (read_file_Ok_exists _ _ _ Hr) in He.
  - congruence.
Qed.

(** C1: on a file of the expected shape (a header, then rows of at least
    four columns with numeric angles, or with no date in the first two)
    [loadSunPath] returns, and returns the sequence of the specification. *)
Theorem loadSunPath_shaped s filepath isDir rows :
  read_file s (sun_file filepath isDir) = Ok (concat (format_row <$> rows)) →
  Forall (λ fs, plain_row fs = true) rows →
  Forall (λ row, shaped row = true) (tail rows) →
  loadSunPath s filepath isDir = Ok (sun_path_spec rows).
Proof.
  intros Hr Hplain Hshaped. rewrite (loadSunPath_plain _ _ _ _ Hr Hplain).
  by rewrite sun_rows_shaped.
Qed.

(** C7: when the file does not exist the sequence is empty, and no error
    is raised. *)
Theorem loadSunPath_missing s filepath isDir :
  path_exists s (sun_file filepath isDir) = false →
  loadSunPath s filepath isDir = Ok [].
Proof. intros He. unfold loadSunPath. by rewrite He. Qed.

(** C3: every record returned has its altitude between 0 and 90, both
    included, hence a finite number, and a valid timestamp. *)
Theorem loadSunPath_records s filepath isDir pts :
  loadSunPath s filepath isDir = Ok pts →
  Forall (λ pt, float_le (float_of_Z 0) (pt_phi pt) = true
                ∧ float_le (pt_phi pt) (float_of_Z 90) = true
                ∧ float_is_finite (pt_phi pt) = true
                ∧ valid_datetime (pt_dt pt) = true) pts.
Proof.
  intros [[_ ->] | (content & _ & _ & ->)]%loadSunPath_Ok; [done|].
  apply Forall_forall. intros pt (row & _ & Hpt)%list_elem_of_omap.
  apply spec_record_Some in Hpt as (Hv & Hdt & _).
  pose proof (visible_finite _ Hv). by apply andb_prop in Hv as [? ?].
Qed.

(** There are fewer records than lines in the file: the first line
    gives none, every other at most one. *)
Theorem loadSunPath_length s filepath isDir content pts :
  read_file s (sun_file filepath isDir) = Ok content →
  loadSunPath s filepath isDir = Ok pts →
  (length pts ≤ length (text_lines content) - 1)%nat.
Proof.
  intros Hr [[He _] | (content' & Hr' & _ & ->)]%loadSunPath_Ok.
  { by rewrite (read_file_Ok_exists _ _ _ Hr) in He. }
  assert (content' = content) as -> by congruence.
  pose proof (csv_reader_length (text_lines content)).
  pose proof (length_omap_le spec_record (tail (csv_reader (text_lines content)).1)).
  unfold sun_path_spec.
  destruct (csv_reader (text_lines content)).1; cbn [tail length] in *; lia.
Qed.

(** C5: a row whose first two columns are no date and time is skipped:
    the file without the row gives the same result. *)
Theorem loadSunPath_bad_date_skipped s file1 file2 header rows1 bad rows2 :
  read_file s file1 = Ok (concat (format_row <$> header :: rows1 ++ bad :: rows2)) →
  read_file s file2 = Ok (concat (format_row <$> header :: rows1 ++ rows2)) →
  Forall (λ fs, plain_row fs = true) (header :: rows1 ++ bad :: rows2) →
  row_dt bad = Raise ValueError →
  loadSunPath s file1 false = loadSunPath s file2 false.
Proof.
  intros Hr1 Hr2 Hplain Hbad.
  rewrite (loadSunPath_plain s file1 false _ Hr1 Hplain).
  rewrite (loadSunPath_plain s file2 false _ Hr2).
  - cbn [tail]. rewrite !sun_rows_app. destruct (sun_rows [] rows1); [|done].
    cbn [mbind result_bind sun_rows]. unfold sun_row at 1. rewrite Hbad.
    cbn [fmap result_fmap]. by rewrite try_except_caught.
  - apply Forall_cons in Hplain as [? [? [_ ?]%Forall_cons]%Forall_app].
    constructor; [done|]. by apply Forall_app.
Qed.

(** The first row is dropped whatever it holds: two files that differ
    in their first row only give the same result. *)
Theorem loadSunPath_header_ignored s file1 file2 header1 header2 rows :
  read_file s file1 = Ok (concat (format_row <$> header1 :: rows)) →
  read_file s file2 = Ok (concat (format_row <$> header2 :: rows)) →
  Forall (λ fs, plain_row fs = true) (header1 :: header2 :: rows) →
  loadSunPath s file1 false = loadSunPath s file2 false.
Proof.
  intros Hr1 Hr2 [? [? ?]%Forall_cons]%Forall_cons.
  rewrite (loadSunPath_plain s file1 false _ Hr1) by by constructor.
  by rewrite (loadSunPath_plain s file2 false _ Hr2) by by constructor.
Qed.

(** C4: a row with fewer than two columns, a blank line of the file for
    one, stops the load with [IndexError]: the row is not skipped. *)
Theorem loadSunPath_short_row s filepath isDir header rows1 short rows2 :
  read_file s (sun_file filepath isDir)
  = Ok (concat (format_row <$> header :: rows1 ++ short :: rows2)) →
  Forall (λ fs, plain_row fs = true) (header :: rows1 ++ short :: rows2) →
  Forall (λ row, shaped row = true) rows1 →
  (length short < 2)%nat →
  loadSunPath s filepath isDir = Raise IndexError.
Proof.
  intros Hr Hplain Hrows1 Hshort.
  rewrite (loadSunPath_plain _ _ _ _ Hr Hplain). cbn [tail].
  apply sun_rows_Raise; [done|].
  by destruct short as [|? [|? ?]]; cbn [length] in Hshort; try lia.
Qed.

(** C6: a row with a date and a time whose zenith or azimuth is no number
    stops the load with [ValueError]. *)
Theorem loadSunPath_bad_angle s filepath isDir header rows1 bad rows2 :
  read_file s (sun_file filepath isDir)
  = Ok (concat (format_row <$> header :: rows1 ++ bad :: rows2)) →
  Forall (λ fs, plain_row fs = true) (header :: rows1 ++ bad :: rows2) →
  Forall (λ row, shaped row = true) rows1 →
  shaped bad = false → (4 ≤ length bad)%nat →
  loadSunPath s filepath isDir = Raise ValueError.
Proof.
  intros Hr Hplain Hrows1 Hbad Hlen.
  rewrite (loadSunPath_plain _ _ _ _ Hr Hplain). cbn [tail].
  apply sun_rows_Raise; [done|].
  destruct (sun_row_not_shaped (omap spec_record rows1) bad Hbad) as [e He].
  rewrite He. apply sun_row_Raise in He as [_ [[_ ?] | [-> _]]]; [lia | done].
Qed.

(** C36: [loadSunPath] raises nothing but [IOError] (the path is no file
    that can be read), [csv.Error], [IndexError] (a row is too short) and
    [ValueError] (an angle is no number). *)
Theorem loadSunPath_errors s filepath isDir e :
  loadSunPath s filepath isDir = Raise e →
  e = IOError ∨ e = CsvError ∨ e = IndexError ∨ e = ValueError.
Proof.
  unfold loadSunPath. destruct (path_exists _ _); [|done]. cbn [negb].
  intros [?%read_file_Raise | (content & _ & Hl)]%bind_Raise_inv; [by auto|].
  pose proof (reader_rows_err parse_reset (text_lines content)) as Herr.
  fold (csv_reader (text_lines content)) in Herr.
  destruct (csv_reader _) as [rows err].
  apply bind_Raise_inv in Hl as [Hl | (sp & _ & Hl)].
  - right; right. clear Herr. revert Hl. generalize (@nil point).
    induction (tail rows) as [|row rs IH]; intros sp; [done|]. cbn [sun_rows].
    intros [(_ & [[-> _] | [-> _]])%sun_row_Raise | (? & _ & ?%IH)]%bind_Raise_inv;
      auto.
  - destruct err as [e'|]; [|done]. injection Hl as <-.
    right; left. by apply Herr.
Qed.

End theorems.

(** ** The theorems at the sample files *)

Ltac compute_all :=
  repeat first [ apply List.Forall_nil | apply List.Forall_cons; [by vm_compute|] ].

Lemma loadSunPath_returns_spec_witness :
  [noon_point] =
  sun_path_spec (csv_reader (text_lines
    (concat (format_row <$> [spa_header; spa_night; spa_noon; spa_bad])))).1.
Proof.
  apply (loadSunPath_returns_spec sun_tree "data" true); by vm_compute.
Defined.

Lemma loadSunPath_shaped_witness :
  loadSunPath sun_tree "data" true = Ok [noon_point].
Proof.
  rewrite (loadSunPath_shaped sun_tree "data" true
             [spa_header; spa_night; spa_noon; spa_bad]);
    [by vm_compute | by vm_compute | compute_all | compute_all].
Defined.

Lemma loadSunPath_missing_witness : loadSunPath sun_tree "nowhere" true = Ok [].
Proof. apply (loadSunPath_missing sun_tree "nowhere" true). by vm_compute. Defined.

Lemma loadSunPath_records_witness :
  Forall (λ pt, float_le (float_of_Z 0) (pt_phi pt) = true
                ∧ float_le (pt_phi pt) (float_of_Z 90) = true
                ∧ float_is_finite (pt_phi pt) = true
                ∧ valid_datetime (pt_dt pt) = true) [noon_point].
Proof. apply (loadSunPath_records sun_tree "data" true). by vm_compute. Defined.

Lemma loadSunPath_length_witness :
  (length [noon_point] ≤
   length (text_lines (concat (format_row <$> [spa_header; spa_night; spa_noon; spa_bad]))) - 1)%nat.
Proof. apply (loadSunPath_length sun_tree "data" true); by vm_compute. Defined.

Lemma loadSunPath_bad_date_skipped_witness :
  loadSunPath sun_tree "data/spa.csv" false = loadSunPath sun_tree "clean.csv" false.
Proof.
  apply (loadSunPath_bad_date_skipped sun_tree _ _ spa_header [spa_night; spa_noon] spa_bad []);
    [by vm_compute | by vm_compute | compute_all | by vm_compute].
Defined.

Lemma loadSunPath_header_ignored_witness :
  loadSunPath sun_tree "data/spa.csv" false = loadSunPath sun_tree "other.csv" false.
Proof.
  apply (loadSunPath_header_ignored sun_tree _ _ spa_header [] [spa_night; spa_noon; spa_bad]);
    [by vm_compute | by vm_compute | compute_all].
Defined.

Lemma loadSunPath_short_row_witness :
  loadSunPath sun_tree "blank.csv" false = Raise IndexError.
Proof.
  apply (loadSunPath_short_row sun_tree "blank.csv" false spa_header [spa_noon] [] [spa_noon]);
    [by vm_compute | compute_all | compute_all | cbn; lia].
Defined.

Lemma loadSunPath_bad_angle_witness :
  loadSunPath sun_tree "angle.csv" false = Raise ValueError.
Proof.
  apply (loadSunPath_bad_angle sun_tree "angle.csv" false spa_header [spa_noon]
           (strs ["10/25/2016"; "13:00:00"; "n/a"; "190"]) []);
    [by vm_compute | compute_all | compute_all | by vm_compute | cbn; lia].
Defined.

Lemma loadSunPath_errors_witness :
  IndexError = IOError ∨ IndexError = CsvError
  ∨ IndexError = IndexError ∨ IndexError = ValueError.
Proof. apply (loadSunPath_errors sun_tree "blank.csv" false). by vm_compute. Defined.

