(* ===== verification/HdrRaw.v ===== *)
(** * HdrRaw: the raw-availability checker

    [isHDRRawAvailable] of [utility_data.py]: whether a raw capture exists
    for an image.  The path is split into base and extension after being
    put in lower case as a whole; for each raw extension in turn the
    function answers yes when the extension of the path is that one, or
    when the base with that extension exists.

    The theorems: the loop computes the disjunction the specification
    describes in two phases (own extension, then siblings); the answer on a
    missing path; and what lowering the whole path does on a file system
    that distinguishes case. *)

From Stdlib Require Import ZArith String Ascii List Bool Lia.
From stdpp Require Import base tactics option list strings.
From S2P Require Import Prelude PyStr FileSys FsTree.

Definition HDRRawExts : list str := strs [".cr2"; ".raw"; ".dng"].

Section checker.
Context `{FileSys F}.

(** The loop over the raw extensions. *)
Fixpoint raw_loop (s : F) (pathSplit : str * str) (exts : list str) : bool :=
  match exts with
  | [] => false
  | ext :: exts' =>
      if bool_decide (pathSplit.2 = ext) then true
      else if path_exists s (pathSplit.1 ++ ext) then true
      else raw_loop s pathSplit exts'
  end.

Definition isHDRRawAvailable (s : F) (hdrImgPath : str) : bool :=
  if negb (path_exists s hdrImgPath) then false
  else
    let pathSplit := splitext (lower hdrImgPath) in
    raw_loop s pathSplit HDRRawExts.

(** ** The specification: own extension first, then the siblings *)

Definition is_raw_ext (exts : list str) (ext : str) : bool := bool_decide (ext ∈ exts).

Definition has_sibling (s : F) (exts : list str) (base : str) : bool :=
  existsb (λ ext, path_exists s (base ++ ext)) exts.

Definition raw_available_spec (s : F) (path : str) : bool :=
  path_exists s path &&
  (is_raw_ext HDRRawExts (splitext (lower path)).2
   || has_sibling s HDRRawExts (splitext (lower path)).1).

(** ** Lemmas *)

Lemma raw_loop_spec s base ext exts :
  raw_loop s (base, ext) exts = is_raw_ext exts ext || has_sibling s exts base.
Proof.
  unfold is_raw_ext. induction exts as [|e exts IH]; [done|].
  cbn [raw_loop has_sibling existsb fst snd]. rewrite IH. fold (has_sibling s exts base).
  rewrite (bool_decide_ext (ext ∈ e :: exts) (ext = e ∨ ext ∈ exts))
    by apply elem_of_cons.
  rewrite bool_decide_or.
  by destruct (bool_decide (ext = e)), (path_exists s (base ++ e)),
    (bool_decide (ext ∈ exts)).
Qed.

End checker.

(** ** A tree of captures *)

Definition hdr_tree : fs_tree :=
  FsTree
    [("hdr" : str,
      Dir [("img_0001.jpg" : str, File "JPEG");
           ("img_0001.cr2" : str, File "RAW");
           ("IMG_0002.JPG" : str, File "JPEG");
           ("IMG_0002.CR2" : str, File "RAW");
           ("img_0003.jpg" : str, File "JPEG");
           ("img_0004.DNG" : str, File "RAW");
           (".cr2" : str, File "RAW")])]
    eq_refl.

(** ** Theorems *)

Section theorems.
Context `{FileSys F}.
Implicit Types (s : F) (path : str).

(** C12: the loop of [isHDRRawAvailable] computes the answer of the
    specification: the path exists, and its extension in lower case is a
    raw extension or a sibling with a raw extension exists. *)
Theorem isHDRRawAvailable_spec s path :
  isHDRRawAvailable s path = raw_available_spec s path.
Proof.
  unfold isHDRRawAvailable, raw_available_spec.
  destruct (path_exists s path); [|done]. cbn [negb andb].
  destruct (splitext (lower path)) as [base ext]. apply raw_loop_spec.
Qed.

(** A path that does not exist has no raw capture. *)
Theorem isHDRRawAvailable_missing s path :
  path_exists s path = false → isHDRRawAvailable s path = false.
Proof. intros He. unfold isHDRRawAvailable. by rewrite He. Qed.

(** An existing path whose extension, in whatever case, is a raw
    extension is its own raw capture. *)
Theorem isHDRRawAvailable_own s path :
  path_exists s path = true →
  (splitext (lower path)).2 ∈ HDRRawExts →
  isHDRRawAvailable s path = true.
Proof.
  intros He Hext. unfold isHDRRawAvailable. rewrite He. cbn [negb].
  destruct (splitext (lower path)) as [base ext].
  rewrite raw_loop_spec. unfold is_raw_ext. by rewrite bool_decide_eq_true_2.
Qed.

(** An existing path has a raw capture when the base of the path in
    lower case, with a raw extension, exists. *)
Theorem isHDRRawAvailable_sibling s path ext :
  path_exists s path = true → ext ∈ HDRRawExts →
  path_exists s ((splitext (lower path)).1 ++ ext) = true →
  isHDRRawAvailable s path = true.
Proof.
  intros He Hext Hs. unfold isHDRRawAvailable. rewrite He. cbn [negb].
  destruct (splitext (lower path)) as [base ext'].
  rewrite raw_loop_spec. apply orb_true_iff. right.
  apply existsb_exists. exists ext. by rewrite <- list_elem_of_In.
Qed.

(** An existing path without raw capture: its extension is none of
    the raw ones and no sibling in lower case exists. *)
Theorem isHDRRawAvailable_false s path :
  path_exists s path = true →
  isHDRRawAvailable s path = false ↔
  ((splitext (lower path)).2 ∉ HDRRawExts)
  ∧ ∀ ext, ext ∈ HDRRawExts →
      path_exists s ((splitext (lower path)).1 ++ ext) = false.
Proof.
  intros He. unfold isHDRRawAvailable. rewrite He. cbn [negb].
  destruct (splitext (lower path)) as [base ext'].
  rewrite raw_loop_spec, orb_false_iff. unfold is_raw_ext, has_sibling.
  rewrite bool_decide_eq_false, <- not_true_iff_false, existsb_exists.
  apply and_iff_compat_l. split.
  - intros Hn ext Hext. apply not_true_iff_false. intros Hs.
    apply Hn. exists ext. by rewrite <- list_elem_of_In.
  - intros Hall (ext & Hext%list_elem_of_In & Hs). by rewrite Hall in Hs.
Qed.

End theorems.

Lemma isHDRRawAvailable_missing_witness :
  isHDRRawAvailable hdr_tree "hdr/img_0009.jpg" = false.
Proof. by apply (isHDRRawAvailable_missing hdr_tree "hdr/img_0009.jpg"). Defined.

Lemma isHDRRawAvailable_own_witness :
  isHDRRawAvailable hdr_tree "hdr/img_0004.DNG" = true.
Proof.
  apply (isHDRRawAvailable_own hdr_tree "hdr/img_0004.DNG"); [done|].
  vm_compute. apply elem_of_cons. right. apply elem_of_cons. right.
  apply elem_of_cons. by left.
Defined.

Lemma isHDRRawAvailable_sibling_witness :
  isHDRRawAvailable hdr_tree "hdr/img_0001.jpg" = true.
Proof.
  apply (isHDRRawAvailable_sibling hdr_tree "hdr/img_0001.jpg" ".cr2"); [done| |done].
  apply elem_of_cons. by left.
Defined.

Lemma isHDRRawAvailable_false_witness :
  isHDRRawAvailable hdr_tree "hdr/img_0003.jpg" = false ↔
  ((splitext (lower "hdr/img_0003.jpg")).2 ∉ HDRRawExts)
  ∧ ∀ ext, ext ∈ HDRRawExts →
      path_exists hdr_tree ((splitext (lower "hdr/img_0003.jpg")).1 ++ ext) = false.
Proof. by apply (isHDRRawAvailable_false hdr_tree "hdr/img_0003.jpg"). Defined.


