(* ===== verification/Numeric.v ===== *)
(** * Numeric: [clamp] and [normalize]

    The two numeric helpers of [utility.py].  [clamp] is written with the
    builtins [min] and [max], which keep their first argument unless the
    second is strictly smaller (greater): the model is generic in the
    comparison, with the integers and the floats as instances.
    [normalize] converts two differences to floats and divides. *)

From Stdlib Require Import ZArith String Ascii List Bool Lia ZifyBool SpecFloat.
From stdpp Require Import base tactics option list.
From S2P Require Import Prelude PyStr PyFloat.

(** The comparison [a < b] of two numbers of the same type. *)
Class PyLt (A : Type) := py_lt : A → A → bool.

#[global] Instance Z_lt : PyLt Z := Z.ltb.
#[global] Instance float_lt : PyLt pyfloat := SFltb.

Section clamp.
Context `{PyLt A}.

(** [max(a, b)] and [min(a, b)]. *)
Definition py_max (a b : A) : A := if py_lt a b then b else a.
Definition py_min (a b : A) : A := if py_lt b a then b else a.

Definition clamp (n minval maxval : A) : A := py_min (py_max n minval) maxval.

End clamp.

(** [float(n)] of an integer: [OverflowError] when [n] is too large. *)
Definition float_of_int (n : Z) : result pyfloat :=
  match float_of_Z n with
  | S754_infinity _ => Raise OverflowError
  | f => Ok f
  end.

(** [normalize] on integers. *)
Definition normalize (n minval maxval : Z) : result pyfloat :=
  a ← float_of_int (n - minval);
  b ← float_of_int (maxval - minval);
  float_div a b.

(** [normalize] on floats. *)
Definition normalize_float (n minval maxval : pyfloat) : result pyfloat :=
  float_div (float_sub n minval) (float_sub maxval minval).

(** The result is a float between 0 and 1. *)
Definition unit_range (r : result pyfloat) : bool :=
  match r with
  | Ok x => float_le (float_of_Z 0) x && float_le x (float_of_Z 1)
  | Raise _ => false
  end.

(** [unit_range] for every span [0 < b <= hi] and offset [0 <= a <= b]. *)
Definition normalize_check (hi : Z) : bool :=
  forallb (λ b, forallb (λ a, unit_range (normalize a 0 b)) (seqZ 0 (b + 1)))
          (seqZ 1 hi).

(** ** Lemmas *)

Lemma py_max_Z a b : py_max a b = Z.max a b.
Proof. unfold py_max, py_lt, Z_lt. destruct (Z.ltb_spec a b); lia. Qed.

Lemma py_min_Z a b : py_min a b = Z.min a b.
Proof. unfold py_min, py_lt, Z_lt. destruct (Z.ltb_spec b a); lia. Qed.

Lemma clamp_Z n minval maxval : clamp n minval maxval = Z.min (Z.max n minval) maxval.
Proof. unfold clamp. by rewrite py_min_Z, py_max_Z. Qed.

(** [normalize] depends on the two differences only. *)
Lemma normalize_shift n minval maxval :
  normalize n minval maxval = normalize (n - minval) 0 (maxval - minval).
Proof. unfold normalize. by rewrite !Z.sub_0_r. Qed.

Lemma normalize_check_255 : normalize_check 255 = true.
Proof. vm_cast_no_check (eq_refl true). Qed.

Lemma normalize_check_spec hi a b :
  normalize_check hi = true → 0 ≤ a ≤ b → 0 < b ≤ hi →
  unit_range (normalize a 0 b) = true.
Proof.
  unfold normalize_check. rewrite forallb_forall. intros Hall Ha Hb.
  assert (In b (seqZ 1 hi)) as Hin%Hall by (apply list_elem_of_In, elem_of_seqZ; lia).
  rewrite forallb_forall in Hin. apply Hin, list_elem_of_In, elem_of_seqZ. lia.
Qed.

(** ** Theorems *)

(** C39: on integers with [minval <= maxval] the result of [clamp] is
    within the bounds, and it is [n] itself when [n] is. *)
Theorem clamp_bounds (n minval maxval : Z) :
  minval ≤ maxval →
  minval ≤ clamp n minval maxval ≤ maxval
  ∧ (minval ≤ n ≤ maxval → clamp n minval maxval = n).
Proof. rewrite clamp_Z. lia. Qed.

Lemma clamp_bounds_witness :
  0 ≤ clamp 300 0 255 ≤ 255 ∧ (0 ≤ 300 ≤ 255 → clamp 300 0 255 = 300).
Proof. apply (clamp_bounds 300 0 255). lia. Defined.

(** With the bounds exchanged [clamp] returns [maxval], the smaller
    bound, whatever [n] is. *)
Theorem clamp_inverted (n minval maxval : Z) :
  maxval < minval → clamp n minval maxval = maxval.
Proof. rewrite clamp_Z. lia. Qed.

Lemma clamp_inverted_witness : clamp 7 10 0 = 0.
Proof. apply (clamp_inverted 7 10 0). lia. Defined.

(** On floats [clamp] of a NaN is the NaN, between no bounds. *)
Theorem clamp_nan (minval maxval : pyfloat) : clamp S754_nan minval maxval = S754_nan.
Proof.
  unfold clamp, py_max, py_min, py_lt, float_lt.
  replace (SFltb S754_nan minval) with false by done.
  by replace (SFltb maxval S754_nan) with false by (by destruct maxval).
Qed.

(** [normalize] with equal bounds raises [ZeroDivisionError], once
    the first difference is converted. *)
Theorem normalize_zero_span (n minval : Z) a :
  float_of_int (n - minval) = Ok a →
  normalize n minval minval = Raise ZeroDivisionError.
Proof. intros Ha. unfold normalize. by rewrite Ha, Z.sub_diag. Qed.

Lemma normalize_zero_span_witness : normalize 7 3 3 = Raise ZeroDivisionError.
Proof. by apply (normalize_zero_span 7 3 (float_of_Z 4)). Defined.

(** C40: for integers [minval <= n <= maxval] with a span
    [maxval - minval] between 1 and 255, [normalize] returns a float
    between 0 and 1. *)
Theorem normalize_unit (n minval maxval : Z) :
  minval ≤ n ≤ maxval → 0 < maxval - minval ≤ 255 →
  unit_range (normalize n minval maxval) = true.
Proof.
  intros Hn Hspan. rewrite normalize_shift.
  apply (normalize_check_spec 255); [apply normalize_check_255 | lia | lia].
Qed.

Lemma normalize_unit_witness : unit_range (normalize 1064 1000 1255) = true.
Proof. apply (normalize_unit 1064 1000 1255); lia. Defined.
