(* ===== verification/FindFiles.v ===== *)
(** * FindFiles: listing a directory

    [findFiles] of [utility.py]: the files, the directories, or both, of a
    directory ([os.listdir]) or of the tree below it ([os.walk]), the files
    filtered by extension.

    The theorems: what kind of path each mode returns, the extension of the
    files returned, the spellings of the same extension, and the errors: a
    blank extension, a directory that does not exist. *)

From Stdlib Require Import ZArith String Ascii List Bool Lia.
From stdpp Require Import base tactics option list strings.
From S2P Require Import Prelude PyStr FileSys FsTree.

#[local] Set Warnings "-clear-no-such-hyp".

(** The extension filter as the function prepares it: blanks stripped,
    lower case, a dot in front.  [ext[0]] raises when only blanks were
    given. *)
Definition normalize_ext (ext : str) : result str :=
  if 0 <? Z.of_nat (length ext) then
    let ext := lower (strip ext) in
    c ← py_index ext 0;
    if bool_decide (c ≠ "."%char) then Ok ("." ++ ext) else Ok ext
  else Ok ext.

(** The test of a path against the filter; every path passes the empty
    filter. *)
Definition ext_matches (ext fullpath : str) : bool :=
  let extension := (splitext (lower (strip fullpath))).2 in
  if 0 <? Z.of_nat (length ext) then bool_decide (extension = ext) else true.

Definition wants_files (mode : Z) : bool := bool_decide (mode = 1) || bool_decide (mode = 0).
Definition wants_dirs (mode : Z) : bool := bool_decide (mode = 2) || bool_decide (mode = 0).

Section findFiles.
Context `{FileSys F}.

(** The body of the loop over [os.listdir(dirpath)]: what one entry adds. *)
Definition entry_found (s : F) (dirpath : str) (mode : Z) (ext : str)
    (entry : str) : list str :=
  let fullpath := path_join dirpath entry in
  (if wants_files mode && isfile s fullpath && ext_matches ext fullpath
   then [fullpath] else []) ++
  (if wants_dirs mode && isdir s fullpath then [fullpath] else []).

(** The body of the loop over [os.walk(dirpath)]: what one directory of
    the walk adds. *)
Definition walk_found (mode : Z) (ext : str) (w : walk_entry) : list str :=
  let '(root, dirs, files) := w in
  (if wants_files mode then filter (λ p, ext_matches ext p = true) (path_join root <$> files)
   else []) ++
  (if wants_dirs mode then path_join root <$> dirs else []).

Definition findFiles (s : F) (dirpath : str) (mode : Z) (recursive : bool)
    (ext : str) : result (list str) :=
  ext ← normalize_ext ext;
  if negb recursive then
    entries ← listdir s dirpath;
    Ok (entries ≫= entry_found s dirpath mode ext)
  else Ok (walk s dirpath ≫= walk_found mode ext).

End findFiles.

(** ** Lemmas *)

Lemma normalize_ext_empty : normalize_ext [] = Ok [].
Proof. reflexivity. Qed.

Lemma normalize_ext_Raise ext e : normalize_ext ext = Raise e → e = IndexError.
Proof.
  unfold normalize_ext. case_match; [|done].
  intros [[-> _]%py_index_Raise | (c & _ & ?)]%bind_Raise_inv; [done|].
  by case_bool_decide.
Qed.

(** A filter that was prepared is empty or begins with a dot. *)
Lemma normalize_ext_Ok ext ext' :
  normalize_ext ext = Ok ext' → ext' = [] ∨ ∃ e, ext' = "."%char :: e.
Proof.
  unfold normalize_ext. case_match eqn:Hl.
  - intros (c & Hc%py_index_Ok & Hr)%bind_Ok_inv. right.
    case_bool_decide as Hd; injection Hr as <-; [by eauto|].
    destruct (lower (strip ext)) as [|c' e]; [done|]. injection Hc as ->.
    subst. eauto.
  - intros [= <-]. left. destruct ext; [done|]. cbn [length] in Hl. lia.
Qed.

Section lemmas.
Context `{FileSys F}.
Implicit Types (s : F) (dirpath ext p : str) (mode : Z).

Lemma entry_found_spec s dirpath mode ext entry p :
  p ∈ entry_found s dirpath mode ext entry ↔
  p = path_join dirpath entry ∧
  ((wants_files mode = true ∧ isfile s p = true ∧ ext_matches ext p = true)
   ∨ (wants_dirs mode = true ∧ isdir s p = true)).
Proof.
  unfold entry_found. rewrite elem_of_app. split.
  - intros [Hp | Hp]; case_match eqn:E; try by apply elem_of_nil in Hp.
    + apply list_elem_of_singleton in Hp as ->.
      apply andb_prop in E as [[? ?]%andb_prop ?]. auto.
    + apply list_elem_of_singleton in Hp as ->.
      apply andb_prop in E as [? ?]. auto.
  - intros [-> [(-> & -> & ->) | (-> & ->)]]; [left | right];
      by apply list_elem_of_singleton.
Qed.

Lemma walk_found_spec mode ext root dirs files p :
  p ∈ walk_found mode ext (root, dirs, files) ↔
  (wants_files mode = true ∧ ext_matches ext p = true
   ∧ ∃ f, f ∈ files ∧ p = path_join root f)
  ∨ (wants_dirs mode = true ∧ ∃ d, d ∈ dirs ∧ p = path_join root d).
Proof.
  unfold walk_found. rewrite elem_of_app.
  destruct (wants_files mode), (wants_dirs mode);
    rewrite ?list_elem_of_filter, ?list_elem_of_fmap, ?elem_of_nil;
    naive_solver.
Qed.

(** What [findFiles] returns, path by path. *)
Lemma findFiles_elem s dirpath mode recursive ext l p :
  findFiles s dirpath mode recursive ext = Ok l → p ∈ l →
  ∃ ext', normalize_ext ext = Ok ext' ∧
    ((wants_files mode = true ∧ isfile s p = true ∧ ext_matches ext' p = true)
     ∨ (wants_dirs mode = true ∧ isdir s p = true)).
Proof.
  unfold findFiles. intros (ext' & He & Hl)%bind_Ok_inv Hp. exists ext'.
  split; [done|]. destruct recursive; cbn [negb] in Hl.
  - injection Hl as <-.
    apply list_elem_of_bind in Hp as ([[root dirs] files] & Hp & Hw).
    apply walk_found_spec in Hp as [(? & ? & f & Hf & ->) | (? & d & Hd & ->)].
    + left. eauto using walk_files.
    + right. eauto using walk_dirs.
  - apply bind_Ok_inv in Hl as (entries & _ & [= <-]).
    apply list_elem_of_bind in Hp as (entry & Hp & _).
    by apply entry_found_spec in Hp as [_ ?].
Qed.

End lemmas.

(** ** Theorems *)

Section theorems.
Context `{FileSys F}.
Implicit Types (s : F) (dirpath ext p : str) (mode : Z).

(** C29: in mode 1 every path returned is a file, in mode 2 a directory,
    in mode 0 one or the other; in any other mode nothing is returned. *)
Theorem findFiles_kinds s dirpath mode recursive ext l p :
  findFiles s dirpath mode recursive ext = Ok l → p ∈ l →
  (mode = 1 ∧ isfile s p = true) ∨ (mode = 2 ∧ isdir s p = true)
  ∨ (mode = 0 ∧ (isfile s p = true ∨ isdir s p = true)).
Proof.
  intros Hl Hp.
  destruct (findFiles_elem _ _ _ _ _ _ _ Hl Hp) as (_ & _ & [(Hm & ? & _) | (Hm & ?)]);
    apply orb_prop in Hm as [->%bool_decide_eq_true | ->%bool_decide_eq_true]; auto.
Qed.

(** With a filter, every file returned has the extension of the
    filter, in lower case and with its dot, once the path is stripped and
    put in lower case. *)
Theorem findFiles_extension s dirpath recursive ext ext' l p :
  findFiles s dirpath 1 recursive ext = Ok l → p ∈ l →
  normalize_ext ext = Ok ext' → ext' ≠ [] →
  (splitext (lower (strip p))).2 = ext'.
Proof.
  intros Hl Hp He Hne.
  destruct (findFiles_elem _ _ _ _ _ _ _ Hl Hp) as (e & He' & [(_ & _ & Hm) | (Hm & _)]);
    [|done].
  assert (e = ext') as -> by congruence. unfold ext_matches in Hm.
  destruct ext'; [done|]. by apply bool_decide_eq_true in Hm.
Qed.

(** C30: a filter of blanks only makes [findFiles] raise [IndexError]:
    the filter is stripped before its first character is read. *)
Theorem findFiles_blank_ext s dirpath mode recursive ext :
  ext ≠ [] → Forall (λ c, is_space c = true) ext →
  findFiles s dirpath mode recursive ext = Raise IndexError.
Proof.
  intros Hne Hsp. unfold findFiles, normalize_ext.
  destruct ext as [|c ext]; [done|]. cbn [length].
  replace (0 <? Z.of_nat (S (length ext))) with true by lia.
  assert (strip (c :: ext) = []) as -> by (by apply strip_with_all).
  done.
Qed.

(** C31: on a path that is no directory the listing of the directory
    itself raises [IOError], the recursive listing returns nothing. *)
Theorem findFiles_not_dir s dirpath mode ext ext' :
  isdir s dirpath = false → normalize_ext ext = Ok ext' →
  findFiles s dirpath mode false ext = Raise IOError
  ∧ findFiles s dirpath mode true ext = Ok [].
Proof.
  intros Hd He. unfold findFiles. rewrite He. cbn [negb mbind result_bind].
  by rewrite (listdir_missing _ _ Hd), (walk_not_isdir _ _ Hd).
Qed.

(** The listing of a directory returns paths of its entries: each is
    the directory path joined with a name [os.listdir] gives. *)
Theorem findFiles_entries s dirpath mode ext l p :
  findFiles s dirpath mode false ext = Ok l → p ∈ l →
  ∃ entries entry, listdir s dirpath = Ok entries ∧ entry ∈ entries
    ∧ p = path_join dirpath entry ∧ path_exists s p = true.
Proof.
  unfold findFiles. intros (ext' & _ & Hl)%bind_Ok_inv Hp. cbn [negb] in Hl.
  apply bind_Ok_inv in Hl as (entries & Hls & [= <-]).
  apply list_elem_of_bind in Hp as (entry & Hp & Hin).
  apply entry_found_spec in Hp as [-> _].
  exists entries, entry. eauto using listdir_exists.
Qed.

(** C28: the listing of a directory is complete: a path is returned
    exactly when it is the path of an entry that is a file passing the
    filter (modes 0 and 1) or a directory (modes 0 and 2). *)
Theorem findFiles_listing s dirpath mode ext ext' entries :
  listdir s dirpath = Ok entries → normalize_ext ext = Ok ext' →
  ∃ l, findFiles s dirpath mode false ext = Ok l ∧
    ∀ p, p ∈ l ↔
      ∃ entry, entry ∈ entries ∧ p = path_join dirpath entry ∧
        ((wants_files mode = true ∧ isfile s p = true ∧ ext_matches ext' p = true)
         ∨ (wants_dirs mode = true ∧ isdir s p = true)).
Proof.
  intros Hls He. unfold findFiles. rewrite He, Hls. cbn [negb mbind result_bind].
  eexists. split; [done|]. intros p. rewrite list_elem_of_bind.
  setoid_rewrite entry_found_spec. naive_solver.
Qed.

End theorems.

(** ** The theorems at the sample tree *)

Lemma findFiles_sample :
  findFiles sample_tree "data" 1 true " JPG"
  = Ok (strs ["data/hdr/img_0001.jpg"; "data/hdr/IMG_0002.JPG"; "data/hdr/img_0003.jpg"])
  ∧ findFiles sample_tree "data" 0 false ""
  = Ok (strs ["data/hdr"; "data/spa.csv"])
  ∧ findFiles sample_tree "data" 2 true ".jpg" = Ok (strs ["data/hdr"]).
Proof. by vm_compute. Qed.

Lemma findFiles_kinds_witness :
  (1 = 1 ∧ isfile sample_tree "data/hdr/img_0001.jpg" = true)
  ∨ (1 = 2 ∧ isdir sample_tree "data/hdr/img_0001.jpg" = true)
  ∨ (1 = 0 ∧ (isfile sample_tree "data/hdr/img_0001.jpg" = true
              ∨ isdir sample_tree "data/hdr/img_0001.jpg" = true)).
Proof.
  eapply (findFiles_kinds sample_tree "data" 1 true " JPG");
    [by vm_compute | apply elem_of_cons; by left].
Defined.

Lemma findFiles_extension_witness :
  (splitext (lower (strip "data/hdr/img_0001.jpg"))).2 = (".jpg" : str).
Proof.
  eapply (findFiles_extension sample_tree "data" true " JPG");
    [by vm_compute | apply elem_of_cons; by left | by vm_compute | done].
Defined.

Lemma findFiles_blank_ext_witness :
  findFiles sample_tree "data" 0 false "  " = Raise IndexError.
Proof. apply findFiles_blank_ext; [done | by repeat constructor]. Defined.

Lemma findFiles_not_dir_witness :
  findFiles sample_tree "data/spa.csv" 0 false "" = Raise IOError
  ∧ findFiles sample_tree "data/spa.csv" 0 true "" = Ok [].
Proof. by apply (findFiles_not_dir sample_tree "data/spa.csv" 0 "" ""). Defined.

Lemma findFiles_entries_witness :
  ∃ entries entry, listdir sample_tree "data" = Ok entries ∧ entry ∈ entries
    ∧ ("data/hdr" : str) = path_join "data" entry
    ∧ path_exists sample_tree "data/hdr" = true.
Proof.
  eapply (findFiles_entries sample_tree "data" 2 "");
    [by vm_compute | apply elem_of_cons; by left].
Defined.

Lemma findFiles_listing_witness :
  ∃ l, findFiles sample_tree "data/hdr" 1 false "cr2" = Ok l ∧
    ∀ p, p ∈ l ↔
      ∃ entry, entry ∈ strs ["img_0001.jpg"; "img_0001.cr2"; "IMG_0002.JPG";
                             "IMG_0002.CR2"; "img_0003.jpg"]
        ∧ p = path_join "data/hdr" entry ∧
        ((wants_files 1 = true ∧ isfile sample_tree p = true
          ∧ ext_matches ".cr2" p = true)
         ∨ (wants_dirs 1 = true ∧ isdir sample_tree p = true)).
Proof. by apply (findFiles_listing sample_tree "data/hdr" 1 "cr2" ".cr2"). Defined.
