(* ===== verification/RunCmd.v ===== *)
(** * RunCmd: a command under a kill timer

    [runCMD] of [utility.py] starts a process, starts a timer thread that
    runs [killProcess] when the time is up, waits for the process, cancels
    the timer and returns the return code, the two outputs and the flag
    [timeout["value"]] that [killProcess] sets before it kills.

    Three parties take steps: the main thread, the timer thread and the
    process.  The model is their interleaving: a state holds the place of
    each and the shared flag; [apply_event] is what one step of one party
    does, [step] the relation of the steps, [reachable] its closure from
    the state after [timer.start()].  What the command does and how long it
    runs are outside the model: the process may end at any moment with any
    return code and outputs, the timer may expire at any moment.

    The theorems: the invariants that tie the flag to the timer and the
    kill to the flag, what a returned tuple says of the process, that every
    execution is finite and ends with [runCMD] returned, and the race: the
    flag may be reported although the process ended by itself. *)

From Stdlib Require Import ZArith String Ascii List Bool Lia.
From stdpp Require Import base tactics option list strings relations.
From S2P Require Import Prelude PyStr.

(** ** States *)

(** The process: running, ended by itself, or killed; the outputs are what
    it had written to its pipes. *)
Inductive proc_state :=
  | Running
  | Exited (code : Z) (out err : str)
  | Killed (out err : str).

(** The timer thread: waiting for the time or a cancel; past the test of
    the cancel, before [killProcess]; between the two lines of
    [killProcess]; finished; cancelled while waiting. *)
Inductive timer_state :=
  | Waiting
  | Fired
  | FlagSet
  | Finished
  | Cancelled.

(** What [runCMD] returns. *)
Abbreviation outcome := (Z * str * str * bool)%type.

(** The main thread: in [process.communicate()], before [timer.cancel()],
    before [return], returned. *)
Inductive main_state :=
  | Communicating
  | Cancelling
  | Returning
  | Returned (r : outcome).

Record state := State {
  proc : proc_state;
  timer : timer_state;
  flag : bool;
  main : main_state
}.

#[global] Instance proc_state_eq_dec : EqDecision proc_state.
Proof. solve_decision. Defined.
#[global] Instance timer_state_eq_dec : EqDecision timer_state.
Proof. solve_decision. Defined.
#[global] Instance main_state_eq_dec : EqDecision main_state.
Proof. solve_decision. Defined.
#[global] Instance state_eq_dec : EqDecision state.
Proof. solve_decision. Defined.

(** [process.returncode] and the outputs [communicate] collects, once the
    process has ended; a process killed by [SIGKILL] has return code -9. *)
Definition returncode (p : proc_state) : option Z :=
  match p with
  | Running => None
  | Exited code _ _ => Some code
  | Killed _ _ => Some (-9)
  end.

Definition outputs (p : proc_state) : str * str :=
  match p with
  | Running => ([], [])
  | Exited _ out err | Killed out err => (out, err)
  end.

(** The state after [Popen], the creation of the dictionary and
    [timer.start()]. *)
Definition init : state := State Running Waiting false Communicating.

(** ** Steps *)

Inductive event :=
  | ProcExit (code : Z) (out err : str)
  | TimerExpire
  | KillSetFlag
  | KillProcess (out err : str)
  | MainCommunicate
  | MainCancel
  | MainReturn.

(** [process.kill()]: a process that has ended is left alone. *)
Definition kill (out err : str) (p : proc_state) : proc_state :=
  match p with
  | Running => Killed out err
  | _ => p
  end.

(** [timer.cancel()]: a timer that has passed the test goes on. *)
Definition cancel (t : timer_state) : timer_state :=
  match t with
  | Waiting => Cancelled
  | _ => t
  end.

(** The steps of [killProcess], run by the timer thread once the timer has
    expired: the flag is set, then the process is killed. *)
Definition killProcess (e : event) (s : state) : option state :=
  match e, s with
  | KillSetFlag, State p Fired _ m => Some (State p FlagSet true m)
  | KillProcess out err, State p FlagSet f m =>
      Some (State (kill out err p) Finished f m)
  | _, _ => None
  end.

(** The steps of [runCMD] after [timer.start()]: [communicate] returns
    once the process has ended, the timer is cancelled, the tuple is
    returned. *)
Definition runCMD (e : event) (s : state) : option state :=
  match e, s with
  | MainCommunicate, State p t f Communicating =>
      if bool_decide (p = Running) then None else Some (State p t f Cancelling)
  | MainCancel, State p t f Cancelling => Some (State p (cancel t) f Returning)
  | MainReturn, State p t f Returning =>
      code ← returncode p;
      Some (State p t f (Returned (code, (outputs p).1, (outputs p).2, f)))
  | _, _ => None
  end.

(** The steps of the surroundings: the process ends by itself, the time of
    the timer is up. *)
Definition surroundings (e : event) (s : state) : option state :=
  match e, s with
  | ProcExit code out err, State Running t f m =>
      Some (State (Exited code out err) t f m)
  | TimerExpire, State p Waiting f m => Some (State p Fired f m)
  | _, _ => None
  end.

(** One step of one party; [None] when the party cannot take it. *)
Definition apply_event (e : event) (s : state) : option state :=
  match e with
  | ProcExit _ _ _ | TimerExpire => surroundings e s
  | KillSetFlag | KillProcess _ _ => killProcess e s
  | MainCommunicate | MainCancel | MainReturn => runCMD e s
  end.

Definition step (s s' : state) : Prop := ∃ e, apply_event e s = Some s'.

Definition reachable (s : state) : Prop := rtc step init s.

(** An execution: the events in order. *)
Fixpoint run (es : list event) (s : state) : option state :=
  match es with
  | [] => Some s
  | e :: es' => s' ← apply_event e s; run es' s'
  end.

(** The steps left to each party: what decreases at every step. *)
Definition measure (s : state) : nat :=
  (match proc s with Running => 1 | _ => 0 end) +
  (match timer s with Waiting => 3 | Fired => 2 | FlagSet => 1 | _ => 0 end) +
  (match main s with Communicating => 3 | Cancelling => 2 | Returning => 1 | _ => 0 end).

(** ** Lemmas *)

Lemma run_reachable es s : run es init = Some s → reachable s.
Proof.
  unfold reachable. generalize init. revert s.
  induction es as [|e es IH]; intros s s0; cbn [run].
  { intros [= ->]. apply rtc_refl. }
  destruct (apply_event e s0) as [s1|] eqn:E; [|done]. cbn.
  intros Hr. eapply rtc_l; [by exists e | by apply IH].
Qed.

(** Inversion of a step, by the party that moves. *)
Lemma step_inv s s' :
  step s s' →
  (∃ code out err, proc s = Running ∧ s' = State (Exited code out err) (timer s) (flag s) (main s))
  ∨ (timer s = Waiting ∧ s' = State (proc s) Fired (flag s) (main s))
  ∨ (timer s = Fired ∧ s' = State (proc s) FlagSet true (main s))
  ∨ (∃ out err, timer s = FlagSet
       ∧ s' = State (kill out err (proc s)) Finished (flag s) (main s))
  ∨ (main s = Communicating ∧ proc s ≠ Running
       ∧ s' = State (proc s) (timer s) (flag s) Cancelling)
  ∨ (main s = Cancelling ∧ s' = State (proc s) (cancel (timer s)) (flag s) Returning)
  ∨ (∃ code, main s = Returning ∧ returncode (proc s) = Some code
       ∧ s' = State (proc s) (timer s) (flag s)
                (Returned (code, (outputs (proc s)).1, (outputs (proc s)).2, flag s))).
Proof.
  intros [e He]. destruct s as [p t f m].
  destruct e, p, t, m; simplify_eq/=; eauto 12;
    repeat case_match; simplify_eq/=; eauto 12.
Qed.

Lemma step_measure s s' : step s s' → (measure s' < measure s)%nat.
Proof.
  intros Hs. destruct s as [p t f m].
  apply step_inv in Hs as
    [(? & ? & ? & ? & ->) | [[? ->] | [[? ->] | [(? & ? & ? & ->) |
    [(? & ? & ->) | [[? ->] | (? & ? & ? & ->)]]]]]];
    simplify_eq/=; unfold measure; cbn [proc timer main];
    repeat case_match; simplify_eq/=; lia.
Qed.

(** ** The invariant *)

(** The flag is set exactly when the timer thread is past the first line
    of [killProcess]. *)
Definition flag_inv (s : state) : Prop :=
  flag s = match timer s with FlagSet | Finished => true | _ => false end.

(** Only the timer thread kills, and it finishes by killing. *)
Definition kill_inv (s : state) : Prop :=
  match proc s with
  | Killed _ _ => timer s = Finished
  | _ => True
  end.

(** The main thread: it cancels the timer after the process has ended, and
    what it has returned is what the process left, with a flag that was
    set if the process was killed. *)
Definition main_inv (s : state) : Prop :=
  match main s with
  | Communicating => timer s ≠ Cancelled
  | Cancelling => proc s ≠ Running ∧ timer s ≠ Cancelled
  | Returning => proc s ≠ Running
  | Returned (code, out, err, fl) =>
      returncode (proc s) = Some code ∧ outputs (proc s) = (out, err)
      ∧ (fl = true → flag s = true)
      ∧ match proc s with Killed _ _ => fl = true | _ => True end
  end.

Definition inv (s : state) : Prop := flag_inv s ∧ kill_inv s ∧ main_inv s.

Lemma inv_init : inv init.
Proof. by repeat split. Qed.

Lemma inv_step s s' : inv s → step s s' → inv s'.
Proof.
  destruct s as [p t f [| | |[[[code out] err] fl]]];
    unfold inv, flag_inv, kill_inv, main_inv;
    intros (Hf & Hk & Hm) Hs;
    apply step_inv in Hs as
      [(? & ? & ? & ? & ->) | [[? ->] | [[? ->] | [(? & ? & ? & ->) |
      [(? & ? & ->) | [[? ->] | (? & ? & ? & ->)]]]]]];
    simplify_eq/=;
    repeat match goal with
    | |- context [match ?x with _ => _ end] => destruct x eqn:?; simplify_eq/=
    | H : context [match ?x with _ => _ end] |- _ => destruct x eqn:?; simplify_eq/=
    end; try done; intuition congruence.
Qed.

Lemma reachable_inv s : reachable s → inv s.
Proof.
  unfold reachable. revert s.
  apply rtc_ind_r; [apply inv_init | eauto using inv_step].
Qed.

(** A state without step: every party has finished. *)
Lemma nf_step s :
  nf step s → proc s ≠ Running ∧ (timer s = Finished ∨ timer s = Cancelled)
  ∧ ∃ r, main s = Returned r.
Proof.
  destruct s as [p t f m]. intros Hnf. cbn.
  assert (∀ e, apply_event e (State p t f m) = None) as He.
  { intros e. destruct (apply_event e _) as [s'|] eqn:E; [|done].
    destruct Hnf. by exists s', e. }
  assert (p ≠ Running) as Hp.
  { intros ->. by specialize (He (ProcExit 0 [] [])). }
  split; [done | split].
  - destruct t; auto.
    + by specialize (He TimerExpire).
    + by specialize (He KillSetFlag).
    + by specialize (He (KillProcess [] [])).
  - destruct m; eauto.
    + specialize (He MainCommunicate). cbn in He.
      by rewrite bool_decide_eq_false_2 in He.
    + by specialize (He MainCancel).
    + specialize (He MainReturn). by destruct p.
Qed.

(** ** Theorems *)

(** In every reachable state the flag [timeout["value"]] is set
    exactly when the timer thread has run the first line of
    [killProcess]. *)
Theorem runCMD_flag_timer s :
  reachable s → flag s = true ↔ timer s = FlagSet ∨ timer s = Finished.
Proof.
  intros (Hf & _)%reachable_inv. unfold flag_inv in Hf. rewrite Hf.
  destruct (timer s); split; intros; destruct_or?; simplify_eq; auto.
Qed.

(** C16: when the process was killed, [runCMD] returns the return code -9
    and reports the timeout. *)
Theorem runCMD_killed s code out err fl o e :
  reachable s → main s = Returned (code, out, err, fl) →
  proc s = Killed o e → code = -9 ∧ fl = true ∧ (out, err) = (o, e).
Proof.
  intros (_ & _ & Hm)%reachable_inv Hr Hp. unfold main_inv in Hm.
  rewrite Hr, Hp in Hm. cbn in Hm. destruct Hm as ([= <-] & [= <- <-] & _ & ->). done.
Qed.

(** C17: when [runCMD] reports no timeout, the process ended by itself,
    and the tuple holds its return code and its outputs. *)
Theorem runCMD_no_timeout s code out err :
  reachable s → main s = Returned (code, out, err, false) →
  proc s = Exited code out err.
Proof.
  intros (_ & _ & Hm)%reachable_inv Hr. unfold main_inv in Hm.
  rewrite Hr in Hm. destruct (proc s); cbn in Hm; destruct Hm as (? & ? & _ & ?);
    by simplify_eq.
Qed.

(** C18: the timeout may be reported although the process ended by
    itself: the timer can expire between the end of the process and
    [timer.cancel()], and [killProcess] sets the flag before it finds that
    there is nothing to kill. *)
Theorem runCMD_race code out err :
  ∃ s, reachable s ∧ proc s = Exited code out err
       ∧ main s = Returned (code, out, err, true).
Proof.
  eexists. split; [|split].
  - apply (run_reachable [ProcExit code out err; MainCommunicate; TimerExpire;
                          KillSetFlag; MainCancel; MainReturn; KillProcess [] []]).
    reflexivity.
  - reflexivity.
  - reflexivity.
Qed.

(** C15: every execution is finite: no party steps for ever, and an
    execution from a state has no more steps than the measure of the
    state, seven from the start. *)
Theorem runCMD_terminates s : sn step s ∧ ∀ n s', nsteps step n s s' → (n ≤ measure s)%nat.
Proof.
  split.
  - induction s as [s IH] using (well_founded_induction (well_founded_ltof _ measure)).
    constructor. intros s' Hs. apply IH. by apply step_measure.
  - intros n s' Hn. induction Hn as [|n x y z Hxy _ IH]; [lia|].
    apply step_measure in Hxy. lia.
Qed.

(** C14: an execution from the start that cannot go on has returned from
    [runCMD], with the return code and the outputs of the process, and
    without timeout if the timer was cancelled in time. *)
Theorem runCMD_returns s :
  reachable s → nf step s →
  ∃ code out err fl, main s = Returned (code, out, err, fl)
    ∧ returncode (proc s) = Some code ∧ outputs (proc s) = (out, err)
    ∧ (timer s = Cancelled → fl = false).
Proof.
  intros (Hf & _ & Hm)%reachable_inv (_ & _ & [[[[code out] err] fl] Hr])%nf_step.
  exists code, out, err, fl. unfold main_inv, flag_inv in *. rewrite Hr in Hm.
  destruct Hm as (? & ? & Hfl & _). repeat split; try done.
  intros Ht. rewrite Ht in Hf. destruct fl; [|done]. by rewrite Hfl in Hf.
Qed.

(** ** The theorems at sample executions *)

Definition killed_run : list event :=
  [TimerExpire; KillSetFlag; KillProcess "partial" ""; MainCommunicate;
   MainCancel; MainReturn].

Definition normal_run : list event :=
  [ProcExit 0 "done" ""; MainCommunicate; MainCancel; MainReturn].

Definition killed_state : state :=
  State (Killed "partial" "") Finished true (Returned (-9, "partial" : str, [], true)).

Definition normal_state : state :=
  State (Exited 0 "done" "") Cancelled false (Returned (0, "done" : str, [], false)).

Lemma killed_state_reachable : reachable killed_state.
Proof. by apply (run_reachable killed_run). Qed.

Lemma normal_state_reachable : reachable normal_state.
Proof. by apply (run_reachable normal_run). Qed.

Lemma normal_state_nf : nf step normal_state.
Proof. intros (s' & e & He). by destruct e. Qed.

Lemma runCMD_flag_timer_witness :
  flag killed_state = true ↔ timer killed_state = FlagSet ∨ timer killed_state = Finished.
Proof. apply (runCMD_flag_timer killed_state), killed_state_reachable. Defined.

Lemma runCMD_killed_witness :
  -9 = -9 ∧ true = true ∧ ("partial" : str, @nil ascii) = ("partial" : str, []).
Proof.
  apply (runCMD_killed killed_state (-9) "partial" [] true "partial" []);
    [apply killed_state_reachable | done | done].
Defined.

Lemma runCMD_no_timeout_witness : proc normal_state = Exited 0 "done" "".
Proof.
  apply (runCMD_no_timeout normal_state 0 "done" []);
    [apply normal_state_reachable | done].
Defined.

Lemma runCMD_returns_witness :
  ∃ code out err fl, main normal_state = Returned (code, out, err, fl)
    ∧ returncode (proc normal_state) = Some code
    ∧ outputs (proc normal_state) = (out, err)
    ∧ (timer normal_state = Cancelled → fl = false).
Proof.
  apply (runCMD_returns normal_state);
    [apply normal_state_reachable | apply normal_state_nf].
Defined.
