(* ===== verification/FsOps.v ===== *)
(** * FsOps: changing the tree

    The operations that remove from the file system, on the trees of
    [FsTree]: [os.unlink] and [shutil.rmtree]; the monad [io] of the code
    that changes the file system; and [cleanFolder] of [utility.py], which
    is written with them.

    A node of the tree is named by its location, the list of the names
    from the root; [locate] gives the location a path leads to, [get] the
    node at a location, [modify] the tree with the node at a location
    changed.  The operations are total functions to [result]; a function
    that can fail after it has changed the tree returns the tree it leaves
    with its outcome. *)

From Stdlib Require Import ZArith String Ascii List Bool Lia.
From stdpp Require Import base tactics option list strings.
From S2P Require Import Prelude PyStr FileSys FsTree.

(** ** Locations *)

Abbreviation location := (list str).

(** The node at a location. *)
Fixpoint get (l : location) (n : node) : option node :=
  match l with
  | [] => Some n
  | x :: l' =>
      match n with
      | Dir es => lookup_entry x es ≫= get l'
      | File _ => None
      end
  end.

(** The entries with [g] applied to the entry named [x]. *)
Fixpoint map_entry (g : node → node) (x : str) (es : entries) : entries :=
  match es with
  | [] => []
  | (y, n) :: es' =>
      if bool_decide (y = x) then (y, g n) :: es' else (y, n) :: map_entry g x es'
  end.

(** The tree with [g] applied to the node at a location. *)
Fixpoint modify (l : location) (g : node → node) (n : node) : node :=
  match l with
  | [] => g n
  | x :: l' =>
      match n with
      | Dir es => Dir (map_entry (modify l' g) x es)
      | File _ => n
      end
  end.

(** One component of a path, on the names entered so far (the innermost
    first). *)
Definition locate_step (rnames : list str) (c : str) : list str :=
  if bool_decide (c = []) || bool_decide (c = ".") then rnames
  else if bool_decide (c = "..") then tail rnames
  else c :: rnames.

Fixpoint locate_from (rnames : list str) (cur p : str) : list str :=
  match p with
  | [] => locate_step rnames cur
  | c :: p' =>
      if bool_decide (c = "/"%char) then locate_from (locate_step rnames cur) [] p'
      else locate_from rnames (cur ++ [c]) p'
  end.

(** The location a path leads to, when it resolves. *)
Definition locate (p : str) : location := reverse (locate_from [] [] p).

(** No component of the path is [..]. *)
Fixpoint no_dotdot_from (cur p : str) : bool :=
  match p with
  | [] => negb (bool_decide (cur = ".."))
  | c :: p' =>
      if bool_decide (c = "/"%char)
      then negb (bool_decide (cur = "..")) && no_dotdot_from [] p'
      else no_dotdot_from (cur ++ [c]) p'
  end.

Definition no_dotdot (p : str) : bool := no_dotdot_from [] p.

(** ** Lemmas on entries *)

Lemma map_entry_names g x es : (map_entry g x es).*1 = es.*1.
Proof.
  induction es as [|[y n] es IH]; [done|]. cbn [map_entry].
  case_bool_decide; [done|]. by rewrite !fmap_cons, IH.
Qed.

Lemma lookup_map_entry g x y es :
  lookup_entry y (map_entry g x es) =
  if bool_decide (y = x) then g <$> lookup_entry x es else lookup_entry y es.
Proof.
  induction es as [|[z n] es IH]; [by case_bool_decide|]. cbn [map_entry].
  destruct (decide (z = x)) as [->|Hzx].
  - rewrite bool_decide_eq_true_2 by done. cbn [lookup_entry].
    destruct (decide (x = y)) as [->|Hxy].
    + by rewrite !bool_decide_eq_true_2.
    + rewrite (bool_decide_eq_false_2 (x = y)), (bool_decide_eq_false_2 (y = x)); done.
  - rewrite (bool_decide_eq_false_2 (z = x)) by done. cbn [lookup_entry].
    rewrite IH. destruct (decide (z = y)) as [->|Hzy].
    + rewrite bool_decide_eq_true_2 by done.
      by rewrite (bool_decide_eq_false_2 (y = x)).
    + rewrite (bool_decide_eq_false_2 (z = y)) by done.
      case_bool_decide; [|done]. subst. by rewrite (bool_decide_eq_false_2 (z = x)).
Qed.

Lemma map_entry_ext g h x es :
  (∀ n, lookup_entry x es = Some n → g n = h n) → map_entry g x es = map_entry h x es.
Proof.
  induction es as [|[y n] es IH]; [done|]. cbn [map_entry lookup_entry].
  case_bool_decide; intros Hgh; [by rewrite Hgh | by rewrite IH].
Qed.

Lemma map_entry_compose g h x es :
  map_entry g x (map_entry h x es) = map_entry (g ∘ h) x es.
Proof.
  induction es as [|[y n] es IH]; [done|]. cbn [map_entry].
  case_bool_decide; cbn [map_entry].
  - by rewrite bool_decide_eq_true_2.
  - by rewrite bool_decide_eq_false_2, IH.
Qed.

(** ** Lemmas on locations *)

Lemma get_app l l' n : get (l ++ l') n = get l n ≫= get l'.
Proof.
  revert n. induction l as [|x l IH]; intros n; [done|]. cbn [app get].
  destruct n as [|es]; [done|]. destruct (lookup_entry x es); [apply IH | done].
Qed.

Lemma get_modify l g n : get l (modify l g n) = g <$> get l n.
Proof.
  revert n. induction l as [|x l IH]; intros n; [done|]. cbn [get modify].
  destruct n as [|es]; [done|]. cbn [get].
  rewrite lookup_map_entry, bool_decide_eq_true_2 by done.
  destruct (lookup_entry x es); [apply IH | done].
Qed.

Lemma modify_ext l g h n :
  (∀ m, get l n = Some m → g m = h m) → modify l g n = modify l h n.
Proof.
  revert n. induction l as [|x l IH]; intros n Hgh; cbn [modify]; [by apply Hgh|].
  destruct n as [|es]; [done|]. f_equal. apply map_entry_ext.
  intros m Hm. apply IH. intros m' Hm'. apply Hgh. cbn [get]. by rewrite Hm.
Qed.

Lemma modify_modify l g h n : modify l g (modify l h n) = modify l (g ∘ h) n.
Proof.
  revert n. induction l as [|x l IH]; intros n; [done|]. cbn [modify].
  destruct n as [|es]; [done|]. f_equal. rewrite map_entry_compose.
  apply map_entry_ext. intros m _. apply IH.
Qed.

(** Changing a node inside a directory changes the entries of the
    directory. *)
Lemma modify_app l l' g n : modify (l ++ l') g n = modify l (modify l' g) n.
Proof.
  revert n. induction l as [|x l IH]; intros n; [done|]. cbn [app modify].
  destruct n as [|es]; [done|]. f_equal. apply map_entry_ext. intros m _. apply IH.
Qed.

Lemma wf_map_entry g x es :
  wf_node (Dir es) = true →
  (∀ n, lookup_entry x es = Some n → wf_node n = true → wf_node (g n) = true) →
  wf_node (Dir (map_entry g x es)) = true.
Proof.
  cbn [wf_node]. rewrite !andb_true_iff, map_entry_names.
  intros [Hn Hes] Hg. split; [done|]. clear Hn.
  induction es as [|[y n] es IH]; [done|].
  cbn [forallb map_entry lookup_entry snd] in *.
  apply andb_prop in Hes as [Hy Hes]. case_bool_decide; cbn [forallb snd].
  - apply andb_true_intro. split; [by apply Hg | done].
  - apply andb_true_intro. split; [done | by apply IH].
Qed.

Lemma wf_modify l g n :
  wf_node n = true →
  (∀ m, get l n = Some m → wf_node m = true → wf_node (g m) = true) →
  wf_node (modify l g n) = true.
Proof.
  revert n. induction l as [|x l IH]; intros n Hn Hg; cbn [modify]; [by apply Hg|].
  destruct n as [|es]; [done|]. apply wf_map_entry; [done|].
  intros m Hm Hwf. apply IH; [done|]. intros m' Hm'. apply Hg. cbn [get]. by rewrite Hm.
Qed.

(** ** Resolution and locations *)

(** The stack of a resolution holds the nodes at the names entered. *)
Inductive at_path (root : node) : list str → list node → Prop :=
  | at_root : at_path root [] [root]
  | at_push rn es anc c x :
      at_path root rn (Dir es :: anc) → lookup_entry c es = Some x →
      at_path root (c :: rn) (x :: Dir es :: anc).

Lemma at_path_get root rn st :
  at_path root rn st → ∃ x anc, st = x :: anc ∧ get (reverse rn) root = Some x.
Proof.
  induction 1 as [|rn es anc c x _ (y & anc' & [= <- <-] & IH) Hc]; [by eauto|].
  exists x, (Dir es :: anc). split; [done|].
  rewrite reverse_cons, get_app, IH. cbn. by rewrite Hc.
Qed.

Lemma step_at_path root rn st c st' :
  at_path root rn st → step st c = Some st' → at_path root (locate_step rn c) st'.
Proof.
  unfold step, locate_step. intros Hat.
  destruct st as [|[d|es] anc]; [done..|].
  case_match; [intros ?; by simplify_eq|].
  destruct (bool_decide (c = "..")).
  - intros ?; simplify_eq. inversion Hat; subst; cbn; first [constructor | done].
  - destruct (lookup_entry c es) as [x|] eqn:Hx; [|done].
    intros ?; simplify_eq/=. by constructor.
Qed.

Lemma resolve_from_at_path root p : ∀ cur rn st st',
  at_path root rn st → resolve_from st cur p = Some st' →
  at_path root (locate_from rn cur p) st'.
Proof.
  induction p as [|c p IH]; intros cur rn st st' Hat; cbn [resolve_from locate_from].
  { by apply step_at_path. }
  case_bool_decide; [|by apply IH].
  destruct (step st cur) as [st1|] eqn:E; [|done]. cbn.
  apply IH. by eapply step_at_path.
Qed.

(** A path that resolves leads to its location. *)
Lemma resolve_get root p x :
  resolve root p = Some x → get (locate p) (Dir root) = Some x.
Proof.
  intros (_ & anc & Hr)%resolve_Some.
  apply (resolve_from_at_path (Dir root) _ _ [] _ _ (at_root _)) in Hr.
  by apply at_path_get in Hr as (y & anc' & [= <- <-] & ?).
Qed.

Lemma locate_from_sep rn cur a b :
  locate_from rn cur (a ++ "/"%char :: b) = locate_from (locate_from rn cur a) [] b.
Proof.
  revert rn cur. induction a as [|c a IH]; intros rn cur; cbn [app locate_from].
  - by rewrite bool_decide_eq_true_2.
  - case_bool_decide; apply IH.
Qed.

Lemma locate_from_name rn cur n :
  "/"%char ∉ n → locate_from rn cur n = locate_step rn (cur ++ n).
Proof.
  revert cur. induction n as [|c n IH]; intros cur Hn; cbn [locate_from].
  - by rewrite app_nil_r.
  - apply not_elem_of_cons in Hn as [Hc Hn].
    rewrite bool_decide_eq_false_2 by done. rewrite IH by done.
    by rewrite <- (assoc_L (++)).
Qed.

Lemma locate_step_name rn n : valid_name n = true → locate_step rn n = n :: rn.
Proof.
  intros (? & ? & ? & _)%valid_name_spec. unfold locate_step.
  by rewrite !bool_decide_eq_false_2 by done.
Qed.

(** The location of an entry of a directory. *)
Lemma locate_join d n :
  d ≠ [] → valid_name n = true → locate (path_join d n) = locate d ++ [n].
Proof.
  intros Hd Hn. pose proof (valid_name_spec n Hn) as (_ & _ & _ & Hs).
  unfold locate, path_join. rewrite startswith_valid_name by done.
  rewrite bool_decide_eq_false_2 by done. cbn [orb].
  destruct (endswith "/" d) eqn:E.
  - apply endswith_app in E as [d' ->]. rewrite <- (assoc_L (++)). cbn [app].
    rewrite !locate_from_sep, locate_from_name, locate_step_name by done.
    by rewrite reverse_cons.
  - cbn [app list_ascii_of_string].
    rewrite locate_from_sep, locate_from_name, locate_step_name by done.
    by rewrite reverse_cons.
Qed.

(** Without [..] the names entered only grow. *)
Lemma locate_from_grows p : ∀ cur rn,
  no_dotdot_from cur p = true → ∃ l, locate_from rn cur p = l ++ rn.
Proof.
  assert (∀ (cur : str) rn, bool_decide (cur = "..") = false →
            ∃ l, locate_step rn cur = l ++ rn) as Hstep.
  { intros cur rn Hc. unfold locate_step. rewrite Hc.
    case_match; [by exists [] | by exists [cur]]. }
  induction p as [|c p IH]; intros cur rn; cbn [no_dotdot_from locate_from].
  { intros ?%negb_true_iff. by apply Hstep. }
  case_bool_decide; [|by apply IH].
  intros [Hc%negb_true_iff Hp]%andb_prop.
  destruct (Hstep cur rn Hc) as [l1 ->]. destruct (IH [] (l1 ++ rn) Hp) as [l2 ->].
  exists (l2 ++ l1). by rewrite (assoc_L (++)).
Qed.

(** A node from which a directory is reached is that directory, or a
    directory on the way. *)
Lemma get_Dir_inv l n es :
  get l n = Some (Dir es) → ∃ es', n = Dir es'.
Proof. destruct l, n; cbn; intros; simplify_eq; eauto. Qed.

(** For a path without [..], a directory at the location of the path is
    what the path resolves to. *)
Lemma resolve_from_Dir root p : ∀ cur rn st es,
  no_dotdot_from cur p = true → at_path root rn st →
  get (reverse (locate_from rn cur p)) root = Some (Dir es) →
  ∃ anc, resolve_from st cur p = Some (Dir es :: anc).
Proof.
  assert (∀ (cur : str) rn st l es, bool_decide (cur = "..") = false →
            at_path root rn st →
            get (reverse (l ++ locate_step rn cur)) root = Some (Dir es) →
            ∃ st1, step st cur = Some st1 ∧ at_path root (locate_step rn cur) st1)
    as Hstep.
  { intros cur rn st l es Hc Hat Hg.
    destruct (at_path_get _ _ _ Hat) as (x & anc & -> & Hx).
    rewrite reverse_app, get_app in Hg.
    destruct (get (reverse (locate_step rn cur)) root) as [m|] eqn:Hm; [|done].
    cbn in Hg. apply get_Dir_inv in Hg as [es' ->].
    revert Hm. unfold step, locate_step. rewrite Hc.
    case_match.
    - rewrite Hx. intros [= ->]. eauto.
    - rewrite reverse_cons, get_app, Hx. cbn. destruct x as [|es0]; [done|].
      destruct (lookup_entry cur es0) as [y|] eqn:Hy; [|done]. cbn.
      intros _. eexists. split; [done|]. by constructor. }
  induction p as [|c p IH]; intros cur rn st es; cbn [no_dotdot_from resolve_from locate_from].
  - intros Hc%negb_true_iff Hat Hg.
    destruct (Hstep cur rn st [] es Hc Hat Hg) as (st1 & -> & Hat1).
    destruct (at_path_get _ _ _ Hat1) as (x & anc & -> & Hx). exists anc.
    cbn [app] in Hg. congruence.
  - case_bool_decide; [|by apply IH].
    intros [Hc%negb_true_iff Hp]%andb_prop Hat Hg.
    destruct (locate_from_grows p [] (locate_step rn cur) Hp) as [l Hl].
    rewrite Hl in Hg.
    destruct (Hstep cur rn st l es Hc Hat Hg) as (st1 & -> & Hat1). cbn.
    apply (IH [] (locate_step rn cur)); [done | done | by rewrite Hl].
Qed.

Lemma resolve_Dir root p es :
  p ≠ [] → no_dotdot p = true → get (locate p) (Dir root) = Some (Dir es) →
  resolve root p = Some (Dir es).
Proof.
  intros Hp Hn Hg. apply resolve_Some. split; [done|].
  by apply (resolve_from_Dir (Dir root) p [] [] [Dir root] es Hn (at_root _)).
Qed.

(** ** Trees after a change *)

Definition root_entries (n : node) : entries :=
  match n with
  | Dir es => es
  | File _ => []
  end.

Lemma root_entries_wf n : wf_node n = true → wf_node (Dir (root_entries n)) = true.
Proof. by destruct n. Qed.

Lemma modify_root root l g :
  (∀ m, is_dir m = true → is_dir (g m) = true) →
  Dir (root_entries (modify l g (Dir root))) = modify l g (Dir root).
Proof.
  intros Hg. destruct l as [|x l]; cbn [modify]; [|done].
  specialize (Hg (Dir root) eq_refl). by destruct (g (Dir root)).
Qed.

(** The state with [g] applied at a location; [g] keeps nodes well
    formed. *)
Definition modify_tree (s : fs_tree) (l : location) (g : node → node)
    (Hg : ∀ m, wf_node m = true → wf_node (g m) = true) : fs_tree :=
  FsTree (root_entries (modify l g (Dir (fs_root s))))
         (root_entries_wf _ (wf_modify l g _ (fs_wf s) (λ m _, Hg m))).

Lemma fs_tree_eq s s' : fs_root s = fs_root s' → s = s'.
Proof.
  destruct s as [r H], s' as [r' H']. cbn. intros ->. f_equal. apply proof_irrel.
Qed.

(** The directory without its entry [x]; with the entry [x] set to [c]. *)
Definition delete_entry (x : str) (n : node) : node :=
  match n with
  | Dir es => Dir (filter (λ e, e.1 ≠ x) es)
  | File _ => n
  end.

Definition put_entry (x : str) (c : node) (n : node) : node :=
  match n with
  | Dir es =>
      Dir (if bool_decide (x ∈ es.*1) then map_entry (λ _, c) x es
           else es ++ [(x, c)])
  | File _ => n
  end.

Lemma delete_entry_wf x n : wf_node n = true → wf_node (delete_entry x n) = true.
Proof.
  destruct n as [|es]; [done|]. intros (Hv & Hd & Hw)%wf_node_Dir.
  cbn [delete_entry wf_node]. rewrite !andb_true_iff, bool_decide_eq_true. split; [split|].
  - apply forallb_forall. intros n (e & -> & [_ He]%list_elem_of_filter)%list_elem_of_In%list_elem_of_fmap.
    rewrite Forall_forall in Hv. apply Hv, list_elem_of_fmap. eauto.
  - apply (NoDup_fmap_2_strong fst); [|by apply NoDup_filter, (NoDup_fmap_1 fst)].
    intros [a b] [a' b'] [_ Hin]%list_elem_of_filter [_ Hin']%list_elem_of_filter Heq.
    cbn in Heq. subst a'. f_equal.
    apply (lookup_entry_NoDup _ _ _ Hd) in Hin, Hin'. congruence.
  - apply forallb_forall. intros e [_ He]%list_elem_of_In%list_elem_of_filter.
    rewrite Forall_forall in Hw. by apply Hw.
Qed.

Lemma filter_names_notin x (es : entries) :
  x ∉ es.*1 → filter (λ e, e.1 ≠ x) es = es.
Proof.
  induction es as [|[y c] es IH]; [done|]. rewrite fmap_cons.
  intros [Hy Hes]%not_elem_of_cons. cbn in Hy.
  rewrite filter_cons_True by (cbn; congruence). by rewrite IH.
Qed.

Lemma delete_entry_head x c es :
  wf_node (Dir ((x, c) :: es)) = true → delete_entry x (Dir ((x, c) :: es)) = Dir es.
Proof.
  intros (_ & Hd & _)%wf_node_Dir. cbn [delete_entry]. f_equal.
  rewrite fmap_cons in Hd. apply NoDup_cons in Hd as [Hx _].
  rewrite filter_cons_False by (cbn; intros Hne; by apply Hne).
  by apply filter_names_notin.
Qed.

(** ** Removing *)

(** The state without the node at a location. *)
Definition remove_at (s : fs_tree) (l : location) : fs_tree :=
  match last l with
  | Some x => modify_tree s (removelast l) (delete_entry x) (delete_entry_wf x)
  | None => s
  end.

(** [os.unlink(p)]: [p] names a file. *)
Definition unlink (s : fs_tree) (p : str) : result fs_tree :=
  match resolve (fs_root s) p with
  | Some (File _) => Ok (remove_at s (locate p))
  | _ => Raise IOError
  end.

(** [shutil.rmtree(p)]: [p] names a directory other than the root.  A
    path with a component [..] may pass through the tree it removes: it is
    outside the model. *)
Definition rmtree (s : fs_tree) (p : str) : result fs_tree :=
  if negb (no_dotdot p) then Raise Unmodelled
  else
    match resolve (fs_root s) p with
    | Some (Dir _) =>
        if bool_decide (locate p = []) then Raise IOError
        else Ok (remove_at s (locate p))
    | _ => Raise IOError
    end.

(** ** Code that changes the file system

    A computation takes the state and gives its outcome with the state it
    leaves, on an error too. *)

Definition io (A : Type) : Type := fs_tree → result A * fs_tree.

#[global] Instance io_ret : MRet io := λ A a s, (Ok a, s).

#[global] Instance io_bind : MBind io := λ A B f m s,
  match m s with
  | (Ok a, s') => f a s'
  | (Raise e, s') => (Raise e, s')
  end.

(** A query, and an operation that changes the state or fails. *)
Definition io_get {A} (q : fs_tree → A) : io A := λ s, (Ok (q s), s).

Definition io_query {A} (q : fs_tree → result A) : io A := λ s, (q s, s).

Definition io_update (op : fs_tree → result fs_tree) : io unit := λ s,
  match op s with
  | Ok s' => (Ok (), s')
  | Raise e => (Raise e, s)
  end.

(** [try: body except Exception as ex: handler(ex)]. *)
Definition io_try {A} (body : io A) (handler : exn → io A) : io A := λ s,
  match body s with
  | (Raise e, s') => if bool_decide (e = Unmodelled) then (Raise e, s') else handler e s'
  | r => r
  end.

(** [for x in l: f(x)]. *)
Fixpoint io_for {A} (l : list A) (f : A → io unit) : io unit :=
  match l with
  | [] => mret ()
  | x :: l' => f x ≫= λ _, io_for l' f
  end.

(** [logging.error(ex.message)]: an exception has no attribute [message]
    in Python 3, and the expression raises before anything is logged. *)
Definition log_error_message (ex : exn) : io unit := λ s, (Raise AttributeError, s).

(** ** [cleanFolder] *)

(** The body of the loop. *)
Definition clean_entry (dirpath filename : str) : io unit :=
  let filepath := path_join dirpath filename in
  io_try
    (isf ← io_get (λ s, isfile s filepath);
     if isf : bool then io_update (λ s, unlink s filepath)
     else
       isd ← io_get (λ s, isdir s filepath);
       if isd : bool then io_update (λ s, rmtree s filepath) else mret ())
    log_error_message.

Definition cleanFolder (dirpath : str) : io unit :=
  names ← io_query (λ s, listdir s dirpath);
  io_for names (clean_entry dirpath).

(** ** Lemmas on [cleanFolder] *)

Lemma no_dotdot_from_sep cur a b :
  no_dotdot_from cur (a ++ "/"%char :: b) = no_dotdot_from cur a && no_dotdot_from [] b.
Proof.
  revert cur. induction a as [|c a IH]; intros cur; cbn [app no_dotdot_from].
  - by rewrite bool_decide_eq_true_2.
  - case_bool_decide; [|apply IH]. by rewrite IH, andb_assoc.
Qed.

Lemma no_dotdot_from_plain n : ∀ cur,
  "/"%char ∉ n → no_dotdot_from cur n = negb (bool_decide (cur ++ n = "..")).
Proof.
  induction n as [|c n IH]; intros cur Hs; cbn [no_dotdot_from].
  - by rewrite app_nil_r.
  - apply not_elem_of_cons in Hs as [Hc Hs].
    rewrite bool_decide_eq_false_2 by done.
    by rewrite IH, <- (assoc_L (++)).
Qed.

Lemma no_dotdot_from_name n : valid_name n = true → no_dotdot_from [] n = true.
Proof.
  intros (_ & _ & Hn & Hs)%valid_name_spec.
  by rewrite no_dotdot_from_plain, bool_decide_eq_false_2.
Qed.

Lemma no_dotdot_join d n :
  d ≠ [] → valid_name n = true → no_dotdot d = true → no_dotdot (path_join d n) = true.
Proof.
  intros Hd Hn Hnd. unfold no_dotdot, path_join in *.
  rewrite startswith_valid_name by done.
  rewrite bool_decide_eq_false_2 by done. cbn [orb].
  destruct (endswith "/" d) eqn:E.
  - apply endswith_app in E as [d' ->]. rewrite <- (assoc_L (++)). cbn [app].
    rewrite no_dotdot_from_sep in *. apply andb_prop in Hnd as [-> _].
    by rewrite no_dotdot_from_name.
  - cbn [app list_ascii_of_string]. by rewrite no_dotdot_from_sep, Hnd, no_dotdot_from_name.
Qed.

Lemma remove_at_child s l n :
  fs_root (remove_at s (l ++ [n]))
  = root_entries (modify l (delete_entry n) (Dir (fs_root s))).
Proof. unfold remove_at. by rewrite last_snoc, removelast_last. Qed.

Lemma delete_entry_is_dir n m : is_dir m = true → is_dir (delete_entry n m) = true.
Proof. by destruct m. Qed.

(** A directory given by a path without [..], after a change inside it. *)
Lemma resolve_modify s d g es es' (s' : fs_tree) :
  d ≠ [] → no_dotdot d = true →
  resolve (fs_root s) d = Some (Dir es) → g (Dir es) = Dir es' →
  (∀ m, is_dir m = true → is_dir (g m) = true) →
  fs_root s' = root_entries (modify (locate d) g (Dir (fs_root s))) →
  resolve (fs_root s') d = Some (Dir es').
Proof.
  intros Hd Hnd Hr Hg Hdir ->. apply resolve_Dir; [done..|].
  rewrite modify_root, get_modify by done.
  by rewrite (resolve_get _ _ _ Hr); cbn; rewrite Hg.
Qed.

(** One turn of the loop removes the first entry of the directory. *)
Lemma clean_entry_step s d n x es :
  d ≠ [] → no_dotdot d = true →
  resolve (fs_root s) d = Some (Dir ((n, x) :: es)) →
  ∃ s', clean_entry d n s = (Ok (), s')
    ∧ fs_root s' = root_entries (modify (locate d) (delete_entry n) (Dir (fs_root s))).
Proof.
  intros Hd Hnd Hr.
  assert (valid_name n = true) as Hn.
  { apply resolve_wf, wf_node_Dir in Hr as (Hv & _). by apply Forall_cons in Hv as [? _]. }
  assert (resolve (fs_root s) (path_join d n) = Some x) as Hx.
  { eapply resolve_entry; [done | left]. }
  pose proof (locate_join d n Hd Hn) as Hl.
  unfold clean_entry, io_try, io_get, io_update, mbind, io_bind.
  cbn [isfile isdir tree_FileSys]. unfold tree_isfile, tree_isdir, unlink, rmtree.
  rewrite Hl. destruct x as [data|es0];
    repeat (rewrite Hx || (rewrite no_dotdot_join by done)
            || (rewrite (bool_decide_eq_false_2 (_ ++ [_] = [])) by (by destruct (locate d)))
            || (progress cbn [from_option is_file is_dir negb]) || (progress cbv beta));
    (eexists; split; [done | apply remove_at_child]).
Qed.

Lemma modify_id l : ∀ n, modify l id n = n.
Proof.
  induction l as [|y l IH]; intros [|es]; cbn [modify]; try done.
  f_equal. induction es as [|[z m] es IHes]; [done|]. cbn [map_entry].
  case_bool_decide; [by rewrite IH | by rewrite IHes].
Qed.

Lemma modify_fixed l g n m : get l n = Some m → g m = m → modify l g n = n.
Proof.
  intros Hm Hg. rewrite <- (modify_id l n) at 2. apply modify_ext.
  intros m'. rewrite Hm. by intros [= <-].
Qed.

Lemma clean_loop d : ∀ es s,
  d ≠ [] → no_dotdot d = true →
  resolve (fs_root s) d = Some (Dir es) →
  ∃ s', io_for es.*1 (clean_entry d) s = (Ok (), s')
    ∧ fs_root s' = root_entries (modify (locate d) (λ _, Dir []) (Dir (fs_root s))).
Proof.
  induction es as [|[n x] es IH]; intros s Hd Hnd Hr.
  - exists s. split; [done|].
    by rewrite (modify_fixed _ _ _ _ (resolve_get _ _ _ Hr)).
  - destruct (clean_entry_step s d n x es Hd Hnd Hr) as (s1 & Hs1 & Hroot1).
    assert (resolve (fs_root s1) d = Some (Dir es)) as Hr1.
    { eapply (resolve_modify s d (delete_entry n)); try done.
      - apply delete_entry_head. by apply resolve_wf in Hr.
      - apply delete_entry_is_dir. }
    destruct (IH s1 Hd Hnd Hr1) as (s' & Hs' & Hroot').
    exists s'. cbn [fmap list_fmap io_for fst]. unfold mbind, io_bind at 1.
    rewrite Hs1. split; [done|].
    rewrite Hroot', Hroot1, modify_root, modify_modify by apply delete_entry_is_dir.
    done.
Qed.

(** Locations beside the changed one keep their node. *)
Lemma get_modify_other l' g : ∀ l n,
  ¬ l' `prefix_of` l → ¬ l `prefix_of` l' → get l (modify l' g n) = get l n.
Proof.
  induction l' as [|x l' IH]; intros l n Hl' Hl; [by destruct Hl'; apply prefix_nil|].
  destruct l as [|y l]; [by destruct Hl; apply prefix_nil|].
  destruct n as [|es]; [done|]. cbn [modify get].
  rewrite lookup_map_entry. case_bool_decide as Hy; [subst y|done].
  destruct (lookup_entry x es) as [m|]; [|done]. cbn.
  apply IH; intros ?; [apply Hl' | apply Hl]; by apply prefix_cons.
Qed.

(** A file is not on the way to a directory. *)
Lemma get_File_above l l' n data es :
  get l n = Some (File data) → get l' n = Some (Dir es) → ¬ l `prefix_of` l'.
Proof.
  intros Hf Hd [k ->]. rewrite get_app, Hf in Hd. by destruct k.
Qed.

(** The run of [cleanFolder] on a directory named without [..]. *)
Lemma cleanFolder_run s d :
  isdir s d = true → no_dotdot d = true →
  ∃ s', cleanFolder d s = (Ok (), s')
    ∧ fs_root s' = root_entries (modify (locate d) (λ _, Dir []) (Dir (fs_root s))).
Proof.
  cbn [isdir tree_FileSys]. unfold tree_isdir. intros Hd Hnd.
  destruct (resolve (fs_root s) d) as [[|es]|] eqn:Hr; try done.
  assert (d ≠ []) as Hne by (by apply resolve_Some in Hr as [? _]).
  unfold cleanFolder, io_query, mbind, io_bind. cbn [listdir tree_FileSys].
  unfold tree_listdir. rewrite Hr. by apply clean_loop.
Qed.

(** ** Theorems on [cleanFolder] *)

(** C19: [cleanFolder] of a directory named without [..] returns with every
    entry of the directory removed: the directory is there and is empty. *)
Theorem cleanFolder_empties s d :
  isdir s d = true → no_dotdot d = true →
  ∃ s', cleanFolder d s = (Ok (), s') ∧ isdir s' d = true ∧ listdir s' d = Ok [].
Proof.
  intros Hd Hnd. destruct (cleanFolder_run s d Hd Hnd) as (s' & Hrun & Hroot).
  exists s'. split; [done|]. revert Hd. cbn [isdir listdir tree_FileSys].
  unfold tree_isdir, tree_listdir.
  destruct (resolve (fs_root s) d) as [[|es]|] eqn:Hr; try done. intros _.
  assert (d ≠ []) as Hne by (by apply resolve_Some in Hr as [? _]).
  by rewrite (resolve_modify s d (λ _, Dir []) es [] s' Hne Hnd Hr).
Qed.

(** C20: [cleanFolder] changes nothing outside the directory: a file at a
    location that is not below the directory is there afterwards, with the
    data it had. *)
Theorem cleanFolder_keeps_files s d s' l data :
  isdir s d = true → no_dotdot d = true → cleanFolder d s = (Ok (), s') →
  get l (Dir (fs_root s)) = Some (File data) → ¬ locate d `prefix_of` l →
  get l (Dir (fs_root s')) = Some (File data).
Proof.
  intros Hd Hnd Hrun Hf Hl.
  destruct (cleanFolder_run s d Hd Hnd) as (s1 & Hrun1 & Hroot).
  rewrite Hrun in Hrun1. injection Hrun1 as <-.
  rewrite Hroot, modify_root, get_modify_other; try done.
  revert Hd. cbn [isdir tree_FileSys]. unfold tree_isdir.
  destruct (resolve (fs_root s) d) as [[|es]|] eqn:Hr; try done. intros _.
  eapply get_File_above; [done | by apply resolve_get].
Qed.

(** C21: [cleanFolder] of a path that is not a directory raises the error of
    [os.listdir] and changes nothing. *)
Theorem cleanFolder_not_dir s d :
  isdir s d = false → cleanFolder d s = (Raise IOError, s).
Proof.
  intros Hd. unfold cleanFolder, io_query, mbind, io_bind.
  by rewrite (listdir_missing _ _ Hd).
Qed.

(** ** Witnesses on the sample tree *)

Lemma cleanFolder_empties_witness :
  ∃ s', cleanFolder "data" sample_tree = (Ok (), s')
    ∧ isdir s' "data" = true ∧ listdir s' "data" = Ok [].
Proof. apply (cleanFolder_empties sample_tree "data"); reflexivity. Defined.

Lemma cleanFolder_keeps_files_witness :
  get (strs ["data"; "spa.csv"]) (Dir (fs_root (cleanFolder "data/hdr" sample_tree).2))
  = get (strs ["data"; "spa.csv"]) (Dir (fs_root sample_tree)).
Proof.
  apply (cleanFolder_keeps_files sample_tree "data/hdr"); try reflexivity.
  intros [k Hk]. by vm_compute in Hk.
Defined.

Lemma cleanFolder_not_dir_witness :
  cleanFolder "data/spa.csv" sample_tree = (Raise IOError, sample_tree).
Proof. apply (cleanFolder_not_dir sample_tree "data/spa.csv"). reflexivity. Defined.

(** The sample tree after [cleanFolder("data")]. *)
Lemma cleanFolder_sample :
  fs_root (cleanFolder "data" sample_tree).2 = [("data" : str, Dir []); ("empty" : str, Dir [])].
Proof. reflexivity. Qed.
