(* ===== verification/Copy.v ===== *)
(** * Copy: [copy] of [utility.py]

    [copy(src, dest)] copies one file with [shutil.copy], or every entry of
    a directory with [shutil.copy] or [shutil.copytree], inside a [try]
    block whose handler reads [ex.message].

    The file holds the operations of [shutil] and [open(p, 'wb')] on the
    trees of [FsTree] ([write_file], [copyfile], [shutil_copy], [makedirs]
    as [make_at], [copytree]), then [copy] in the monad [io] of [FsOps],
    then the theorems: what a copy of a file leaves at the destination and
    elsewhere, the errors, and what the copy of a directory depends on.

    Permissions and times ([copymode], [copystat]) are not in the model.
    [shutil.copytree] to a destination below its source, or named with a
    component [..], is reported as outside the model. *)

From Stdlib Require Import ZArith String Ascii List Bool Lia.
From stdpp Require Import base tactics option list strings.
From S2P Require Import Prelude PyStr FileSys FsTree FsOps.

(** ** Paths *)

(** The characters of a path up to its last slash, and those after it:
    [p[:i]] and [p[i:]] for [i = p.rfind('/') + 1], as in [posixpath]. *)
Definition split_last (p : str) : str * str :=
  let i := Z.to_nat (rfind "/" p + 1) in (take i p, drop i p).

(** [os.path.basename(p)] *)
Definition basename (p : str) : str := (split_last p).2.

(** ** Writing *)

(** The tree with the root [n], which every use shows well formed. *)
Definition set_root (s : fs_tree) (n : node) : fs_tree :=
  match decide (wf_node (Dir (root_entries n)) = true) with
  | left H => FsTree (root_entries n) H
  | right _ => s
  end.

(** The directory a file named [head ++ name] is an entry of. *)
Definition dir_at (s : fs_tree) (head : str) : option node :=
  if bool_decide (head = []) then Some (Dir (fs_root s)) else resolve (fs_root s) head.

(** [open(p, 'wb')], the data written, the file closed: the file is
    created in its directory or replaced; the directory must exist, and
    the name must not be that of a directory. *)
Definition write_file (s : fs_tree) (p data : str) : result fs_tree :=
  let '(head, name) := split_last p in
  if negb (valid_name name) then Raise IOError
  else
    match dir_at s head with
    | Some (Dir es) =>
        match lookup_entry name es with
        | Some (Dir _) => Raise IOError
        | _ =>
            Ok (set_root s (modify (locate head) (put_entry name (File data))
                              (Dir (fs_root s))))
        end
    | _ => Raise IOError
    end.

(** [os.path.samefile], [False] when one of the two does not exist. *)
Definition samefile (s : fs_tree) (a b : str) : bool :=
  match resolve (fs_root s) a, resolve (fs_root s) b with
  | Some _, Some _ => bool_decide (locate a = locate b)
  | _, _ => false
  end.

(** [shutil.copyfile(src, dst)] *)
Definition copyfile (s : fs_tree) (src dst : str) : result fs_tree :=
  if samefile s src dst then Raise IOError
  else
    data ← read_file s src;
    write_file s dst data.

(** [shutil.copy(src, dst)]: into [dst] when it is a directory. *)
Definition shutil_copy (s : fs_tree) (src dst : str) : result fs_tree :=
  let dst := if isdir s dst then path_join dst (basename src) else dst in
  copyfile s src dst.

(** ** Copying a tree *)

(** The directories [os.makedirs] creates down to a new node. *)
Fixpoint fresh (l : location) (new : node) : node :=
  match l with
  | [] => new
  | x :: l' => Dir [(x, fresh l' new)]
  end.

(** The tree with [new] at a location where nothing is, the directories
    on the way created; nothing when the location is taken or a file is on
    the way. *)
Fixpoint make_at (l : location) (new : node) (n : node) : option node :=
  match l, n with
  | x :: l', Dir es =>
      match lookup_entry x es with
      | Some m => m' ← make_at l' new m; Some (Dir (map_entry (λ _, m') x es))
      | None => Some (Dir (es ++ [(x, fresh l' new)]))
      end
  | _, _ => None
  end.

(** [shutil.copytree(src, dst)]: the entries of [src] are listed, [dst]
    is made, the entries are copied into it. *)
Definition copytree (s : fs_tree) (src dst : str) : result fs_tree :=
  match resolve (fs_root s) src with
  | Some (Dir es) =>
      if negb (no_dotdot dst)
         || bool_decide (locate src `prefix_of` locate dst ∧ locate src ≠ locate dst)
      then Raise Unmodelled
      else
        match make_at (locate dst) (Dir es) (Dir (fs_root s)) with
        | Some n => Ok (set_root s n)
        | None => Raise IOError
        end
  | _ => Raise IOError
  end.

(** ** [copy] *)

(** The body of the loop over the entries of [src]. *)
Definition copy_entry (src dest filename : str) : io unit :=
  let srcfile := path_join src filename in
  let destfile := path_join dest filename in
  isf ← io_get (λ s, isfile s srcfile);
  if isf : bool then io_update (λ s, shutil_copy s srcfile destfile)
  else io_update (λ s, copytree s srcfile destfile).

Definition copy (src dest : str) : io unit :=
  io_try
    (isf ← io_get (λ s, isfile s src);
     if isf : bool then io_update (λ s, shutil_copy s src dest)
     else
       names ← io_query (λ s, listdir s src);
       io_for names (copy_entry src dest))
    log_error_message.

(** ** Lemmas on paths *)

Lemma split_last_name name : "/"%char ∉ name → split_last name = ([], name).
Proof.
  intros Hn. unfold split_last. apply rfind_none in Hn as ->. done.
Qed.

Lemma split_last_app head name :
  "/"%char ∉ name → split_last ((head ++ "/") ++ name) = (head ++ "/", name).
Proof.
  intros Hn. unfold split_last. rewrite <- (assoc_L (++)). cbn [app list_ascii_of_string].
  rewrite rfind_app by done.
  replace (Z.to_nat (Z.of_nat (length head) + 1)) with (length (head ++ ["/"%char]))
    by (rewrite length_app; cbn; lia).
  rewrite (cons_middle _ head name), (assoc_L (++)).
  by rewrite take_app_length, drop_app_length.
Qed.

(** A directory named with a slash at its end. *)
Lemma resolve_slash root d es :
  resolve root d = Some (Dir es) → resolve root (d ++ "/") = Some (Dir es).
Proof.
  intros (Hd & anc & Hr)%resolve_Some. apply resolve_Some.
  split; [by destruct d|]. exists anc. cbn [list_ascii_of_string].
  by rewrite resolve_from_sep, Hr.
Qed.

Lemma locate_slash d : locate (d ++ "/") = locate d.
Proof.
  unfold locate. cbn [list_ascii_of_string]. rewrite locate_from_sep. cbn [locate_from].
  unfold locate_step at 1. by rewrite bool_decide_eq_true_2.
Qed.

(** The path of a name in a directory splits into a name of the directory
    and the name. *)
Lemma split_last_join s d n es :
  d ≠ [] → valid_name n = true → resolve (fs_root s) d = Some (Dir es) →
  ∃ head, split_last (path_join d n) = (head, n)
    ∧ dir_at s head = Some (Dir es) ∧ locate head = locate d.
Proof.
  intros Hd Hn Hr. pose proof (valid_name_spec n Hn) as (_ & _ & _ & Hs).
  unfold path_join. rewrite startswith_valid_name, bool_decide_eq_false_2 by done.
  cbn [orb]. unfold dir_at. destruct (endswith "/" d) eqn:E.
  - apply endswith_app in E as [d' ->]. exists (d' ++ "/").
    by rewrite split_last_app, bool_decide_eq_false_2.
  - exists (d ++ "/"). rewrite (assoc_L (++)), split_last_app by done.
    rewrite bool_decide_eq_false_2 by (by destruct d).
    by rewrite (resolve_slash _ _ _ Hr), locate_slash.
Qed.

(** ** Lemmas on entries and well-formed trees *)

Lemma lookup_entry_app x es es' :
  lookup_entry x (es ++ es') =
  match lookup_entry x es with Some m => Some m | None => lookup_entry x es' end.
Proof.
  induction es as [|[y m] es IH]; [done|]. cbn [app lookup_entry]. by case_bool_decide.
Qed.

Lemma lookup_entry_None x es : lookup_entry x es = None ↔ x ∉ es.*1.
Proof.
  induction es as [|[y m] es IH]; [split; [intros _ | done]; apply not_elem_of_nil|].
  cbn [lookup_entry]. rewrite fmap_cons, not_elem_of_cons. cbn [fst].
  case_bool_decide; [split; [done | by intros [? _]] | rewrite IH; split; [by split; [intros ->|] | by intros [_ ?]]].
Qed.

(** The entries of a directory after [put_entry]. *)
Lemma lookup_put_entry x c es y :
  lookup_entry y (root_entries (put_entry x c (Dir es))) =
  if bool_decide (y = x) then Some c else lookup_entry y es.
Proof.
  cbn [put_entry root_entries]. case_bool_decide as Hx.
  - rewrite lookup_map_entry. case_bool_decide; [subst y|done].
    by destruct (lookup_entry_is_Some _ _ Hx) as [m ->].
  - rewrite lookup_entry_app. cbn [lookup_entry]. apply lookup_entry_None in Hx.
    case_bool_decide as Hy; [subst y; by rewrite Hx, bool_decide_eq_true_2|].
    rewrite bool_decide_eq_false_2 by done. by destruct (lookup_entry y es).
Qed.

Lemma put_entry_Dir x c es : put_entry x c (Dir es) = Dir (root_entries (put_entry x c (Dir es))).
Proof. done. Qed.

Lemma put_entry_is_dir x c m : is_dir m = true → is_dir (put_entry x c m) = true.
Proof. by destruct m. Qed.

Lemma put_entry_wf x c m :
  valid_name x = true → wf_node c = true → wf_node m = true →
  wf_node (put_entry x c m) = true.
Proof.
  intros Hx Hc Hm. destruct m as [|es]; [done|]. cbn [put_entry].
  case_bool_decide as Hin; [by apply wf_map_entry|].
  apply wf_node_Dir in Hm as (Hv & Hd & Hw). cbn [wf_node].
  rewrite !andb_true_iff, bool_decide_eq_true, !forallb_forall.
  split; [split|].
  - intros y. rewrite fmap_app, in_app_iff. intros [Hy|[<-|[]]]; [|done].
    by apply (proj1 (Forall_forall _ _) Hv), list_elem_of_In.
  - rewrite fmap_app. apply NoDup_app. split; [done|]. split; [|apply NoDup_singleton].
    by intros y Hy ->%list_elem_of_singleton.
  - intros [y m]. rewrite in_app_iff. intros [Hy|[[= <- <-]|[]]]; [|done].
    by apply (proj1 (Forall_forall _ _) Hw (y, m)), list_elem_of_In.
Qed.

Lemma set_root_root s n : wf_node n = true → fs_root (set_root s n) = root_entries n.
Proof.
  intros Hn. unfold set_root. destruct (decide _) as [|Hw]; [done|].
  by destruct Hw; apply root_entries_wf.
Qed.

(** ** A node put in a directory *)

(** [s'] is [s] with the entry [n] of the directory [d] set to [x]. *)
Definition put_at (s : fs_tree) (d n : str) (x : node) (s' : fs_tree) : Prop :=
  fs_root s' = root_entries (modify (locate d) (put_entry n x) (Dir (fs_root s))).

Lemma put_at_set_root s d n x :
  valid_name n = true → wf_node x = true →
  put_at s d n x (set_root s (modify (locate d) (put_entry n x) (Dir (fs_root s)))).
Proof.
  intros Hn Hx. apply set_root_root, wf_modify; [apply fs_wf|].
  intros m _. by apply put_entry_wf.
Qed.

Section put_at.
Context (s s' : fs_tree) (d n : str) (x : node) (es : entries).
Context (Hd : d ≠ []) (Hnd : no_dotdot d = true).
Context (Hr : resolve (fs_root s) d = Some (Dir es)).
Context (Hput : put_at s d n x s').

(** The directory afterwards. *)
Lemma put_at_dir :
  resolve (fs_root s') d = Some (Dir (root_entries (put_entry n x (Dir es)))).
Proof.
  by apply (resolve_modify s d (put_entry n x) es _ s' Hd Hnd Hr);
    [| apply put_entry_is_dir |].
Qed.

(** The entry afterwards, and the other entries. *)
Lemma put_at_entry : resolve (fs_root s') (path_join d n) = Some x.
Proof.
  eapply resolve_entry; [apply put_at_dir|].
  apply lookup_entry_Some. by rewrite lookup_put_entry, bool_decide_eq_true_2.
Qed.

Lemma put_at_lookup y :
  y ≠ n →
  lookup_entry y (root_entries (put_entry n x (Dir es))) = lookup_entry y es.
Proof. intros Hy. by rewrite lookup_put_entry, bool_decide_eq_false_2. Qed.

(** A directory beside [d] afterwards. *)
Lemma put_at_beside p es' :
  p ≠ [] → no_dotdot p = true → resolve (fs_root s) p = Some (Dir es') →
  ¬ locate d `prefix_of` locate p → ¬ locate p `prefix_of` locate d →
  resolve (fs_root s') p = Some (Dir es').
Proof.
  intros Hp Hnp Hrp H1 H2. apply resolve_Dir; [done..|].
  rewrite Hput, modify_root by apply put_entry_is_dir.
  rewrite get_modify_other by done. by apply resolve_get.
Qed.
End put_at.

(** A file at a location other than the one written keeps its data. *)
Lemma get_modify_put l' x c : ∀ l n es data,
  get l' n = Some (Dir es) → (∀ es0, lookup_entry x es ≠ Some (Dir es0)) →
  get l n = Some (File data) → l ≠ l' ++ [x] →
  get l (modify l' (put_entry x c) n) = Some (File data).
Proof.
  induction l' as [|z l' IH]; intros l n es data Hn Hx Hl Hne.
  - cbn in Hn. injection Hn as ->. destruct l as [|y k]; [done|].
    cbn [modify]. rewrite put_entry_Dir. cbn [get] in *. rewrite lookup_put_entry.
    case_bool_decide as Hy; [subst y|done].
    destruct (lookup_entry x es) as [[|es0]|]; [|by destruct (Hx es0)|done].
    by destruct k.
  - destruct n as [|es1]; [done|]. destruct l as [|y k]; [done|].
    cbn [get modify] in *. rewrite lookup_map_entry.
    case_bool_decide as Hy; [subst y|done].
    destruct (lookup_entry z es1) as [m|]; [|done]. cbn in *.
    eapply IH; [done..|]. by intros ->.
Qed.

(** ** Lemmas on the operations *)

Lemma write_file_join s d n es data :
  d ≠ [] → valid_name n = true → resolve (fs_root s) d = Some (Dir es) →
  (∀ es0, lookup_entry n es ≠ Some (Dir es0)) →
  ∃ s', write_file s (path_join d n) data = Ok s' ∧ put_at s d n (File data) s'.
Proof.
  intros Hd Hn Hr Hl.
  destruct (split_last_join s d n es Hd Hn Hr) as (head & Hsp & Hdir & Hloc).
  exists (set_root s (modify (locate d) (put_entry n (File data)) (Dir (fs_root s)))).
  split; [|by apply put_at_set_root].
  unfold write_file. rewrite Hsp, Hn, Hdir, Hloc. cbn [negb].
  destruct (lookup_entry n es) as [[|es0]|] eqn:E; try done. by destruct (Hl es0).
Qed.

Lemma samefile_join s src d n :
  d ≠ [] → valid_name n = true → locate src ≠ locate d ++ [n] →
  samefile s src (path_join d n) = false.
Proof.
  intros Hd Hn Hl. unfold samefile. rewrite locate_join by done.
  repeat case_match; try done. by apply bool_decide_eq_false_2.
Qed.

Lemma copyfile_join s src d n es data :
  read_file s src = Ok data →
  d ≠ [] → valid_name n = true → resolve (fs_root s) d = Some (Dir es) →
  (∀ es0, lookup_entry n es ≠ Some (Dir es0)) → locate src ≠ locate d ++ [n] →
  ∃ s', copyfile s src (path_join d n) = Ok s' ∧ put_at s d n (File data) s'.
Proof.
  intros Hsrc Hd Hn Hr Hl Hloc. unfold copyfile.
  rewrite samefile_join, Hsrc by done. by apply (write_file_join s d n es).
Qed.

Lemma make_at_new l x new : ∀ n es,
  get l n = Some (Dir es) → lookup_entry x es = None →
  make_at (l ++ [x]) new n = Some (modify l (put_entry x new) n).
Proof.
  induction l as [|z l IH]; intros n es Hn Hx.
  - cbn in Hn. injection Hn as ->. cbn. rewrite Hx.
    by rewrite bool_decide_eq_false_2 by (by apply lookup_entry_None).
  - destruct n as [|es1]; [done|]. cbn [get app make_at modify] in *.
    destruct (lookup_entry z es1) as [m|] eqn:Hz; [|done]. cbn in Hn.
    rewrite (IH m es Hn Hx). cbn. do 2 f_equal. apply map_entry_ext.
    intros m'. rewrite Hz. by intros [= <-].
Qed.

Lemma prefix_snoc_inv {A} (l k : list A) x :
  l `prefix_of` k ++ [x] → l = k ++ [x] ∨ l `prefix_of` k.
Proof.
  intros [t Ht]. destruct t as [|y t _] using rev_ind.
  - left. by rewrite app_nil_r in Ht.
  - right. exists t. rewrite (assoc_L (++)) in Ht. by apply app_inj_tail in Ht as [? _].
Qed.

Lemma copytree_join s src sub d n es :
  resolve (fs_root s) src = Some (Dir sub) →
  d ≠ [] → valid_name n = true → no_dotdot d = true →
  resolve (fs_root s) d = Some (Dir es) → lookup_entry n es = None →
  ¬ locate src `prefix_of` locate d →
  ∃ s', copytree s src (path_join d n) = Ok s' ∧ put_at s d n (Dir sub) s'.
Proof.
  intros Hsrc Hd Hn Hnd Hr Hl Hpre.
  exists (set_root s (modify (locate d) (put_entry n (Dir sub)) (Dir (fs_root s)))).
  split; [|apply put_at_set_root; [done | by apply resolve_wf in Hsrc]].
  unfold copytree. rewrite Hsrc, no_dotdot_join, locate_join by done. cbn [negb orb].
  rewrite bool_decide_eq_false_2.
  - by rewrite (make_at_new _ _ _ _ es) by (by try apply resolve_get).
  - intros [[?|?]%prefix_snoc_inv ?]; done.
Qed.

(** An entry of a directory that is no directory, in the words of the
    queries. *)
Lemma isdir_join_false s d n es :
  resolve (fs_root s) d = Some (Dir es) → isdir s (path_join d n) = false →
  ∀ es0, lookup_entry n es ≠ Some (Dir es0).
Proof.
  intros Hr Hdir es0 Hl%lookup_entry_Some. revert Hdir.
  cbn [isdir tree_FileSys]. unfold tree_isdir.
  by rewrite (resolve_entry _ _ _ _ _ Hr Hl).
Qed.

(** A file that is not the entry [n] of [d] is at another location. *)
Lemma samefile_join_false s src d n es data :
  read_file s src = Ok data → valid_name n = true →
  resolve (fs_root s) d = Some (Dir es) →
  samefile s src (path_join d n) = false → locate src ≠ locate d ++ [n].
Proof.
  intros Hsrc Hn Hr Hsame Hloc.
  assert (d ≠ []) as Hd by (by apply resolve_Some in Hr as [? _]).
  revert Hsrc Hsame. cbn [read_file tree_FileSys]. unfold tree_read_file, samefile.
  destruct (resolve (fs_root s) src) as [[data'|]|] eqn:Hs; try done. intros _.
  apply resolve_get in Hs. rewrite Hloc, get_app, (resolve_get _ _ _ Hr) in Hs.
  cbn in Hs. destruct (lookup_entry n es) as [m|] eqn:Hm; [|done].
  rewrite (resolve_entry _ _ _ _ _ Hr (lookup_entry_Some _ _ _ Hm)).
  by rewrite locate_join, Hloc, bool_decide_eq_true_2.
Qed.

(** The run of [copy] on a file, to the entry [n] of the directory [d]. *)
Lemma copy_file_run s src dest d n es data :
  read_file s src = Ok data →
  (if isdir s dest then path_join dest (basename src) else dest) = path_join d n →
  valid_name n = true → resolve (fs_root s) d = Some (Dir es) →
  isdir s (path_join d n) = false → samefile s src (path_join d n) = false →
  ∃ s', copy src dest s = (Ok (), s') ∧ put_at s d n (File data) s'.
Proof.
  intros Hsrc Hdest Hn Hr Hdir Hsame.
  assert (d ≠ []) as Hd by (by apply resolve_Some in Hr as [? _]).
  destruct (copyfile_join s src d n es data) as (s' & Hcopy & Hput);
    eauto using isdir_join_false, samefile_join_false.
  exists s'. split; [|done].
  unfold copy, io_try, io_get, io_update, mbind, io_bind, shutil_copy.
  by rewrite (read_file_Ok_isfile _ _ _ Hsrc), Hdest, Hcopy.
Qed.

(** ** Theorems on [copy] of a file *)

(** C23: [copy] of a file returns with the data of the file at the
    destination: at the path [dest], or at the name of the file in [dest]
    when [dest] is a directory.  The destination is the entry [n] of an
    existing directory [d] named without [..]; it is no directory, and not
    the file itself. *)
Theorem copy_file s src dest d n data :
  read_file s src = Ok data →
  (if isdir s dest then path_join dest (basename src) else dest) = path_join d n →
  valid_name n = true → isdir s d = true → no_dotdot d = true →
  isdir s (path_join d n) = false → samefile s src (path_join d n) = false →
  ∃ s', copy src dest s = (Ok (), s') ∧ read_file s' (path_join d n) = Ok data.
Proof.
  intros Hsrc Hdest Hn Hd Hnd Hdir Hsame. revert Hd.
  cbn [isdir tree_FileSys] in *. unfold tree_isdir at 1.
  destruct (resolve (fs_root s) d) as [[|es]|] eqn:Hr; try done. intros _.
  assert (d ≠ []) as Hne by (by apply resolve_Some in Hr as [? _]).
  destruct (copy_file_run s src dest d n es data) as (s' & Hrun & Hput); try done.
  exists s'. split; [done|]. cbn [read_file tree_FileSys]. unfold tree_read_file.
  by rewrite (put_at_entry s s' d n (File data) es).
Qed.

(** C24: [copy] of a file changes nothing else: every file at a location
    other than the destination's is there afterwards with the data it had;
    the source is one of them. *)
Theorem copy_file_keeps s src dest d n data s' l data' :
  read_file s src = Ok data →
  (if isdir s dest then path_join dest (basename src) else dest) = path_join d n →
  valid_name n = true → isdir s d = true →
  isdir s (path_join d n) = false → samefile s src (path_join d n) = false →
  copy src dest s = (Ok (), s') →
  get l (Dir (fs_root s)) = Some (File data') → l ≠ locate d ++ [n] →
  get l (Dir (fs_root s')) = Some (File data').
Proof.
  intros Hsrc Hdest Hn Hd Hdir Hsame Hrun Hl Hne. revert Hd.
  cbn [isdir tree_FileSys] in *. unfold tree_isdir at 1.
  destruct (resolve (fs_root s) d) as [[|es]|] eqn:Hr; try done. intros _.
  destruct (copy_file_run s src dest d n es data) as (s1 & Hrun1 & Hput); try done.
  rewrite Hrun in Hrun1. injection Hrun1 as <-.
  rewrite Hput, modify_root by apply put_entry_is_dir.
  eapply get_modify_put; eauto using resolve_get, isdir_join_false.
Qed.

(** C25: [copy] of a path that does not exist raises [AttributeError] and
    changes nothing: [os.listdir] raises, and the handler reads
    [ex.message]. *)
Theorem copy_missing s src dest :
  path_exists s src = false → copy src dest s = (Raise AttributeError, s).
Proof.
  intros Hsrc. unfold copy, io_try, io_get, io_query, mbind, io_bind.
  rewrite (not_exists_not_isfile _ _ Hsrc).
  by rewrite (listdir_missing _ _ (not_exists_not_isdir _ _ Hsrc)).
Qed.

(** No error of the file system leaves [copy]: what [copy] raises is
    the [AttributeError] of its handler (or the report that the model does
    not cover the call). *)
Theorem copy_errors s src dest e :
  (copy src dest s).1 = Raise e → e = AttributeError ∨ e = Unmodelled.
Proof.
  unfold copy, io_try. destruct (_ ≫= _) as [[|e'] s']; [done|].
  case_bool_decide; cbn; intros [= <-]; auto.
Qed.

(** ** [copy] of a directory *)

(** The directory [n] with the entries [es] put in it, in order. *)
Definition put_entries (es : entries) (n : node) : node :=
  foldl (λ acc e, put_entry e.1 e.2 acc) n es.

(** An entry can be copied into a directory with the entries [es_d]: a
    file where no directory has its name, a directory where nothing has
    its name. *)
Definition fits (es_d : entries) (e : str * node) : bool :=
  match e.2, lookup_entry e.1 es_d with
  | File _, Some (Dir _) => false
  | Dir _, Some _ => false
  | _, _ => true
  end.

Lemma put_entries_Dir es : ∀ es_d,
  put_entries es (Dir es_d) = Dir (root_entries (put_entries es (Dir es_d))).
Proof.
  induction es as [|[n x] es IH]; intros es_d; [done|].
  unfold put_entries in *. cbn [foldl fst snd]. rewrite put_entry_Dir. apply IH.
Qed.

Lemma lookup_put_entries_other y es : ∀ es_d,
  y ∉ es.*1 →
  lookup_entry y (root_entries (put_entries es (Dir es_d))) = lookup_entry y es_d.
Proof.
  induction es as [|[n x] es IH]; intros es_d; [done|].
  rewrite fmap_cons. intros [Hy Hes]%not_elem_of_cons.
  unfold put_entries in *. cbn [foldl fst snd]. rewrite put_entry_Dir, IH by done.
  by rewrite lookup_put_entry, bool_decide_eq_false_2.
Qed.

Lemma lookup_put_entries n x es : ∀ es_d,
  NoDup es.*1 → (n, x) ∈ es →
  lookup_entry n (root_entries (put_entries es (Dir es_d))) = Some x.
Proof.
  induction es as [|[m y] es IH]; intros es_d; [by intros _ ?%elem_of_nil|].
  rewrite fmap_cons, NoDup_cons. intros [Hm Hd] Hin.
  unfold put_entries in *. cbn [foldl fst snd]. rewrite put_entry_Dir.
  apply elem_of_cons in Hin as [[= -> ->]|Hin]; [|by apply IH].
  fold (put_entries es (Dir (root_entries (put_entry m y (Dir es_d))))).
  by rewrite lookup_put_entries_other, lookup_put_entry, bool_decide_eq_true_2.
Qed.

(** The entries of a directory, by their paths. *)
Lemma entry_valid_name s d es n x :
  resolve (fs_root s) d = Some (Dir es) → (n, x) ∈ es → valid_name n = true.
Proof.
  intros (Hv & _)%resolve_wf%wf_node_Dir Hin.
  apply (proj1 (Forall_forall _ _) Hv), list_elem_of_fmap. by exists (n, x).
Qed.

Lemma entry_lookup s d es n x :
  resolve (fs_root s) d = Some (Dir es) → (n, x) ∈ es → lookup_entry n es = Some x.
Proof.
  intros (_ & Hd & _)%resolve_wf%wf_node_Dir Hin. by apply lookup_entry_NoDup.
Qed.

Lemma resolve_join s d n es :
  resolve (fs_root s) d = Some (Dir es) → valid_name n = true →
  resolve (fs_root s) (path_join d n) = lookup_entry n es.
Proof.
  intros (Hd & anc & Hr)%resolve_Some Hn. unfold resolve.
  pose proof (valid_name_spec n Hn) as (Hne & _).
  rewrite bool_decide_eq_false_2 by (by apply path_join_nonempty).
  rewrite (resolve_from_join _ _ _ _ _ Hd Hn Hr). by destruct (lookup_entry n es).
Qed.

(** The entries still to copy fit after one is put. *)
Lemma fits_put_entry n x es es_d :
  n ∉ es.*1 → forallb (fits es_d) es = true →
  forallb (fits (root_entries (put_entry n x (Dir es_d)))) es = true.
Proof.
  rewrite !forallb_forall. intros Hn Hfit [m y] Hm. specialize (Hfit _ Hm).
  unfold fits in *. cbn [fst snd] in *.
  rewrite lookup_put_entry, bool_decide_eq_false_2; [done|].
  intros ->. apply Hn, list_elem_of_fmap. exists (n, y). by rewrite list_elem_of_In.
Qed.

Section copy_dir.
Context (src dest : str).
Context (Hsrc : no_dotdot src = true) (Hdest : no_dotdot dest = true).
Context (Hsd : ¬ locate src `prefix_of` locate dest).
Context (Hds : ¬ locate dest `prefix_of` locate src).

(** One turn of the loop puts the entry in the destination. *)
Lemma copy_entry_step s sub es_d n x :
  resolve (fs_root s) src = Some (Dir sub) →
  resolve (fs_root s) dest = Some (Dir es_d) →
  (n, x) ∈ sub → fits es_d (n, x) = true →
  ∃ s', copy_entry src dest n s = (Ok (), s') ∧ put_at s dest n x s'.
Proof.
  intros Hs Hd Hin Hfit.
  assert (src ≠ [] ∧ dest ≠ []) as [Hsn Hdn]
    by (by apply resolve_Some in Hs as [? _]; apply resolve_Some in Hd as [? _]).
  pose proof (entry_valid_name _ _ _ _ _ Hs Hin) as Hn.
  pose proof (entry_lookup _ _ _ _ _ Hs Hin) as Hx.
  unfold copy_entry, io_get, io_update, mbind, io_bind, shutil_copy.
  cbn [isfile isdir tree_FileSys]. unfold tree_isfile, tree_isdir.
  rewrite (resolve_join s src n sub), Hx by done.
  unfold fits in Hfit. cbn [fst snd] in Hfit.
  destruct x as [data|sub']; cbn [from_option is_file]; cbv beta.
  - assert (∀ es0, lookup_entry n es_d ≠ Some (Dir es0)) as Hl
      by (intros es0 E; by rewrite E in Hfit).
    rewrite (resolve_join s dest n es_d) by done.
    replace (from_option is_dir false (lookup_entry n es_d)) with false
      by (by destruct (lookup_entry n es_d) as [[]|]).
    destruct (copyfile_join s (path_join src n) dest n es_d data)
      as (s' & -> & Hput); try done; [..|by exists s'].
    + cbn [read_file tree_FileSys]. unfold tree_read_file.
      by rewrite (resolve_join s src n sub), Hx.
    + rewrite locate_join by done. intros [E _]%app_inj_tail. apply Hsd. by rewrite E.
  - assert (lookup_entry n es_d = None) as Hl by (by destruct (lookup_entry n es_d)).
    destruct (copytree_join s (path_join src n) sub' dest n es_d)
      as (s' & -> & Hput); try done; [..|by exists s'].
    + by rewrite (resolve_join s src n sub), Hx.
    + rewrite locate_join by done. intros [t Ht]. apply Hsd. exists ([n] ++ t).
      by rewrite Ht, <- (assoc_L (++)).
Qed.
(** The loop over the entries of the source. *)
Lemma copy_loop sub : ∀ es s es_d,
  resolve (fs_root s) src = Some (Dir sub) →
  resolve (fs_root s) dest = Some (Dir es_d) →
  es ⊆ sub → NoDup es.*1 → forallb (fits es_d) es = true →
  ∃ s', io_for es.*1 (copy_entry src dest) s = (Ok (), s')
    ∧ resolve (fs_root s') src = Some (Dir sub)
    ∧ resolve (fs_root s') dest = Some (put_entries es (Dir es_d)).
Proof.
  induction es as [|[n x] es IH]; intros s es_d Hs Hd Hsub Hnd Hfit.
  { exists s. split; [done|]. split; [done | exact Hd]. }
  rewrite fmap_cons in Hnd. apply NoDup_cons in Hnd as [Hn Hnd].
  cbn [forallb] in Hfit. apply andb_prop in Hfit as [Hfx Hfit].
  assert (src ≠ [] ∧ dest ≠ []) as [Hsn Hdn]
    by (by apply resolve_Some in Hs as [? _]; apply resolve_Some in Hd as [? _]).
  destruct (copy_entry_step s sub es_d n x) as (s1 & Hs1 & Hput);
    [done | done | apply Hsub, elem_of_cons; by left | done |].
  destruct (IH s1 (root_entries (put_entry n x (Dir es_d))))
    as (s' & Hs' & Hsrc' & Hdest').
  - eapply put_at_beside; eauto.
  - eapply put_at_dir; eauto.
  - intros e He. apply Hsub, elem_of_cons. by right.
  - done.
  - eapply fits_put_entry; eauto.
  - exists s'. cbn [fmap list_fmap io_for fst]. unfold mbind, io_bind at 1.
    rewrite Hs1. split; [done|]. split; [done|].
    by rewrite Hdest', <- put_entry_Dir.
Qed.

(** C22: [copy] of a directory into an existing directory beside it
    (neither is inside the other, both named without [..]) returns with
    every entry of the source at its name in the destination, files with
    their data and directories with their trees, and leaves the source
    as it was.  Every entry must fit: no directory of the destination
    has the name of a file of the source, nothing in the destination has
    the name of a directory of the source. *)
Theorem copy_dir s sub es_d :
  resolve (fs_root s) src = Some (Dir sub) →
  resolve (fs_root s) dest = Some (Dir es_d) →
  forallb (fits es_d) sub = true →
  ∃ s', copy src dest s = (Ok (), s')
    ∧ (∀ n x, (n, x) ∈ sub → resolve (fs_root s') (path_join dest n) = Some x)
    ∧ resolve (fs_root s') src = Some (Dir sub).
Proof.
  intros Hs Hd Hfit.
  pose proof (resolve_wf _ _ _ Hs) as (_ & Hnd & _)%wf_node_Dir.
  destruct (copy_loop sub sub s es_d) as (s' & Hrun & Hsrc' & Hdest'); try done.
  exists s'. split; [|split; [|done]].
  - unfold copy, io_try, io_get, io_query, mbind, io_bind.
    cbn [isfile listdir tree_FileSys]. unfold tree_isfile, tree_listdir.
    rewrite Hs. cbn [from_option is_file]. cbv beta. by rewrite Hs, Hrun.
  - intros n x Hin. rewrite put_entries_Dir in Hdest'.
    rewrite (resolve_join _ _ _ _ Hdest') by apply (entry_valid_name _ _ _ _ _ Hs Hin).
    by apply lookup_put_entries.
Qed.
End copy_dir.

(** ** Sample trees *)

(** The entries of the directory [data] of the sample tree. *)
Definition sample_data : entries :=
  match lookup_entry "data" sample_root with
  | Some (Dir es) => es
  | _ => []
  end.

(** The data of the file [data/spa.csv] of the sample tree. *)
Definition sample_spa : str :=
  match read_file sample_tree "data/spa.csv" with
  | Ok data => data
  | Raise _ => []
  end.





(** ** Witnesses on the sample tree *)

Lemma copy_file_witness :
  ∃ s', copy "data/spa.csv" "empty" sample_tree = (Ok (), s')
    ∧ read_file s' (path_join "empty" "spa.csv") = read_file sample_tree "data/spa.csv".
Proof.
  by apply (copy_file sample_tree "data/spa.csv" "empty" "empty" "spa.csv").
Defined.

Lemma copy_file_keeps_witness :
  get (strs ["data"; "spa.csv"]) (Dir (fs_root (copy "data/spa.csv" "empty" sample_tree).2))
  = get (strs ["data"; "spa.csv"]) (Dir (fs_root sample_tree)).
Proof.
  by apply (copy_file_keeps sample_tree "data/spa.csv" "empty" "empty" "spa.csv"
              sample_spa).
Defined.

Lemma copy_missing_witness :
  copy "data/none" "empty" sample_tree = (Raise AttributeError, sample_tree).
Proof. by apply (copy_missing sample_tree "data/none" "empty"). Defined.

Lemma copy_errors_witness :
  (copy "data/none" "empty" sample_tree).1 = Raise AttributeError
  ∧ (AttributeError = AttributeError ∨ AttributeError = Unmodelled).
Proof.
  split; [reflexivity|].
  by apply (copy_errors sample_tree "data/none" "empty" AttributeError).
Defined.

Lemma copy_dir_witness :
  ∃ s', copy "data" "empty" sample_tree = (Ok (), s')
    ∧ (∀ n x, (n, x) ∈ sample_data →
         resolve (fs_root s') (path_join "empty" n) = Some x)
    ∧ resolve (fs_root s') "data" = Some (Dir sample_data).
Proof.
  apply (copy_dir "data" "empty") with (es_d := []); try reflexivity;
    intros [k Hk]; by vm_compute in Hk.
Defined.
