(* ===== verification/AsdFile.v ===== *)
(** * AsdFile: [loadASDFile] of [utility_data.py]

    [loadASDFile] returns two empty lists when the file does not exist,
    and otherwise the two columns [numpy.loadtxt] reads from it after its
    first line.  [numpy.loadtxt] is the operation of the class [Loadtxt],
    a parameter of the model: given the data of the file it returns the
    items the unpacked array yields when it is iterated, or raises.  The
    assignment [xdata, ydata = ...] wants exactly two of them. *)

From Stdlib Require Import ZArith String Ascii List Bool Lia.
From stdpp Require Import base tactics option list.
From S2P Require Import Prelude PyStr FileSys.

(** [np.loadtxt(f, skiprows=n, unpack=b)] on the data of a file: the items
    of the array it returns, of a type [A] of arrays. *)
Class Loadtxt (A : Type) := loadtxt : str → nat → bool → result (list A).

(** What [loadASDFile] returns: [([], [])], or two arrays. *)
Inductive asd_data (A : Type) :=
  | NoData
  | Data (xdata ydata : A).
Arguments NoData {A}.
Arguments Data {A} xdata ydata.

(** [xdata, ydata = items] *)
Definition unpack_pair {A} (items : list A) : result (A * A) :=
  match items with
  | [x; y] => Ok (x, y)
  | _ => Raise ValueError
  end.

Section loader.
Context `{FileSys F} `{Loadtxt A}.

Definition loadASDFile (s : F) (filepath : str) : result (asd_data A) :=
  if negb (path_exists s filepath) then Ok NoData
  else
    content ← read_file s filepath;
    items ← loadtxt content 1 true;
    '(xdata, ydata) ← unpack_pair items;
    Ok (Data xdata ydata).

(** ** Lemmas *)

(** A file that does not exist gives the two empty lists, and no error. *)
Lemma loadASDFile_missing s filepath :
  path_exists s filepath = false → loadASDFile s filepath = Ok NoData.
Proof. intros Hp. unfold loadASDFile. by rewrite Hp. Qed.

(** Two arrays are returned exactly when the file is read and the array
    of [numpy.loadtxt] has two items, which are the two returned. *)
Lemma loadASDFile_Data s filepath x y :
  loadASDFile s filepath = Ok (Data x y) ↔
  ∃ content, read_file s filepath = Ok content ∧ loadtxt content 1 true = Ok [x; y].
Proof.
  unfold loadASDFile. split.
  - destruct (path_exists s filepath); cbn [negb]; [|done].
    destruct (read_file s filepath) as [content|e]; [|done]. cbn.
    destruct (loadtxt content 1 true) as [[|x' [|y' [|z l]]]|e] eqn:E; try done.
    cbn. intros [= -> ->]. eauto.
  - intros (content & Hc & Hl). rewrite (read_file_Ok_exists _ _ _ Hc), Hc. cbn.
    by rewrite Hl.
Qed.

(** A file with another number of columns makes the assignment raise
    [ValueError]. *)
Lemma loadASDFile_columns s filepath content items :
  read_file s filepath = Ok content → loadtxt content 1 true = Ok items →
  length items ≠ 2%nat → loadASDFile s filepath = Raise ValueError.
Proof.
  intros Hc Hl Hn. unfold loadASDFile.
  rewrite (read_file_Ok_exists _ _ _ Hc), Hc. cbn. rewrite Hl. cbn.
  by destruct items as [|x [|y [|z l]]].
Qed.

End loader.
